(** * PyVista: array-like wrappers, plotting themes and the axes actor

    A shallow embedding of
      - [pyvista/core/validation/_array_wrapper.py]  (module [ArrayWrapper]),
      - [pyvista/plotting/themes.py]                 (module [Themes]),
      - [pyvista/plotting/axes_actor.py]             (module [AxesActor]),
    together with the properties the specification states about them. *)

From Stdlib Require Import ZArith Lia.
From stdpp Require Import gmap strings list.

Open Scope Z_scope.
Open Scope string_scope.

Set Warnings "-register-all,-clear-no-such-hyp".

(** ** Python runtime: exceptions and fallible results *)

Module Py.

(** The exception classes the modelled code raises or catches.  [OtherError]
    stands for any class that is neither of the named ones. *)
Inductive exn_class :=
  | ValueError | TypeError | IndexError | KeyError | AttributeError
  | OverflowError | OtherError.

Record exn := Exn { exn_cls : exn_class; exn_msg : string }.

(** The outcome of a call: a value, or a raised exception. *)
Inductive res (A : Type) :=
  | Ok (a : A)
  | Raise (e : exn).
Arguments Ok {A} a.
Arguments Raise {A} e.

#[global] Instance exn_class_eq_dec : EqDecision exn_class.
Proof. solve_decision. Defined.

#[global] Instance res_ret : MRet res := fun _ a => Ok a.
#[global] Instance res_bind : MBind res := fun _ _ f m =>
  match m with Ok a => f a | Raise e => Raise e end.

(** [for x in xs: ys.append(f(x))], stopping at the first exception. *)
Fixpoint mapM {A B} (f : A → res B) (xs : list A) : res (list B) :=
  match xs with
  | [] => Ok []
  | x :: rest =>
      match f x with
      | Raise e => Raise e
      | Ok y => match mapM f rest with
                | Raise e => Raise e
                | Ok ys => Ok (y :: ys)
                end
      end
  end.

(** [isinstance(e, (ValueError, TypeError))] *)
Definition is_ValueError_or_TypeError (e : exn) : bool :=
  match exn_cls e with ValueError | TypeError => true | _ => false end.

(** The type objects [type(x)] can return for the values of the model: the
    three built-in numeric types, and every other class by qualified name
    (the NumPy scalar types among them). *)
Inductive py_type :=
  | T_float | T_int | T_bool
  | T_class (qualname : string).

#[global] Instance py_type_eq_dec : EqDecision py_type.
Proof. solve_decision. Defined.

Definition py_type_enc (t : py_type) : nat + string :=
  match t with
  | T_float => inl 0%nat | T_int => inl 1%nat | T_bool => inl 2%nat
  | T_class s => inr s
  end.

Definition py_type_dec (x : nat + string) : py_type :=
  match x with
  | inl 0%nat => T_float | inl 1%nat => T_int | inl _ => T_bool
  | inr s => T_class s
  end.

#[global] Instance py_type_countable : Countable py_type.
Proof.
  apply (inj_countable' py_type_enc py_type_dec).
  intros []; reflexivity.
Defined.

(** *** IEEE-754 binary64 numbers, by their 64-bit pattern *)

Section Floats.
#[local] Open Scope Z_scope.

(** [float(n)] for an integer: the binary64 pattern of the nearest double,
    ties to even. *)
Definition float_of_int (n : Z) : res Z :=
  if n =? 0 then Ok 0
  else
    let sign := if n <? 0 then 2 ^ 63 else 0 in
    let m := Z.abs n in
    let e := Z.log2 m in
    if e <=? 52 then Ok (sign + (e + 1023) * 2 ^ 52 + (m * 2 ^ (52 - e) - 2 ^ 52))
    else
      let sh := e - 52 in
      let q := m / 2 ^ sh in
      let r := m mod 2 ^ sh in
      let half := 2 ^ (sh - 1) in
      let q1 := if (half <? r) || ((r =? half) && Z.odd q) then q + 1 else q in
      let e1 := if q1 =? 2 ^ 53 then e + 1 else e in
      let q2 := if q1 =? 2 ^ 53 then 2 ^ 52 else q1 in
      if 1023 <? e1 then Raise (Exn OverflowError "int too large to convert to float")
      else Ok (sign + (e1 + 1023) * 2 ^ 52 + (q2 - 2 ^ 52)).

(** [int(x)] for a double given by its pattern: truncation towards zero. *)
Definition int_of_float (bits : Z) : res Z :=
  let ex := (bits / 2 ^ 52) mod 2 ^ 11 in
  let frac := bits mod 2 ^ 52 in
  if ex =? 2047 then
    if frac =? 0 then Raise (Exn OverflowError "cannot convert float infinity to integer")
    else Raise (Exn ValueError "cannot convert float NaN to integer")
  else if ex <? 1023 then Ok 0
  else
    let m := 2 ^ 52 + frac in
    let a := if 1075 <=? ex then m * 2 ^ (ex - 1075) else m / 2 ^ (1075 - ex) in
    Ok (if Z.testbit bits 63 then - a else a).

(** [bool(x)] for a double: false on [0.0] and [-0.0] only. *)
Definition bool_of_float (bits : Z) : bool := negb (bits mod 2 ^ 63 =? 0).

(** NaN: exponent all ones and a non-zero fraction. *)
Definition float_is_nan (bits : Z) : bool :=
  ((bits / 2 ^ 52) mod 2 ^ 11 =? 2047) && negb (bits mod 2 ^ 52 =? 0).

(** [a == b] on doubles: NaN equals nothing, [0.0 == -0.0]. *)
Definition float_eq (a b : Z) : bool :=
  negb (float_is_nan a) && negb (float_is_nan b)
  && ((a =? b) || ((a mod 2 ^ 63 =? 0) && (b mod 2 ^ 63 =? 0))).

(** [z == f] for an integer and a double: Python compares the exact values. *)
Definition int_float_eq (z : Z) (bits : Z) : bool :=
  let ex := (bits / 2 ^ 52) mod 2 ^ 11 in
  let frac := bits mod 2 ^ 52 in
  let m := if ex =? 0 then frac else 2 ^ 52 + frac in
  let e := if ex =? 0 then - 1074 else ex - 1075 in
  let sm := if Z.testbit bits 63 then - m else m in
  negb (ex =? 2047)
  && (if 0 <=? e then z =? sm * 2 ^ e else z * 2 ^ (- e) =? sm).

(** [f < z] for a double and an integer, on the exact values; false for
    NaN. *)
Definition float_lt_int (bits : Z) (z : Z) : bool :=
  let ex := (bits / 2 ^ 52) mod 2 ^ 11 in
  let frac := bits mod 2 ^ 52 in
  let m := if ex =? 0 then frac else 2 ^ 52 + frac in
  let e := if ex =? 0 then - 1074 else ex - 1075 in
  let sm := if Z.testbit bits 63 then - m else m in
  if ex =? 2047 then (frac =? 0) && Z.testbit bits 63
  else if 0 <=? e then sm * 2 ^ e <? z else sm <? z * 2 ^ (- e).

(** [f > z] *)
Definition float_gt_int (bits : Z) (z : Z) : bool :=
  let ex := (bits / 2 ^ 52) mod 2 ^ 11 in
  let frac := bits mod 2 ^ 52 in
  let m := if ex =? 0 then frac else 2 ^ 52 + frac in
  let e := if ex =? 0 then - 1074 else ex - 1075 in
  let sm := if Z.testbit bits 63 then - m else m in
  if ex =? 2047 then (frac =? 0) && negb (Z.testbit bits 63)
  else if 0 <=? e then z <? sm * 2 ^ e else z * 2 ^ (- e) <? sm.

End Floats.

End Py.
Export Py.

(** Closes a decidable goal on closed terms by evaluation. *)
Ltac by_evaluation := apply (bool_decide_unpack _); vm_compute; exact I.

(** Closes a goal [P → False] for a closed decidable [P] by evaluation. *)
Ltac by_evaluation_false :=
  let H := fresh in
  intros H; apply (bool_decide_pack _) in H; vm_compute in H; exact H.

(** ** [pyvista/core/validation/_array_wrapper.py] *)

Module ArrayWrapper.

(** *** Values and the object store

    Numbers are immediate values; sequences, arrays and wrappers are objects
    of the store, named by their address, so that "the same object" is
    equality of addresses. *)

Inductive val :=
  | VNone
  | VBool (b : bool)
  | VInt (z : Z)
  | VFloat (bits : Z)                      (* IEEE-754 binary64 pattern *)
  | VNumpy (scalar_type : string) (bits : Z)  (* e.g. numpy.float32, numpy.int64 *)
  | VStr (s : string)
  | VRef (a : nat).

(** The built-in sequence classes of [_FiniteNestedList] and
    [_FiniteNestedTuple] in [_typing_core/_array_like.py]. *)
Inductive seq_class := C_list | C_tuple.

(** [numpy.ndarray]: element type, shape and the flattened items. *)
Record ndarray := NdArray {
  nd_dtype : py_type;
  nd_shape : list nat;
  nd_items : list val;
}.

(** The four concrete subclasses of [_ArrayLikeWrapper]. *)
Inductive wrapper_class :=
  | _NumpyArrayWrapper | _NumberWrapper | _Sequence1DWrapper | _Sequence2DWrapper.

(** A wrapper instance: its class and the attributes [__new__] sets.
    [_dtype = None] is Python's [None] (the two sequence wrappers) or the
    attribute not being there (the other two, which never read it). *)
Record wrapper := Wrapper {
  w_class : wrapper_class;
  _array : val;
  _dtype : option py_type;
}.

Inductive obj :=
  | OSeq (c : seq_class) (items : list val)
  | ONdarray (a : ndarray)
  | OWrapper (w : wrapper)
  | OOther (cls : string).

Abbreviation heap := (gmap nat obj).

#[global] Instance val_eq_dec : EqDecision val.
Proof. solve_decision. Defined.
#[global] Instance seq_class_eq_dec : EqDecision seq_class.
Proof. solve_decision. Defined.
#[global] Instance wrapper_class_eq_dec : EqDecision wrapper_class.
Proof. solve_decision. Defined.

(** [object.__new__(cls)] followed by the [__setattr__] calls: a new object
    at an address not in use. *)
Definition alloc (h : heap) (o : obj) : heap * nat :=
  let a := fresh (dom h) in (<[a := o]> h, a).

Definition seq_class_type (c : seq_class) : py_type :=
  match c with C_list => T_class "list" | C_tuple => T_class "tuple" end.

Definition wrapper_class_type (k : wrapper_class) : py_type :=
  T_class match k with
          | _NumpyArrayWrapper => "_NumpyArrayWrapper"
          | _NumberWrapper => "_NumberWrapper"
          | _Sequence1DWrapper => "_Sequence1DWrapper"
          | _Sequence2DWrapper => "_Sequence2DWrapper"
          end.

(** [type(x)] *)
Definition type_of (h : heap) (x : val) : py_type :=
  match x with
  | VNone => T_class "NoneType"
  | VBool _ => T_bool
  | VInt _ => T_int
  | VFloat _ => T_float
  | VNumpy t _ => T_class t
  | VStr _ => T_class "str"
  | VRef a =>
      match h !! a with
      | Some (OSeq c _) => seq_class_type c
      | Some (ONdarray _) => T_class "numpy.ndarray"
      | Some (OWrapper w) => wrapper_class_type (w_class w)
      | Some (OOther cls) => T_class cls
      | None => T_class "object"
      end
  end.

(** [isinstance(x, _ArrayLikeWrapper)] *)
Definition isinstance_ArrayLikeWrapper (h : heap) (x : val) : bool :=
  match x with
  | VRef a => match h !! a with Some (OWrapper _) => true | _ => false end
  | _ => false
  end.

(** [isinstance(x, np.ndarray)] *)
Definition isinstance_ndarray (h : heap) (x : val) : bool :=
  match x with
  | VRef a => match h !! a with Some (ONdarray _) => true | _ => false end
  | _ => false
  end.

(** *** Helpers that are imported but are not part of the sources *)

(** The type guards of [pyvista.core._typing_core._type_guards] and the cast
    of [pyvista.core.validation._cast_array].  Each may return or raise. *)
Class TypeGuards := {
  _is_Number : heap → val → res bool;
  _is_NumberSequence1D : heap → val → res bool;
  _is_NumberSequence2D : heap → val → res bool;
  _cast_to_numpy : heap → val → res ndarray;
}.

(** Python built-ins the module calls: [reprlib.repr], the [repr] of a set
    of types inside an f-string, and calling a type object on one number
    ([dtype(x)]). *)
Class Builtins := {
  reprlib_repr : heap → val → string;
  repr_type_set : gset py_type → string;
  call_type : py_type → val → res val;
}.

(** *** [_get_dtype_from_iterable] *)

Section GetDtype.
Context `{Builtins}.

(** The [for] loop: [None] is the early [return float]; otherwise the set
    of types seen. *)
Fixpoint collect_dtypes (h : heap) (dtypes : gset py_type) (iterable : list val)
  : option (gset py_type) :=
  match iterable with
  | [] => Some dtypes
  | element :: rest =>
      let dtype := type_of h element in
      if decide (dtype = T_float) then None
      else collect_dtypes h ({[dtype]} ∪ dtypes) rest
  end.

Definition _get_dtype_from_iterable (h : heap) (iterable : list val) : res py_type :=
  match collect_dtypes h ∅ iterable with
  | None => Ok T_float
  | Some dtypes =>
      if decide (size dtypes = 0%nat) then Ok T_float
      else if decide (dtypes = {[T_int]} ∨ dtypes = {[T_bool; T_int]}) then Ok T_int
      else if decide (dtypes = {[T_bool]}) then Ok T_bool
      else Raise (Exn TypeError
                    ("Unexpected error: dtype should be numeric, got "
                     ++ repr_type_set dtypes ++ " instead."))
  end.

End GetDtype.

(** *** [_ArrayLikeWrapper.__new__] *)

Section New.
Context `{TypeGuards} `{Builtins}.

(** [w = object.__new__(cls); w.__setattr__('_array', arr)] and, for the two
    sequence wrappers, [w.__setattr__('_dtype', None)]; [return w]. *)
Definition wrap (h : heap) (cls : wrapper_class) (arr : val) : heap * res val :=
  let '(h', a) := alloc h (OWrapper (Wrapper cls arr None)) in (h', Ok (VRef a)).

(** The body of the [try] block.  A helper that raises leaves the store as it
    was: in the last branch the wrapper made by [object.__new__] before the
    cast is then unreachable. *)
Definition dispatch (h : heap) (x : val) : heap * res val :=
  if isinstance_ArrayLikeWrapper h x then (h, Ok x)
  else if isinstance_ndarray h x then wrap h _NumpyArrayWrapper x
  else
    match _is_NumberSequence1D h x with
    | Raise e => (h, Raise e)
    | Ok true => wrap h _Sequence1DWrapper x
    | Ok false =>
        match _is_NumberSequence2D h x with
        | Raise e => (h, Raise e)
        | Ok true => wrap h _Sequence2DWrapper x
        | Ok false =>
            match _is_Number h x with
            | Raise e => (h, Raise e)
            | Ok true => wrap h _NumberWrapper x
            | Ok false =>
                match _cast_to_numpy h x with
                | Raise e => (h, Raise e)
                | Ok nd =>
                    let '(h1, a) := alloc h (ONdarray nd) in
                    wrap h1 _NumpyArrayWrapper (VRef a)
                end
            end
        end
    end.

(** [f"The following array is not valid:\n\t{reprlib.repr(_array)}"] *)
Definition not_valid_msg (h : heap) (x : val) : string :=
  "The following array is not valid:"
  ++ String (Ascii.ascii_of_nat 10) (String (Ascii.ascii_of_nat 9) EmptyString)
  ++ reprlib_repr h x.

(** [try: ... except (ValueError, TypeError): raise ValueError(...)] *)
Definition _ArrayLikeWrapper_new (h : heap) (x : val) : heap * res val :=
  match dispatch h x with
  | (h', Ok w) => (h', Ok w)
  | (h', Raise e) =>
      if is_ValueError_or_TypeError e
      then (h', Raise (Exn ValueError (not_valid_msg h x)))
      else (h', Raise e)
  end.

End New.

(** *** The [shape], [ndim] and [size] properties *)

(** [len(x)] *)
Definition py_len (h : heap) (x : val) : res nat :=
  match x with
  | VStr s => Ok (String.length s)
  | VRef a =>
      match h !! a with
      | Some (OSeq _ items) => Ok (length items)
      | Some (ONdarray nd) =>
          match nd_shape nd with
          | n :: _ => Ok n
          | [] => Raise (Exn TypeError "len() of unsized object")
          end
      | _ => Raise (Exn TypeError "object has no len()")
      end
  | _ => Raise (Exn TypeError "object has no len()")
  end.

(** [x[0]] *)
Definition getitem0 (h : heap) (x : val) : res val :=
  match x with
  | VRef a =>
      match h !! a with
      | Some (OSeq _ (first :: _)) => Ok first
      | Some (OSeq _ []) => Raise (Exn IndexError "index out of range")
      | _ => Raise (Exn TypeError "object is not subscriptable")
      end
  | _ => Raise (Exn TypeError "object is not subscriptable")
  end.

(** [getattr(self._array, item)] of [_ArrayLikeWrapper.__getattr__], which
    serves [shape], [ndim] and [size] of a [_NumpyArrayWrapper]: NumPy
    derives the latter two from the shape. *)
Definition array_attr {A} (h : heap) (x : val) (attr : ndarray → A) : res A :=
  match x with
  | VRef a =>
      match h !! a with
      | Some (ONdarray nd) => Ok (attr nd)
      | _ => Raise (Exn AttributeError "object has no such attribute")
      end
  | _ => Raise (Exn AttributeError "object has no such attribute")
  end.

Definition prod_list (l : list nat) : nat := foldr Nat.mul 1%nat l.

Definition shape (h : heap) (w : wrapper) : res (list nat) :=
  match w_class w with
  | _NumberWrapper => Ok []
  | _Sequence1DWrapper => n ← py_len h (_array w); Ok [n]
  | _Sequence2DWrapper =>
      r ← py_len h (_array w);
      row ← getitem0 h (_array w);
      c ← py_len h row;
      Ok [r; c]
  | _NumpyArrayWrapper => array_attr h (_array w) nd_shape
  end.

Definition ndim (h : heap) (w : wrapper) : res nat :=
  match w_class w with
  | _NumberWrapper => Ok 0%nat
  | _Sequence1DWrapper => Ok 1%nat
  | _Sequence2DWrapper => Ok 2%nat
  | _NumpyArrayWrapper => array_attr h (_array w) (λ nd, length (nd_shape nd))
  end.

Definition size (h : heap) (w : wrapper) : res nat :=
  match w_class w with
  | _NumberWrapper => Ok 1%nat
  | _Sequence1DWrapper => py_len h (_array w)
  | _Sequence2DWrapper =>
      r ← py_len h (_array w);
      row ← getitem0 h (_array w);
      c ← py_len h row;
      Ok (r * c)%nat
  | _NumpyArrayWrapper => array_attr h (_array w) (λ nd, prod_list (nd_shape nd))
  end.

(** [_NumberWrapper.dtype]: [type(self._array)] *)
Definition number_dtype (h : heap) (w : wrapper) : py_type := type_of h (_array w).

(** *** [change_dtype] *)

(** CPython keeps one empty tuple: a tuple built from no items is that
    object and not a new one.  [the_empty_tuple] is the empty tuple of the
    store, when the store holds one. *)
Definition is_empty_tuple (o : obj) : bool :=
  match o with OSeq C_tuple [] => true | _ => false end.

Definition the_empty_tuple (h : heap) : option nat :=
  fst <$> head (filter (λ ao, is_empty_tuple ao.2 = true) (map_to_list h)).

(** [c(<items>)] for [c] one of [list] and [tuple]: a new sequence, except
    for a tuple without items, which is the empty tuple. *)
Definition new_seq (h : heap) (c : seq_class) (items : list val) : heap * nat :=
  match c, items, the_empty_tuple h with
  | C_tuple, [], Some a => (h, a)
  | _, _, _ => alloc h (OSeq c items)
  end.

Section ChangeDtype.
Context `{Builtins}.

(** [dtype(x)] for the argument of [change_dtype]: a type, or [None], which
    cannot be called. *)
Definition call_dtype (dtype : option py_type) (x : val) : res val :=
  match dtype with
  | Some t => call_type t x
  | None => Raise (Exn TypeError "'NoneType' object is not callable")
  end.

(** [x.__class__(dtype(item) for item in x)] for [x] a list or a tuple: the
    converted items in a sequence of the class of [x].  The annotations
    ([_array: _NumberSequence1D], [_NumberSequence2D]) admit nothing else;
    on any other value the model raises [TypeError]. *)
Definition rebuild (h : heap) (dtype : option py_type) (x : val) : res (heap * val) :=
  match x with
  | VRef a =>
      match h !! a with
      | Some (OSeq c items) =>
          match mapM (call_dtype dtype) items with
          | Raise e => Raise e
          | Ok items' =>
              let '(h1, s) := new_seq h c items' in Ok (h1, VRef s)
          end
      | _ => Raise (Exn TypeError "not a list or a tuple")
      end
  | _ => Raise (Exn TypeError "not a list or a tuple")
  end.

(** The outer generator of [_Sequence2DWrapper.change_dtype]: the rows are
    rebuilt one after the other. *)
Fixpoint rebuild_rows (h : heap) (dtype : option py_type) (rows : list val)
  : res (heap * list val) :=
  match rows with
  | [] => Ok (h, [])
  | sub_array :: rest =>
      match rebuild h dtype sub_array with
      | Raise e => Raise e
      | Ok (h1, row) =>
          match rebuild_rows h1 dtype rest with
          | Raise e => Raise e
          | Ok (h2, out) => Ok (h2, row :: out)
          end
      end
  end.

(** [change_dtype] of the wrapper at address [self], by class; [dtype] is a
    type or [None].  An exception leaves the store as it was (the
    assignment to [self._array] is not reached). *)
Definition change_dtype (h : heap) (self : nat) (dtype : option py_type)
  : heap * res () :=
  match h !! self with
  | Some (OWrapper w) =>
      match w_class w with
      | _NumberWrapper =>
          if decide (Some (number_dtype h w) = dtype) then (h, Ok ())
          else
            match call_dtype dtype (_array w) with
            | Raise e => (h, Raise e)
            | Ok v => (<[self := OWrapper (Wrapper _NumberWrapper v (_dtype w))]> h, Ok ())
            end
      | _Sequence1DWrapper =>
          match rebuild h dtype (_array w) with
          | Raise e => (h, Raise e)
          | Ok (h1, out) =>
              (<[self := OWrapper (Wrapper _Sequence1DWrapper out dtype)]> h1, Ok ())
          end
      | _Sequence2DWrapper =>
          match _array w with
          | VRef a =>
              match h !! a with
              | Some (OSeq c rows) =>
                  match rebuild_rows h dtype rows with
                  | Raise e => (h, Raise e)
                  | Ok (h1, rows') =>
                      let '(h2, s) := new_seq h1 c rows' in
                      (<[self := OWrapper (Wrapper _Sequence2DWrapper (VRef s) dtype)]> h2,
                       Ok ())
                  end
              | _ => (h, Raise (Exn TypeError "not a list or a tuple"))
              end
          | _ => (h, Raise (Exn TypeError "not a list or a tuple"))
          end
      | _NumpyArrayWrapper =>
          (* [self._array.astype(dtype, copy=False)]: the array itself when
             it has the element type already, a converted copy otherwise;
             [None] stands for NumPy's default element type *)
          let t := default (T_class "numpy.float64") dtype in
          match _array w with
          | VRef a =>
              match h !! a with
              | Some (ONdarray nd) =>
                  if decide (nd_dtype nd = t) then (h, Ok ())
                  else
                    match mapM (call_type t) (nd_items nd) with
                    | Raise e => (h, Raise e)
                    | Ok items' =>
                        let '(h1, s) := alloc h (ONdarray (NdArray t (nd_shape nd) items')) in
                        (<[self := OWrapper (Wrapper _NumpyArrayWrapper (VRef s) (_dtype w))]> h1,
                         Ok ())
                    end
              | _ => (h, Raise (Exn AttributeError "object has no attribute astype"))
              end
          | _ => (h, Raise (Exn AttributeError "object has no attribute astype"))
          end
      end
  | _ => (h, Raise (Exn AttributeError "not a wrapper"))
  end.

End ChangeDtype.

(** *** Reference instances of the helpers *)

Module Reference.

#[local] Open Scope Z_scope.

Definition in_int64 (z : Z) : bool := (- 2 ^ 63 <=? z) && (z <? 2 ^ 63).

(** Modelled from the spec: calling [float], [int], [bool], [numpy.float64],
    [numpy.int64] or [numpy.bool_] on a number of the three built-in types.
    The payload of a NumPy scalar is the pattern of the double, the integer,
    or 0/1.  Operands that are not built-in numbers are outside this
    instance and answered with [TypeError]. *)
Definition py_call (t : py_type) (x : val) : res val :=
  let unsupported {A} : res A := Raise (Exn TypeError "unsupported operand") in
  let as_int : res Z :=
    match x with
    | VBool b => Ok (Z.b2z b)
    | VInt z => Ok z
    | VFloat f => int_of_float f
    | _ => unsupported
    end in
  let as_float : res Z :=
    match x with
    | VBool b => float_of_int (Z.b2z b)
    | VInt z => float_of_int z
    | VFloat f => Ok f
    | _ => unsupported
    end in
  let as_bool : res bool :=
    match x with
    | VBool b => Ok b
    | VInt z => Ok (negb (z =? 0))
    | VFloat f => Ok (bool_of_float f)
    | _ => unsupported
    end in
  match t with
  | T_float => f ← as_float; Ok (VFloat f)
  | T_int => z ← as_int; Ok (VInt z)
  | T_bool => b ← as_bool; Ok (VBool b)
  | T_class "numpy.float64" => f ← as_float; Ok (VNumpy "numpy.float64" f)
  | T_class "numpy.int64" =>
      z ← as_int;
      if in_int64 z then Ok (VNumpy "numpy.int64" z)
      else Raise (Exn OverflowError "Python int too large to convert to C long")
  | T_class "numpy.bool_" => b ← as_bool; Ok (VNumpy "numpy.bool_" (Z.b2z b))
  | T_class _ => Raise (Exn TypeError "object is not callable")
  end.

(** Modelled from the spec: [reprlib.repr] and the [repr] of a set of types
    are not spelled out; a fixed text stands for them. *)
#[local] Instance builtins : Builtins := {
  reprlib_repr := λ _ _, "...";
  repr_type_set := λ _, "{...}";
  call_type := py_call;
}.

(** Membership in the bound of [_NumberType]:
    [Union[np.floating, np.integer, np.bool_, float, int, bool]]. *)
Definition is_number (x : val) : bool :=
  match x with
  | VBool _ | VInt _ | VFloat _ | VNumpy _ _ => true
  | _ => false
  end.

(** Modelled from the spec: a list or tuple whose items are all numbers. *)
Definition is_sequence1D (h : heap) (x : val) : bool :=
  match x with
  | VRef a =>
      match h !! a with
      | Some (OSeq _ items) => forallb is_number items
      | _ => false
      end
  | _ => false
  end.

(** Modelled from the spec: a list or tuple whose items are all 1D numeric
    sequences. *)
Definition is_sequence2D (h : heap) (x : val) : bool :=
  match x with
  | VRef a =>
      match h !! a with
      | Some (OSeq _ rows) => forallb (is_sequence1D h) rows
      | _ => false
      end
  | _ => false
  end.

(** The element kinds NumPy promotes between when it casts Python numbers:
    0 for [bool], 1 for [int] (within 64 bits), 2 for [float]. *)
Definition kind_rank (x : val) : option nat :=
  match x with
  | VBool _ => Some 0%nat
  | VInt z => if in_int64 z then Some 1%nat else None
  | VFloat _ => Some 2%nat
  | _ => None
  end.

Definition rank_dtype (r : nat) : py_type :=
  T_class match r with
          | 0%nat => "numpy.bool_"
          | 1%nat => "numpy.int64"
          | _ => "numpy.float64"
          end.

(** Shape and flattened items of a nested sequence; at most 32 levels, the
    number of dimensions NumPy allows. *)
Fixpoint nested_items (fuel : nat) (h : heap) (x : val) : res (list nat * list val) :=
  match fuel with
  | O => Raise (Exn ValueError "too many dimensions")
  | S fuel' =>
      if is_number x then Ok ([], [x])
      else
        match x with
        | VRef a =>
            match h !! a with
            | Some (OSeq _ items) =>
                subs ← mapM (nested_items fuel' h) items;
                match subs with
                | [] => Ok ([0%nat], [])
                | (s, _) :: _ =>
                    if forallb (λ p, bool_decide (p.1 = s)) subs
                    then Ok (length items :: s, concat (snd <$> subs))
                    else Raise (Exn ValueError "inhomogeneous shape")
                end
            | Some (ONdarray nd) => Ok (nd_shape nd, nd_items nd)
            | _ => Raise (Exn TypeError "Object arrays are not supported.")
            end
        | _ => Raise (Exn TypeError "Object arrays are not supported.")
        end
  end.

(** Modelled from the spec: [_cast_to_numpy] on nested sequences of built-in
    numbers: the items are promoted to the widest kind among them. *)
Definition cast_to_numpy (h : heap) (x : val) : res ndarray :=
  '(shp, items) ← nested_items 32 h x;
  match mapM (λ v, match kind_rank v with
                   | Some r => Ok r
                   | None => Raise (Exn TypeError "Object arrays are not supported.")
                   end) items with
  | Raise e => Raise e
  | Ok ranks =>
      let dtype := rank_dtype (foldr Nat.max (if ranks is [] then 2%nat else 0%nat) ranks) in
      items' ← mapM (py_call dtype) items;
      Ok (NdArray dtype shp items')
  end.

#[local] Instance type_guards : TypeGuards := {
  _is_Number := λ _ x, Ok (is_number x);
  _is_NumberSequence1D := λ h x, Ok (is_sequence1D h x);
  _is_NumberSequence2D := λ h x, Ok (is_sequence2D h x);
  _cast_to_numpy := cast_to_numpy;
}.

End Reference.

(** *** Properties *)

(** What a successful [wrap] looks like: the store [h] extended, at an
    address that was free, by a wrapper of class [cls] whose [_array] is
    [arr], and that address returned. *)
Definition wrapped_as (h : heap) (cls : wrapper_class) (arr : val)
    (out : heap * res val) : Prop :=
  ∃ a, h !! a = None
       ∧ out = (<[a := OWrapper (Wrapper cls arr None)]> h, Ok (VRef a)).



Lemma alloc_fresh (h : heap) (o : obj) : h !! (alloc h o).2 = None.
Proof. apply not_elem_of_dom, is_fresh. Qed.

Lemma alloc_lookup (h : heap) (o : obj) : (alloc h o).1 !! (alloc h o).2 = Some o.
Proof. apply lookup_insert_eq. Qed.

Lemma alloc_keeps (h : heap) (o o' : obj) (a : nat) :
  h !! a = Some o' → (alloc h o).1 !! a = Some o'.
Proof.
  intros Ha. unfold alloc; simpl. rewrite lookup_insert_ne; [done|].
  intros <-. pose proof (alloc_fresh h o) as Hf. unfold alloc in Hf; simpl in Hf.
  congruence.
Qed.

Lemma alloc_subseteq (h : heap) (o : obj) : h ⊆ (alloc h o).1.
Proof. apply insert_subseteq, (alloc_fresh h o). Qed.

Lemma wrap_wrapped_as (h : heap) (cls : wrapper_class) (arr : val) :
  wrapped_as h cls arr (wrap h cls arr).
Proof.
  exists (fresh (dom h)). split; [apply (alloc_fresh h (OOther EmptyString))|reflexivity].
Qed.

Section NewProperties.
Context `{TypeGuards} `{Builtins}.

Lemma new_of_dispatch_ok (h h' : heap) (x v : val) :
  dispatch h x = (h', Ok v) → _ArrayLikeWrapper_new h x = (h', Ok v).
Proof. unfold _ArrayLikeWrapper_new. by intros ->. Qed.

(** Every successful dispatch returns the address of a wrapper and only adds
    objects to the store. *)
Lemma dispatch_ok_inv (h h' : heap) (x v : val) :
  dispatch h x = (h', Ok v) →
  h ⊆ h' ∧ ∃ a w, v = VRef a ∧ h' !! a = Some (OWrapper w)
    ∧ (isinstance_ArrayLikeWrapper h x = true ∧ v = x ∧ h' = h
       ∨ isinstance_ArrayLikeWrapper h x = false ∧ h !! a = None
         ∧ ∃ arr, w = Wrapper (w_class w) arr None
           ∧ (w_class w ≠ _NumpyArrayWrapper → arr = x)).
Proof.
  unfold dispatch.
  assert (Hwrap : ∀ h0 cls arr,
    h ⊆ h0 → (cls ≠ _NumpyArrayWrapper → arr = x) →
    isinstance_ArrayLikeWrapper h x = false →
    wrap h0 cls arr = (h', Ok v) →
    h ⊆ h' ∧ ∃ a w, v = VRef a ∧ h' !! a = Some (OWrapper w)
    ∧ (isinstance_ArrayLikeWrapper h x = true ∧ v = x ∧ h' = h
       ∨ isinstance_ArrayLikeWrapper h x = false ∧ h !! a = None
         ∧ ∃ arr, w = Wrapper (w_class w) arr None
           ∧ (w_class w ≠ _NumpyArrayWrapper → arr = x))).
  { intros h0 cls arr Hsub Harr Hnw Hw. unfold wrap in Hw. simpl in Hw.
    injection Hw as <- <-. split.
    - etrans; [exact Hsub|]. apply (alloc_subseteq h0).
    - eexists _, _. split; [reflexivity|]. split; [apply lookup_insert_eq|].
      right. split; [done|]. split.
      + pose proof (alloc_fresh h0 (OOther EmptyString)) as Hf. simpl in Hf.
        destruct (h !! fresh (dom h0)) eqn:E; [|done].
        eapply lookup_weaken in E; [|exact Hsub]. congruence.
      + exists arr. done. }
  destruct (isinstance_ArrayLikeWrapper h x) eqn:Hw.
  { intros [= <- <-]. split; [done|].
    destruct x as [| | | | | |a]; try discriminate. simpl in Hw.
    destruct (h !! a) as [[| |w|]|] eqn:Ha; try discriminate.
    exists a, w. split; [done|]. split; [done|]. by left. }
  destruct (isinstance_ndarray h x).
  { apply Hwrap; done. }
  destruct (_is_NumberSequence1D h x) as [[]|]; [apply Hwrap; done| |done].
  destruct (_is_NumberSequence2D h x) as [[]|]; [apply Hwrap; done| |done].
  destruct (_is_Number h x) as [[]|]; [apply Hwrap; done| |done].
  destruct (_cast_to_numpy h x) as [nd|]; [|done].
  apply Hwrap; [apply (alloc_subseteq h)|done|done].
Qed.


End NewProperties.

Section NewTheorems.
Context `{TypeGuards} `{Builtins}.

(** C1.  [_ArrayLikeWrapper.__new__] dispatches on its input, in this order:
    a wrapper is returned unchanged; an ndarray is wrapped as it is in a
    [_NumpyArrayWrapper]; a 1D numeric sequence in a [_Sequence1DWrapper];
    a 2D nested numeric sequence in a [_Sequence2DWrapper]; a number in a
    [_NumberWrapper]; and any other input that [_cast_to_numpy] accepts is
    cast to a new array, which is wrapped in a [_NumpyArrayWrapper]. *)
Theorem new_dispatches_on_input (h : heap) (x : val) :
  (isinstance_ArrayLikeWrapper h x = true →
     _ArrayLikeWrapper_new h x = (h, Ok x))
  ∧ (isinstance_ArrayLikeWrapper h x = false →
     (isinstance_ndarray h x = true →
        wrapped_as h _NumpyArrayWrapper x (_ArrayLikeWrapper_new h x))
     ∧ (isinstance_ndarray h x = false →
        (_is_NumberSequence1D h x = Ok true →
           wrapped_as h _Sequence1DWrapper x (_ArrayLikeWrapper_new h x))
        ∧ (_is_NumberSequence1D h x = Ok false →
           (_is_NumberSequence2D h x = Ok true →
              wrapped_as h _Sequence2DWrapper x (_ArrayLikeWrapper_new h x))
           ∧ (_is_NumberSequence2D h x = Ok false →
              (_is_Number h x = Ok true →
                 wrapped_as h _NumberWrapper x (_ArrayLikeWrapper_new h x))
              ∧ (_is_Number h x = Ok false →
                 ∀ nd, _cast_to_numpy h x = Ok nd →
                   ∃ a, h !! a = None
                     ∧ wrapped_as (<[a := ONdarray nd]> h) _NumpyArrayWrapper (VRef a)
                         (_ArrayLikeWrapper_new h x)))))).
Proof.
  unfold _ArrayLikeWrapper_new, dispatch.
  split; [intros ->; reflexivity|intros ->].
  split; [intros ->; apply wrap_wrapped_as|intros ->].
  split; [intros ->; apply wrap_wrapped_as|intros ->].
  split; [intros ->; apply wrap_wrapped_as|intros ->].
  split; [intros ->; apply wrap_wrapped_as|intros ->].
  intros nd ->. exists (fresh (dom h)).
  split; [apply (alloc_fresh h (OOther EmptyString))|]. simpl. apply wrap_wrapped_as.
Qed.


(** C3.  Wrapping is idempotent: wrapping the result of a successful wrap
    returns that very object and changes nothing; a successful wrap leaves
    every object of the store as it was, and the [_array] of a new
    [_NumberWrapper], [_Sequence1DWrapper] or [_Sequence2DWrapper] is the
    input itself. *)
Theorem new_idempotent (h h1 : heap) (x v : val) :
  _ArrayLikeWrapper_new h x = (h1, Ok v) →
  _ArrayLikeWrapper_new h1 v = (h1, Ok v)
  ∧ h ⊆ h1
  ∧ ∀ a w, v = VRef a → h1 !! a = Some (OWrapper w) →
      isinstance_ArrayLikeWrapper h x = false →
      w_class w ≠ _NumpyArrayWrapper →
      _array w = x.
Proof.
  intros Hnew.
  assert (Hd : dispatch h x = (h1, Ok v)).
  { unfold _ArrayLikeWrapper_new in Hnew.
    destruct (dispatch h x) as [h' [v'|e]]; [done|].
    destruct (is_ValueError_or_TypeError e); done. }
  apply dispatch_ok_inv in Hd as (Hsub & a & w & -> & Ha & Hcase).
  split; [|split; [done|]].
  - apply new_of_dispatch_ok. unfold dispatch. simpl. by rewrite Ha.
  - intros a' w' [= <-] Ha' Hnw Hcls. rewrite Ha in Ha'. injection Ha' as <-.
    destruct Hcase as [(Hw & _)|(_ & _ & arr & Hwr & Harr)]; [congruence|].
    rewrite Hwr. simpl. apply Harr. done.
Qed.

End NewTheorems.

(** A store to run the constructor on: [[1, 2]], [([1, 2],)],
    [[([1, 2],)]], a float array of two items and a wrapper of the list. *)
Definition sample_heap : heap :=
  list_to_map
    [ (0%nat, OSeq C_list [VInt 1; VInt 2]);
      (1%nat, OSeq C_tuple [VRef 0]);
      (2%nat, OSeq C_list [VRef 1]);
      (3%nat, ONdarray (NdArray (T_class "numpy.float64") [2%nat]
                          [VNumpy "numpy.float64" 0; VNumpy "numpy.float64" 0]));
      (4%nat, OWrapper (Wrapper _Sequence1DWrapper (VRef 0) None)) ].

Lemma new_dispatches_on_input_witness :
  let new := @_ArrayLikeWrapper_new Reference.type_guards Reference.builtins in
  new sample_heap (VRef 4) = (sample_heap, Ok (VRef 4))
  ∧ wrapped_as sample_heap _NumpyArrayWrapper (VRef 3) (new sample_heap (VRef 3))
  ∧ wrapped_as sample_heap _Sequence1DWrapper (VRef 0) (new sample_heap (VRef 0))
  ∧ wrapped_as sample_heap _Sequence2DWrapper (VRef 1) (new sample_heap (VRef 1))
  ∧ wrapped_as sample_heap _NumberWrapper (VInt 7) (new sample_heap (VInt 7))
  ∧ ∃ a, sample_heap !! a = None
      ∧ wrapped_as
          (<[a := ONdarray (NdArray (T_class "numpy.int64") [1; 1; 2]%nat
                              [VNumpy "numpy.int64" 1; VNumpy "numpy.int64" 2])]>
             sample_heap)
          _NumpyArrayWrapper (VRef a) (new sample_heap (VRef 2)).
Proof.
  pose proof (@new_dispatches_on_input Reference.type_guards Reference.builtins
                sample_heap) as T.
  cbv zeta. split; [|split; [|split; [|split; [|split]]]].
  - destruct (T (VRef 4)) as [T0 _]. apply T0. vm_compute; reflexivity.
  - destruct (T (VRef 3)) as [_ T1]. apply T1; vm_compute; reflexivity.
  - destruct (T (VRef 0)) as [_ T1].
    destruct T1 as [_ T2]; [vm_compute; reflexivity|].
    apply T2; vm_compute; reflexivity.
  - destruct (T (VRef 1)) as [_ T1].
    destruct T1 as [_ T2]; [vm_compute; reflexivity|].
    destruct T2 as [_ T3]; [vm_compute; reflexivity|].
    destruct T3 as [T4 _]; [vm_compute; reflexivity|].
    apply T4; vm_compute; reflexivity.
  - destruct (T (VInt 7)) as [_ T1].
    destruct T1 as [_ T2]; [vm_compute; reflexivity|].
    destruct T2 as [_ T3]; [vm_compute; reflexivity|].
    destruct T3 as [_ T4]; [vm_compute; reflexivity|].
    destruct T4 as [T5 _]; [vm_compute; reflexivity|].
    apply T5; vm_compute; reflexivity.
  - destruct (T (VRef 2)) as [_ T1].
    destruct T1 as [_ T2]; [vm_compute; reflexivity|].
    destruct T2 as [_ T3]; [vm_compute; reflexivity|].
    destruct T3 as [_ T4]; [vm_compute; reflexivity|].
    destruct T4 as [_ T5]; [vm_compute; reflexivity|].
    apply T5; vm_compute; reflexivity.
Defined.




Lemma new_idempotent_witness :
  let new := @_ArrayLikeWrapper_new Reference.type_guards Reference.builtins in
  let h1 := <[5%nat := OWrapper (Wrapper _Sequence2DWrapper (VRef 1) None)]> sample_heap in
  new sample_heap (VRef 1) = (h1, Ok (VRef 5))
  ∧ new h1 (VRef 5) = (h1, Ok (VRef 5))
  ∧ sample_heap ⊆ h1.
Proof.
  cbv zeta.
  assert (Hnew : @_ArrayLikeWrapper_new Reference.type_guards Reference.builtins
                   sample_heap (VRef 1)
                 = (<[5%nat := OWrapper (Wrapper _Sequence2DWrapper (VRef 1) None)]>
                      sample_heap, Ok (VRef 5))).
  { vm_compute; reflexivity. }
  split; [exact Hnew|].
  destruct (new_idempotent _ _ _ _ Hnew) as (Hidem & Hsub & _).
  split; [exact Hidem|exact Hsub].
Defined.

Section GetDtypeProperties.
Context `{Builtins}.

(** The set of the types of the elements, [{type(x) for x in iterable}]. *)
Definition element_types (h : heap) (iterable : list val) : gset py_type :=
  list_to_set (type_of h <$> iterable).

Lemma collect_dtypes_float (h : heap) (iterable : list val) (dtypes : gset py_type) :
  (∃ x, x ∈ iterable ∧ type_of h x = T_float) →
  collect_dtypes h dtypes iterable = None.
Proof.
  revert dtypes. induction iterable as [|y rest IH]; intros dtypes [x [Hin Hx]].
  - by apply elem_of_nil in Hin.
  - simpl. case_decide as Hy; [done|]. apply IH.
    apply elem_of_cons in Hin as [->|Hin]; [done|eauto].
Qed.

Lemma collect_dtypes_no_float (h : heap) (iterable : list val) (dtypes : gset py_type) :
  (∀ x, x ∈ iterable → type_of h x ≠ T_float) →
  collect_dtypes h dtypes iterable = Some (element_types h iterable ∪ dtypes).
Proof.
  revert dtypes. induction iterable as [|y rest IH]; intros dtypes Hno.
  - unfold element_types. simpl. f_equal. set_solver.
  - simpl. case_decide as Hy.
    + exfalso. apply (Hno y); [apply elem_of_cons; by left|done].
    + rewrite IH.
      * f_equal. unfold element_types. simpl. set_solver.
      * intros x Hx. apply Hno, elem_of_cons. by right.
Qed.

Lemma element_types_empty (h : heap) (iterable : list val) :
  element_types h iterable = ∅ ↔ iterable = [].
Proof.
  split; [|intros ->; done].
  destruct iterable as [|y rest]; [done|]. unfold element_types. simpl.
  intros He. assert (type_of h y ∈ (∅ : gset py_type)) as Hin; [|set_solver].
  rewrite <- He. set_solver.
Qed.

Lemma float_in_element_types (h : heap) (iterable : list val) :
  T_float ∈ element_types h iterable ↔ ∃ x, x ∈ iterable ∧ type_of h x = T_float.
Proof.
  unfold element_types. rewrite elem_of_list_to_set, list_elem_of_fmap.
  split; intros (x & H1 & H2); eauto.
Qed.

(** C9.  [_get_dtype_from_iterable] returns [float] when some element has
    type [float] or there is no element; otherwise [int] when the element
    types are [{int}] or [{bool, int}], [bool] when every element is a
    [bool], and raises [TypeError] for any other set of types. *)
Theorem get_dtype_from_iterable_cases (h : heap) (iterable : list val) :
  let result := _get_dtype_from_iterable h iterable in
  let types := element_types h iterable in
  ((∃ x, x ∈ iterable ∧ type_of h x = T_float) ∨ iterable = [] →
     result = Ok T_float)
  ∧ (types = {[T_int]} ∨ types = {[T_bool; T_int]} → result = Ok T_int)
  ∧ (iterable ≠ [] → (∀ x, x ∈ iterable → type_of h x = T_bool) →
     result = Ok T_bool)
  ∧ (T_float ∉ types → iterable ≠ [] →
     types ≠ {[T_int]} → types ≠ {[T_bool; T_int]} → types ≠ {[T_bool]} →
     result = Raise (Exn TypeError
                       ("Unexpected error: dtype should be numeric, got "
                        ++ repr_type_set types ++ " instead."))).
Proof.
  cbv zeta. unfold _get_dtype_from_iterable.
  destruct (decide (T_float ∈ element_types h iterable)) as [Hf|Hf].
  { (* some element is a float: the loop returns early *)
    rewrite collect_dtypes_float by (by apply float_in_element_types).
    split; [done|]. split; [|split].
    - intros [He|He]; rewrite He in Hf; set_solver.
    - intros _ Hall. apply float_in_element_types in Hf as (x & Hx & Hty).
      rewrite (Hall x Hx) in Hty. done.
    - done. }
  rewrite collect_dtypes_no_float; last first.
  { intros x Hx Hty. apply Hf, float_in_element_types. eauto. }
  rewrite (right_id_L ∅ (∪)).
  destruct (decide (iterable = [])) as [->|Hne].
  { (* no element *)
    split; [done|]. split; [|split; done].
    intros [He|He]; unfold element_types in He; simpl in He; set_solver. }
  assert (Hsz : base.size (element_types h iterable) ≠ 0%nat).
  { intros Hz. apply size_empty_iff in Hz. apply leibniz_equiv in Hz.
    by apply element_types_empty in Hz. }
  rewrite decide_False by done.
  split; [|split; [|split]].
  - intros [Hex|He]; [|done]. exfalso. by apply Hf, float_in_element_types.
  - intros Hint. by rewrite decide_True.
  - intros _ Hall.
    assert (Hb : element_types h iterable = {[T_bool]}).
    { apply set_eq. intros t. rewrite elem_of_singleton.
      unfold element_types. rewrite elem_of_list_to_set, list_elem_of_fmap. split.
      - intros (x & -> & Hx). by apply Hall.
      - intros ->. destruct iterable as [|y rest]; [done|].
        exists y. split; [symmetry; apply Hall|]; apply elem_of_cons; by left. }
    rewrite Hb. rewrite decide_False by (intros [E|E]; set_solver).
    by rewrite decide_True.
  - intros _ _ H1 H2 H3.
    rewrite decide_False by (intros [E|E]; done).
    by rewrite decide_False.
Qed.

End GetDtypeProperties.


Lemma get_dtype_from_iterable_cases_witness :
  let get := @_get_dtype_from_iterable Reference.builtins ∅ in
  get [VInt 1; VFloat 0; VInt 2] = Ok T_float
  ∧ get [] = Ok T_float
  ∧ get [VInt 1; VBool true; VInt 3] = Ok T_int
  ∧ get [VBool false; VBool true] = Ok T_bool
  ∧ get [VNumpy "numpy.int64" 1; VInt 2]
    = Raise (Exn TypeError
               ("Unexpected error: dtype should be numeric, got "
                ++ @repr_type_set Reference.builtins
                     (element_types ∅ [VNumpy "numpy.int64" 1; VInt 2])
                ++ " instead.")).
Proof.
  pose proof (@get_dtype_from_iterable_cases Reference.builtins ∅) as T.
  cbv zeta. split; [|split; [|split; [|split]]].
  - apply (T [VInt 1; VFloat 0; VInt 2]). left. exists (VFloat 0).
    split; [by_evaluation|reflexivity].
  - apply (T []). by right.
  - apply (T [VInt 1; VBool true; VInt 3]). right. by_evaluation.
  - apply (T [VBool false; VBool true]); [done|].
    intros x Hx. repeat (apply elem_of_cons in Hx as [->|Hx]; [reflexivity|]).
    by apply elem_of_nil in Hx.
  - apply (T [VNumpy "numpy.int64" 1; VInt 2]); [by_evaluation|done|..]; by_evaluation.
Defined.

(** C8.  [shape], [ndim] and [size] agree on every wrapper: wherever [shape]
    is defined, [ndim] is its length and [size] the product of its entries.
    A [_NumberWrapper] has shape [()], [ndim] 0 and [size] 1; a
    [_Sequence1DWrapper] of a sequence of [n] items has shape [(n,)], [ndim]
    1 and [size] [n]; a [_Sequence2DWrapper] of [r] rows whose first row has
    [c] items has shape [(r, c)], [ndim] 2 and [size] [r * c]. *)
Theorem shape_ndim_size_consistent (h : heap) (w : wrapper) :
  (∀ s, shape h w = Ok s →
     ndim h w = Ok (length s) ∧ size h w = Ok (prod_list s))
  ∧ (w_class w = _NumberWrapper →
     shape h w = Ok [] ∧ ndim h w = Ok 0%nat ∧ size h w = Ok 1%nat)
  ∧ (∀ a c items,
       w_class w = _Sequence1DWrapper →
       _array w = VRef a → h !! a = Some (OSeq c items) →
       shape h w = Ok [length items] ∧ ndim h w = Ok 1%nat
       ∧ size h w = Ok (length items))
  ∧ (∀ a c b rows c' first,
       w_class w = _Sequence2DWrapper →
       _array w = VRef a → h !! a = Some (OSeq c (VRef b :: rows)) →
       h !! b = Some (OSeq c' first) →
       shape h w = Ok [S (length rows); length first] ∧ ndim h w = Ok 2%nat
       ∧ size h w = Ok (S (length rows) * length first)%nat).
Proof.
  unfold shape, ndim, size. split; [|split; [|split]].
  - intros s. destruct (w_class w).
    + unfold array_attr. destruct (_array w) as [| | | | | |a]; try done.
      destruct (h !! a) as [[| nd | |]|]; try done. by intros [= <-].
    + by intros [= <-].
    + destruct (py_len h (_array w)) as [n|]; [|done]. simpl.
      intros [= <-]. simpl. split; [done|]. f_equal. lia.
    + destruct (py_len h (_array w)) as [r|]; [|done]. simpl.
      destruct (getitem0 h (_array w)) as [row|]; [|done]. simpl.
      destruct (py_len h row) as [c|]; [|done]. simpl.
      intros [= <-]. simpl. split; [done|]. f_equal. lia.
  - by intros ->.
  - intros a c items -> -> Ha. simpl. by rewrite Ha.
  - intros a c b rows c' first -> -> Ha Hb. simpl. rewrite Ha. simpl. by rewrite Hb.
Qed.

Lemma shape_ndim_size_consistent_witness :
  let w1 := Wrapper _Sequence1DWrapper (VRef 0) None in
  let w2 := Wrapper _Sequence2DWrapper (VRef 1) None in
  let w3 := Wrapper _NumpyArrayWrapper (VRef 3) None in
  (shape sample_heap w1 = Ok [2%nat] ∧ ndim sample_heap w1 = Ok 1%nat
   ∧ size sample_heap w1 = Ok 2%nat)
  ∧ (shape sample_heap w2 = Ok [1%nat; 2%nat] ∧ ndim sample_heap w2 = Ok 2%nat
     ∧ size sample_heap w2 = Ok 2%nat)
  ∧ (shape sample_heap w3 = Ok [2%nat]
     ∧ ndim sample_heap w3 = Ok 1%nat ∧ size sample_heap w3 = Ok 2%nat).
Proof.
  cbv zeta. split; [|split].
  - destruct (shape_ndim_size_consistent sample_heap
                (Wrapper _Sequence1DWrapper (VRef 0) None)) as (_ & _ & T & _).
    apply (T 0%nat C_list [VInt 1; VInt 2]); reflexivity.
  - destruct (shape_ndim_size_consistent sample_heap
                (Wrapper _Sequence2DWrapper (VRef 1) None)) as (_ & _ & _ & T).
    apply (T 1%nat C_tuple 0%nat [] C_list [VInt 1; VInt 2]); reflexivity.
  - assert (Hs : shape sample_heap (Wrapper _NumpyArrayWrapper (VRef 3) None)
                 = Ok [2%nat]) by reflexivity.
    split; [exact Hs|].
    apply (shape_ndim_size_consistent sample_heap _) in Hs. exact Hs.
Defined.

(** The empty tuple of the store is an empty tuple, the store has one as
    soon as it holds an empty tuple, and it is that one when there is no
    other. *)
Lemma the_empty_tuple_Some (h : heap) (a : nat) :
  the_empty_tuple h = Some a → h !! a = Some (OSeq C_tuple []).
Proof.
  unfold the_empty_tuple. intros Hhead.
  destruct (head _) as [[a' o]|] eqn:E; [|done]. simpl in Hhead. injection Hhead as ->.
  apply head_Some_elem_of in E. apply list_elem_of_filter in E as [Hp Hin].
  simpl in Hp. apply elem_of_map_to_list in Hin.
  destruct o as [[] []| | |]; done.
Qed.

Lemma the_empty_tuple_is_Some (h : heap) (a : nat) :
  h !! a = Some (OSeq C_tuple []) → is_Some (the_empty_tuple h).
Proof.
  intros Ha. unfold the_empty_tuple. apply fmap_is_Some, head_is_Some.
  intros Hnil.
  apply (filter_nil_not_elem_of _ _ (a, OSeq C_tuple [])) in Hnil; [|done].
  apply Hnil. by apply elem_of_map_to_list.
Qed.

Lemma the_empty_tuple_unique (h : heap) (a : nat) :
  h !! a = Some (OSeq C_tuple []) →
  (∀ b, h !! b = Some (OSeq C_tuple []) → b = a) →
  the_empty_tuple h = Some a.
Proof.
  intros Ha Hall. destruct (the_empty_tuple_is_Some h a Ha) as [b Hb].
  rewrite Hb. f_equal. by apply Hall, the_empty_tuple_Some.
Qed.

Lemma new_seq_lookup (h : heap) (c : seq_class) (items : list val) :
  (new_seq h c items).1 !! (new_seq h c items).2 = Some (OSeq c items).
Proof.
  unfold new_seq. destruct c, items; try apply alloc_lookup.
  destruct (the_empty_tuple h) eqn:E; [|apply alloc_lookup].
  by apply the_empty_tuple_Some.
Qed.

Lemma new_seq_subseteq (h : heap) (c : seq_class) (items : list val) :
  h ⊆ (new_seq h c items).1.
Proof.
  unfold new_seq. destruct c, items; try apply alloc_subseteq.
  destruct (the_empty_tuple h); [done|apply alloc_subseteq].
Qed.

(** Anything but a tuple without items is a new object. *)
Lemma new_seq_fresh (h : heap) (c : seq_class) (items : list val) :
  c = C_list ∨ items ≠ [] →
  ∃ s, h !! s = None ∧ new_seq h c items = (<[s := OSeq c items]> h, s).
Proof.
  intros Hc. exists (alloc h (OSeq c items)).2. split; [apply alloc_fresh|].
  unfold new_seq. destruct c, items; try done. by destruct Hc.
Qed.

(** A tuple without items is the empty tuple of the store, and the store
    is left as it is. *)
Lemma new_seq_empty_tuple (h : heap) (a : nat) :
  the_empty_tuple h = Some a → new_seq h C_tuple [] = (h, a).
Proof. intros Ha. unfold new_seq. by rewrite Ha. Qed.

Section ChangeDtypeProperties.
Context `{Builtins}.

Lemma mapM_Forall2 {A B} (f : A → res B) (xs : list A) (ys : list B) :
  mapM f xs = Ok ys ↔ Forall2 (λ x y, f x = Ok y) xs ys.
Proof.
  revert ys. induction xs as [|x xs IH]; intros ys; simpl.
  - split; [intros [= <-]; constructor|by intros ->%Forall2_nil_inv_l].
  - destruct (f x) as [y|e] eqn:Hx.
    + destruct (mapM f xs) as [ys'|e] eqn:Hxs.
      * split.
        -- intros [= <-]. constructor; [done|]. by apply IH.
        -- intros (y' & ys'' & Hy & Hys & ->)%Forall2_cons_inv_l.
           apply IH in Hys. congruence.
      * split; [done|].
        intros (y' & ys'' & Hy & Hys & ->)%Forall2_cons_inv_l.
        apply IH in Hys. done.
    + split; [done|].
      intros (y' & ys'' & Hy & Hys & ->)%Forall2_cons_inv_l. congruence.
Qed.

(** A row that [change_dtype] can convert: a list or tuple of the store all
    of whose items [dtype] accepts. *)
Definition convertible_row (h : heap) (dtype : option py_type) (row : val) : Prop :=
  ∃ a c items items',
    row = VRef a ∧ h !! a = Some (OSeq c items)
    ∧ mapM (call_dtype dtype) items = Ok items'.

(** [row'] is the conversion of [row]: a sequence of the same class holding
    [dtype(item)] for each item of [row], in order. *)
Definition converted_row (h h' : heap) (dtype : option py_type) (row row' : val)
  : Prop :=
  ∃ a a' c items items',
    row = VRef a ∧ row' = VRef a'
    ∧ h !! a = Some (OSeq c items)
    ∧ h' !! a' = Some (OSeq c items')
    ∧ Forall2 (λ x y, call_dtype dtype x = Ok y) items items'.

Lemma converted_row_weaken (h h1 h2 : heap) dtype row row' :
  h1 ⊆ h2 → converted_row h h1 dtype row row' → converted_row h h2 dtype row row'.
Proof.
  intros Hsub (a & a' & c & items & items' & -> & -> & Ha & Ha' & Hall).
  exists a, a', c, items, items'. repeat split; try done.
  eapply lookup_weaken; done.
Qed.

Lemma rebuild_ok (h0 h : heap) (dtype : option py_type) (a : nat) (c : seq_class)
    (items items' : list val) :
  h0 ⊆ h → h0 !! a = Some (OSeq c items) →
  mapM (call_dtype dtype) items = Ok items' →
  ∃ h1 s, rebuild h dtype (VRef a) = Ok (h1, VRef s)
          ∧ h ⊆ h1 ∧ h1 !! s = Some (OSeq c items').
Proof.
  intros Hsub Ha Hm. unfold rebuild. rewrite (lookup_weaken _ _ _ _ Ha Hsub), Hm.
  pose proof (new_seq_lookup h c items') as Hl.
  pose proof (new_seq_subseteq h c items') as Hs.
  destruct (new_seq h c items') as [h1 s]. by exists h1, s.
Qed.

Lemma rebuild_rows_ok (h0 h : heap) (dtype : option py_type) (rows : list val) :
  h0 ⊆ h →
  Forall (convertible_row h0 dtype) rows →
  ∃ h' rows',
    rebuild_rows h dtype rows = Ok (h', rows')
    ∧ h ⊆ h' ∧ Forall2 (converted_row h0 h' dtype) rows rows'.
Proof.
  revert h. induction rows as [|row rest IH]; intros h Hsub Hrows.
  - exists h, []. simpl. repeat split; [done|constructor].
  - apply Forall_cons in Hrows as [(a & c & items & items' & -> & Ha & Hm) Hrest].
    destruct (rebuild_ok h0 h dtype a c items items' Hsub Ha Hm)
      as (h1 & s & Hrb & Hh1 & Hs).
    destruct (IH h1) as (h' & rows' & Hrest' & Hsub' & Hall); [by etrans|done|].
    exists h', (VRef s :: rows'). cbn [rebuild_rows]. rewrite Hrb, Hrest'.
    split; [done|].
    split; [by etrans|]. constructor; [|done].
    exists a, s, c, items, items'. repeat split; try done.
    + eapply lookup_weaken; done.
    + by apply mapM_Forall2.
Qed.

(** What a successful [rebuild_rows] has made: sequences of the store
    holding the converted items of some sequence. *)
Definition rebuilt (h' : heap) (dtype : option py_type) (row' : val) : Prop :=
  ∃ a' c items items',
    row' = VRef a' ∧ h' !! a' = Some (OSeq c items')
    ∧ mapM (call_dtype dtype) items = Ok items'.

Lemma rebuild_inv (h h1 : heap) (dtype : option py_type) (x out : val) :
  rebuild h dtype x = Ok (h1, out) → h ⊆ h1 ∧ rebuilt h1 dtype out.
Proof.
  unfold rebuild. destruct x as [| | | | | |a]; try done.
  destruct (h !! a) as [[c items| | |]|]; try done.
  destruct (mapM (call_dtype dtype) items) as [items'|e] eqn:Hm; [|done].
  pose proof (new_seq_lookup h c items') as Hl.
  pose proof (new_seq_subseteq h c items') as Hs.
  destruct (new_seq h c items') as [h' s]. intros [= <- <-].
  split; [done|]. by exists s, c, items, items'.
Qed.

Lemma rebuild_rows_inv (dtype : option py_type) (rows : list val) :
  ∀ h h' rows',
    rebuild_rows h dtype rows = Ok (h', rows') →
    h ⊆ h' ∧ Forall (rebuilt h' dtype) rows'.
Proof.
  induction rows as [|row rest IH]; intros h h' rows'; simpl.
  - intros [= <- <-]. split; [done|constructor].
  - destruct (rebuild h dtype row) as [[h1 out]|e] eqn:Hrb; [|done].
    destruct (rebuild_rows h1 dtype rest) as [[h2 outs]|e] eqn:Hrest; [|done].
    intros [= <- <-]. apply rebuild_inv in Hrb as [Hsub1 Hout].
    apply IH in Hrest as [Hsub2 Houts]. split; [by etrans|].
    constructor; [|done].
    destruct Hout as (a' & c & items & items' & -> & Ha' & Hm).
    exists a', c, items, items'. repeat split; try done.
    eapply lookup_weaken; done.
Qed.

Lemma shape_of_converted_rows (h h' : heap) (dtype : option py_type) (w w' : wrapper)
    (a s : nat) (c : seq_class) (rows rows' : list val) :
  w_class w = _Sequence2DWrapper → _array w = VRef a →
  w_class w' = _Sequence2DWrapper → _array w' = VRef s →
  h !! a = Some (OSeq c rows) → h' !! s = Some (OSeq c rows') →
  Forall2 (converted_row h h' dtype) rows rows' →
  shape h' w' = shape h w.
Proof.
  intros Hcls Harr Hcls' Harr' Ha Hs Hrel.
  unfold shape. rewrite Hcls, Hcls', Harr, Harr'. simpl. rewrite Hs, Ha. simpl.
  rewrite (Forall2_length _ _ _ Hrel).
  destruct Hrel as [|r r' rest rest' Hr Hrest]; [done|].
  destruct Hr as (b & b' & cb & items & items' & -> & -> & Hb & Hb' & Hit).
  simpl. rewrite Hb, Hb'. simpl. by rewrite (Forall2_length _ _ _ Hit).
Qed.

Lemma change_dtype_raise_keeps_store (h : heap) (self : nat) (dtype : option py_type)
    (e : exn) :
  (change_dtype h self dtype).2 = Raise e → (change_dtype h self dtype).1 = h.
Proof.
  unfold change_dtype.
  repeat (case_match; simpl; try done).
Qed.

(** C10.  [change_dtype] keeps the container and the shape.  On a
    [_Sequence1DWrapper] whose items [dtype] accepts, [_array] becomes a
    sequence of the same class holding [dtype(x)] for each item [x], and
    [_dtype] becomes [dtype]; on a [_Sequence2DWrapper] the same holds row by
    row, the outer and each inner class kept; the shape is the same before
    and after.  On a [_NumberWrapper] whose dtype is the one asked for,
    nothing changes.  A call that raises leaves the store as it was. *)
Theorem change_dtype_keeps_container
    (h : heap) (self : nat) (w : wrapper) (dtype : option py_type) :
  h !! self = Some (OWrapper w) →
  (∀ a c items items',
     w_class w = _Sequence1DWrapper →
     _array w = VRef a → h !! a = Some (OSeq c items) →
     mapM (call_dtype dtype) items = Ok items' →
     ∃ h' s w',
       change_dtype h self dtype = (h', Ok ())
       ∧ h' !! self = Some (OWrapper w')
       ∧ w' = Wrapper _Sequence1DWrapper (VRef s) dtype
       ∧ h' !! s = Some (OSeq c items')
       ∧ Forall2 (λ x y, call_dtype dtype x = Ok y) items items'
       ∧ shape h' w' = shape h w)
  ∧ (∀ a c rows,
       w_class w = _Sequence2DWrapper →
       _array w = VRef a → h !! a = Some (OSeq c rows) →
       Forall (convertible_row h dtype) rows →
       ∃ h' s rows' w',
         change_dtype h self dtype = (h', Ok ())
         ∧ h' !! self = Some (OWrapper w')
         ∧ w' = Wrapper _Sequence2DWrapper (VRef s) dtype
         ∧ h' !! s = Some (OSeq c rows')
         ∧ Forall2 (converted_row h h' dtype) rows rows'
         ∧ shape h' w' = shape h w)
  ∧ (w_class w = _NumberWrapper → Some (number_dtype h w) = dtype →
     change_dtype h self dtype = (h, Ok ()))
  ∧ (∀ e, (change_dtype h self dtype).2 = Raise e →
     (change_dtype h self dtype).1 = h).
Proof.
  intros Hself. split; [|split; [|split]].
  - intros a c items items' Hcls Harr Ha Hm.
    destruct (rebuild_ok h h dtype a c items items') as (h1 & s & Hrb & Hsub & Hs);
      [done|done|done|].
    unfold change_dtype. rewrite Hself, Hcls, Harr, Hrb.
    assert (Hne : self ≠ s).
    { intros <-. rewrite (lookup_weaken _ _ _ _ Hself Hsub) in Hs. done. }
    eexists _, s, _. split; [reflexivity|].
    split; [apply lookup_insert_eq|]. split; [reflexivity|].
    assert (Hs' : (<[self:=OWrapper (Wrapper _Sequence1DWrapper (VRef s) dtype)]> h1) !! s
                  = Some (OSeq c items')).
    { by rewrite lookup_insert_ne. }
    split; [exact Hs'|].
    apply mapM_Forall2 in Hm. split; [done|].
    unfold shape. rewrite Hcls. simpl. rewrite Harr. simpl. rewrite Hs', Ha. simpl.
    by rewrite (Forall2_length _ _ _ Hm).
  - intros a c rows Hcls Harr Ha Hrows.
    unfold change_dtype. rewrite Hself, Hcls, Harr, Ha.
    destruct (rebuild_rows_ok h h dtype rows) as (h1 & rows' & Hrb & Hsub & Hall);
      [done|done|].
    rewrite Hrb.
    pose proof (new_seq_lookup h1 c rows') as Hl.
    pose proof (new_seq_subseteq h1 c rows') as Hsub2.
    destruct (new_seq h1 c rows') as [h2 s]. simpl in Hl, Hsub2.
    assert (Hself2 : h2 !! self = Some (OWrapper w)).
    { eapply lookup_weaken; [|exact Hsub2]. eapply lookup_weaken; done. }
    assert (Hne : self ≠ s) by congruence.
    set (w' := Wrapper _Sequence2DWrapper (VRef s) dtype).
    set (h' := <[self:=OWrapper w']> h2).
    assert (Hs' : h' !! s = Some (OSeq c rows')).
    { unfold h'. by rewrite lookup_insert_ne. }
    assert (Hrel : Forall2 (converted_row h h' dtype) rows rows').
    { eapply Forall2_impl; [exact Hall|].
      intros r r' (b & b' & cb & items & items' & -> & -> & Hb & Hb' & Hit).
      exists b, b', cb, items, items'.
      split; [done|]. split; [done|]. split; [done|]. split; [|done].
      assert (Hb2 : h2 !! b' = Some (OSeq cb items')) by (eapply lookup_weaken; done).
      assert (self ≠ b') by congruence.
      unfold h'. by rewrite lookup_insert_ne. }
    exists h', s, rows', w'. split; [reflexivity|].
    split; [apply lookup_insert_eq|]. split; [reflexivity|].
    split; [exact Hs'|]. split; [exact Hrel|].
    apply (shape_of_converted_rows h h' dtype w w' a s c rows rows'); done.
  - intros Hcls Hd. unfold change_dtype. rewrite Hself, Hcls.
    by rewrite decide_True.
  - apply change_dtype_raise_keeps_store.
Qed.

End ChangeDtypeProperties.

(** [sample_heap] with a wrapper of the nested tuple and one of the number 3. *)
Definition sample_heap_wrapped : heap :=
  <[5%nat := OWrapper (Wrapper _Sequence2DWrapper (VRef 1) None)]>
    (<[6%nat := OWrapper (Wrapper _NumberWrapper (VInt 3) None)]> sample_heap).

Lemma change_dtype_keeps_container_witness :
  let change := @change_dtype Reference.builtins sample_heap_wrapped in
  (∃ h' s,
     change 4%nat (Some T_float) = (h', Ok ())
     ∧ h' !! 4%nat = Some (OWrapper (Wrapper _Sequence1DWrapper (VRef s) (Some T_float)))
     ∧ h' !! s = Some (OSeq C_list [VFloat 0x3FF0000000000000; VFloat 0x4000000000000000]))
  ∧ (∃ h' s rows',
       change 5%nat (Some T_bool) = (h', Ok ())
       ∧ h' !! 5%nat = Some (OWrapper (Wrapper _Sequence2DWrapper (VRef s) (Some T_bool)))
       ∧ h' !! s = Some (OSeq C_tuple rows')
       ∧ Forall2 (@converted_row Reference.builtins sample_heap_wrapped h' (Some T_bool))
           [VRef 0] rows')
  ∧ change 6%nat (Some T_int) = (sample_heap_wrapped, Ok ()).
Proof.
  cbv zeta. split; [|split].
  - destruct (@change_dtype_keeps_container Reference.builtins sample_heap_wrapped 4%nat
                (Wrapper _Sequence1DWrapper (VRef 0) None) (Some T_float) eq_refl)
      as (T & _).
    destruct (T 0%nat C_list [VInt 1; VInt 2]
                [VFloat 0x3FF0000000000000; VFloat 0x4000000000000000]
                eq_refl eq_refl eq_refl eq_refl)
      as (h' & s & w' & Hc & Hself & -> & Hs & _).
    exists h', s. done.
  - destruct (@change_dtype_keeps_container Reference.builtins sample_heap_wrapped 5%nat
                (Wrapper _Sequence2DWrapper (VRef 1) None) (Some T_bool) eq_refl)
      as (_ & T & _).
    destruct (T 1%nat C_tuple [VRef 0] eq_refl eq_refl eq_refl)
      as (h' & s & rows' & w' & Hc & Hself & -> & Hs & Hrows & _).
    + constructor; [|constructor].
      exists 0%nat, C_list, [VInt 1; VInt 2], [VBool true; VBool true]. done.
    + exists h', s, rows'. done.
  - destruct (@change_dtype_keeps_container Reference.builtins sample_heap_wrapped 6%nat
                (Wrapper _NumberWrapper (VInt 3) None) (Some T_int) eq_refl)
      as (_ & _ & T & _).
    apply T; reflexivity.
Defined.

(** *** Iteration, [dtype], [to_list], [to_tuple] and [all_func]

    As for [change_dtype], the wrapped sequences are lists and tuples, which
    is what the annotations of [_array] admit; iterating over any other
    value raises [TypeError] in the model. *)

(** What a [for] loop over an iterable sees: the items it yields and, if the
    iteration ends with an exception instead of [StopIteration], that
    exception. *)
Record iteration := Iteration {
  yielded : list val;
  raised : option exn;
}.

(** The items of a list or tuple. *)
Definition seq_items (h : heap) (x : val) : res (list val) :=
  match x with
  | VRef a =>
      match h !! a with
      | Some (OSeq _ items) => Ok items
      | _ => Raise (Exn TypeError "object is not iterable")
      end
  | _ => Raise (Exn TypeError "object is not iterable")
  end.

(** Iterating over [x]. *)
Definition iterate (h : heap) (x : val) : iteration :=
  match seq_items h x with
  | Ok items => Iteration items None
  | Raise e => Iteration [] (Some e)
  end.

(** [itertools.chain.from_iterable(rows)]: the rows are opened one after
    the other, each when the one before is exhausted. *)
Fixpoint chain_from_iterable (h : heap) (rows : list val) : iteration :=
  match rows with
  | [] => Iteration [] None
  | row :: rest =>
      match seq_items h row with
      | Raise e => Iteration [] (Some e)
      | Ok items =>
          let r := chain_from_iterable h rest in
          Iteration (items ++ yielded r) (raised r)
      end
  end.

(** [as_iterable], by class: [(self._array,)], [self._array],
    [itertools.chain.from_iterable(self._array)] and
    [self._array.flatten()]. *)
Definition as_iterable (h : heap) (w : wrapper) : iteration :=
  match w_class w with
  | _NumberWrapper => Iteration [_array w] None
  | _Sequence1DWrapper => iterate h (_array w)
  | _Sequence2DWrapper =>
      match seq_items h (_array w) with
      | Raise e => Iteration [] (Some e)
      | Ok rows => chain_from_iterable h rows
      end
  | _NumpyArrayWrapper =>
      match array_attr h (_array w) nd_items with
      | Ok items => Iteration items None
      | Raise e => Iteration [] (Some e)
      end
  end.

Section Dtype.
Context `{Builtins}.

(** [_get_dtype_from_iterable] on an iteration that may end with an
    exception: the loop returns [float] at the first float it meets, and
    the exception reaches the caller only if the loop gets to it. *)
Definition _get_dtype_from_iteration (h : heap) (it : iteration) : res py_type :=
  match collect_dtypes h ∅ (yielded it) with
  | None => Ok T_float
  | Some _ =>
      match raised it with
      | Some e => Raise e
      | None => _get_dtype_from_iterable h (yielded it)
      end
  end.

(** The [dtype] property of the wrapper at address [self].  The two
    sequence wrappers compute it on first use and keep it in [_dtype]; a
    [_NumpyArrayWrapper] has no such attribute and [__getattr__] hands the
    request to the array. *)
Definition dtype (h : heap) (self : nat) : heap * res py_type :=
  match h !! self with
  | Some (OWrapper w) =>
      match w_class w with
      | _NumberWrapper => (h, Ok (number_dtype h w))
      | _Sequence1DWrapper | _Sequence2DWrapper =>
          match _dtype w with
          | Some d => (h, Ok d)
          | None =>
              match _get_dtype_from_iteration h (as_iterable h w) with
              | Raise e => (h, Raise e)
              | Ok d =>
                  (<[self := OWrapper (Wrapper (w_class w) (_array w) (Some d))]> h, Ok d)
              end
          end
      | _NumpyArrayWrapper => (h, array_attr h (_array w) nd_dtype)
      end
  | _ => (h, Raise (Exn AttributeError "not a wrapper"))
  end.

End Dtype.

(** [all(func(x, *args) for x in self.as_iterable())] of [_BuiltinWrapper]:
    [func], with its extra arguments, is given as the truth value of what it
    returns; [all] stops at the first false one. *)
Fixpoint all_of (func : val → res bool) (items : list val) (tail : option exn)
  : res bool :=
  match items with
  | [] => match tail with Some e => Raise e | None => Ok true end
  | x :: rest =>
      b ← func x;
      if (b : bool) then all_of func rest tail else Ok false
  end.

Definition _BuiltinWrapper_all_func (h : heap) (w : wrapper) (func : val → res bool)
  : res bool :=
  let it := as_iterable h w in all_of func (yielded it) (raised it).

(** [self._array if isinstance(self._array, cls) else cls(self._array)] for
    [cls] one of [list] and [tuple]. *)
Definition as_seq_class (cls : seq_class) (h : heap) (x : val) : heap * res val :=
  match x with
  | VRef a =>
      match h !! a with
      | Some (OSeq c items) =>
          if decide (c = cls) then (h, Ok x)
          else let '(h1, s) := new_seq h cls items in (h1, Ok (VRef s))
      | _ => (h, Raise (Exn TypeError "object is not iterable"))
      end
  | _ => (h, Raise (Exn TypeError "object is not iterable"))
  end.

(** [to_list] and [to_tuple] of [_Sequence1DWrapper].  Those of
    [_Sequence2DWrapper] and [_NumpyArrayWrapper] go through [_cast_to_list],
    [_cast_to_tuple] and [ndarray.tolist], which are not among the sources,
    and those of [_NumberWrapper] return [self._array]. *)
Definition _Sequence1DWrapper_to_list (h : heap) (w : wrapper) : heap * res val :=
  as_seq_class C_list h (_array w).

Definition _Sequence1DWrapper_to_tuple (h : heap) (w : wrapper) : heap * res val :=
  as_seq_class C_tuple h (_array w).

(** *** Properties of iteration, [dtype], [all_func], [to_list], [to_tuple] *)

Lemma get_dtype_from_iteration_complete `{Builtins} (h : heap) (items : list val) :
  _get_dtype_from_iteration h (Iteration items None) = _get_dtype_from_iterable h items.
Proof.
  unfold _get_dtype_from_iteration, _get_dtype_from_iterable. simpl.
  by destruct (collect_dtypes h ∅ items).
Qed.

Section DtypeTheorems.
Context `{Builtins}.

(** X1.  The [dtype] of a sequence wrapper is computed once: a read that
    returns [d] leaves [d] in the wrapper's [_dtype] and changes nothing
    else, and from then on every read returns [d] without looking at the
    items, whatever has become of the rest of the store. *)
Theorem dtype_is_cached (h h1 : heap) (self : nat) (w : wrapper) (d : py_type) :
  h !! self = Some (OWrapper w) →
  w_class w = _Sequence1DWrapper ∨ w_class w = _Sequence2DWrapper →
  dtype h self = (h1, Ok d) →
  h1 = <[self := OWrapper (Wrapper (w_class w) (_array w) (Some d))]> h
  ∧ ∀ h2, h2 !! self = h1 !! self → dtype h2 self = (h2, Ok d).
Proof.
  intros Hself Hcls Hd. unfold dtype in Hd. rewrite Hself in Hd.
  assert (h1 = <[self := OWrapper (Wrapper (w_class w) (_array w) (Some d))]> h) as ->.
  { destruct w as [k arr cached]. simpl in *.
    destruct Hcls as [-> | ->]; destruct cached as [d0|]; simpl in Hd.
    - injection Hd as <- <-. by rewrite insert_id.
    - destruct (_get_dtype_from_iteration _ _); by simplify_eq.
    - injection Hd as <- <-. by rewrite insert_id.
    - destruct (_get_dtype_from_iteration _ _); by simplify_eq. }
  split; [done|]. intros h2 Hh2. rewrite lookup_insert_eq in Hh2.
  unfold dtype. rewrite Hh2. simpl. by destruct Hcls as [-> | ->].
Qed.

(** [None] converts no item. *)
Lemma mapM_call_None (items items' : list val) :
  mapM (call_dtype None) items = Ok items' → items' = [].
Proof. destruct items; [by intros [= <-]|done]. Qed.

(** Rows without items yield nothing. *)
Lemma chain_from_iterable_empty_rows (h : heap) (rows : list val) :
  Forall (λ row, seq_items h row = Ok []) rows →
  chain_from_iterable h rows = Iteration [] None.
Proof.
  induction 1 as [|row rest Hrow Hrest IH]; [done|].
  simpl. by rewrite Hrow, IH.
Qed.

(** Reading [dtype] when [_dtype] is [None] and there are no items. *)
Lemma dtype_of_no_items (h : heap) (self : nat) (w : wrapper) :
  h !! self = Some (OWrapper w) →
  w_class w = _Sequence1DWrapper ∨ w_class w = _Sequence2DWrapper →
  _dtype w = None →
  as_iterable h w = Iteration [] None →
  dtype h self
  = (<[self := OWrapper (Wrapper (w_class w) (_array w) (Some T_float))]> h, Ok T_float).
Proof.
  intros Hself Hcls Hd Hit. unfold dtype. rewrite Hself, Hd, Hit.
  by destruct Hcls as [-> | ->].
Qed.

(** X2.  After [change_dtype(dtype)] on a sequence wrapper has returned,
    [_dtype] holds [dtype].  For a [dtype] that is not [None], the [dtype]
    property returns it from then on: it was stored, and is not derived from
    the converted items.  [None] is accepted only when there is no item to
    convert; [_dtype] is then [None], which is how the wrapper marks a dtype
    it has not computed, and the next read of [dtype] computes [float] from
    the items, of which there are none. *)
Theorem dtype_after_change_dtype (h h1 : heap) (self : nat) (w : wrapper)
    (new_dtype : option py_type) :
  h !! self = Some (OWrapper w) →
  w_class w = _Sequence1DWrapper ∨ w_class w = _Sequence2DWrapper →
  change_dtype h self new_dtype = (h1, Ok ()) →
  ∃ arr,
    h1 !! self = Some (OWrapper (Wrapper (w_class w) arr new_dtype))
    ∧ (∀ d, new_dtype = Some d → dtype h1 self = (h1, Ok d))
    ∧ (new_dtype = None →
         as_iterable h1 (Wrapper (w_class w) arr None) = Iteration [] None
         ∧ dtype h1 self
           = (<[self := OWrapper (Wrapper (w_class w) arr (Some T_float))]> h1,
              Ok T_float)).
Proof.
  intros Hself Hcls Hch.
  assert (Hgoal : ∃ arr,
    h1 !! self = Some (OWrapper (Wrapper (w_class w) arr new_dtype))
    ∧ (new_dtype = None →
       as_iterable h1 (Wrapper (w_class w) arr None) = Iteration [] None)).
  { unfold change_dtype in Hch. rewrite Hself in Hch.
    destruct Hcls as [Hk | Hk]; rewrite Hk in Hch; rewrite Hk.
    - destruct (rebuild h new_dtype (_array w)) as [[h' out]|e] eqn:Hrb;
        [|by simplify_eq].
      injection Hch as <-. exists out. split; [apply lookup_insert_eq|].
      intros ->. apply rebuild_inv in Hrb as [Hsub (a' & c & items & items' & -> & Ha' & Hm)].
      apply mapM_call_None in Hm as ->.
      assert (self ≠ a').
      { intros <-. rewrite (lookup_weaken _ _ _ _ Hself Hsub) in Ha'. done. }
      unfold as_iterable, iterate, seq_items. simpl.
      rewrite lookup_insert_ne by done. by rewrite Ha'.
    - destruct (_array w) as [| | | | | |a]; try by simplify_eq.
      destruct (h !! a) as [[c rows| | |]|]; try by simplify_eq.
      destruct (rebuild_rows h new_dtype rows) as [[h' rows']|e] eqn:Hrb;
        [|by simplify_eq].
      pose proof (new_seq_lookup h' c rows') as Hl.
      pose proof (new_seq_subseteq h' c rows') as Hsub2.
      destruct (new_seq h' c rows') as [h2 s]. simpl in Hl, Hsub2.
      injection Hch as <-. exists (VRef s). split; [apply lookup_insert_eq|].
      intros ->. apply rebuild_rows_inv in Hrb as [Hsub Hrows].
      assert (Hself2 : h2 !! self = Some (OWrapper w)).
      { eapply lookup_weaken; [|exact Hsub2]. eapply lookup_weaken; done. }
      assert (self ≠ s) by congruence.
      unfold as_iterable, seq_items. simpl.
      rewrite lookup_insert_ne by done. rewrite Hl.
      apply chain_from_iterable_empty_rows.
      eapply Forall_impl; [exact Hrows|].
      intros row (a' & c' & items & items' & -> & Ha' & Hm).
      apply mapM_call_None in Hm as ->.
      assert (Ha2 : h2 !! a' = Some (OSeq c' [])) by (eapply lookup_weaken; done).
      assert (self ≠ a') by congruence.
      unfold seq_items. rewrite lookup_insert_ne by done. by rewrite Ha2. }
  destruct Hgoal as (arr & Hself1 & Hnone). exists arr.
  split; [done|]. split.
  - intros d ->. unfold dtype. rewrite Hself1. simpl. by destruct Hcls as [-> | ->].
  - intros ->. split; [by apply Hnone|].
    by apply (dtype_of_no_items h1 self (Wrapper (w_class w) arr None)), Hnone.
Qed.

End DtypeTheorems.

(** [all] over items whose iteration ends normally. *)
Lemma all_of_true (func : val → res bool) (items : list val) :
  all_of func items None = Ok true ↔ ∀ x, x ∈ items → func x = Ok true.
Proof.
  induction items as [|x rest IH]; simpl.
  - split; [intros _ x Hx; by apply elem_of_nil in Hx|done].
  - destruct (func x) as [[]|e] eqn:Hx; simpl.
    + rewrite IH. split.
      * intros Hall y Hy. apply elem_of_cons in Hy as [->|Hy]; [done|by apply Hall].
      * intros Hall y Hy. apply Hall. by right.
    + split; [done|]. intros Hall. specialize (Hall x). rewrite Hx in Hall.
      discriminate Hall. by left.
    + split; [done|]. intros Hall. specialize (Hall x). rewrite Hx in Hall.
      discriminate Hall. by left.
Qed.

Lemma all_of_stops (func : val → res bool) (before after : list val) (x : val)
    (tail : option exn) (r : res bool) :
  (∀ y, y ∈ before → func y = Ok true) →
  func x = r → r ≠ Ok true →
  all_of func (before ++ x :: after) tail = (b ← r; Ok b).
Proof.
  intros Hbefore Hx Hr. induction before as [|y before IH]; simpl.
  - rewrite Hx. destruct r as [[]|e]; done.
  - rewrite (Hbefore y) by by left. simpl. apply IH.
    intros z Hz. apply Hbefore. by right.
Qed.

(** X3.  [all_func] of the built-in wrappers.  When iterating over the
    wrapper yields [items] and ends normally, the result is [True] exactly
    if [func] is true of every item, in particular for no items at all.
    [func] is not called past the first item of which it is false or on
    which it raises: the result is then [False], or that exception, whatever
    [func] would do on the items after it, and however the iteration would
    end. *)
Theorem all_func_stops_at_first_failure (h : heap) (w : wrapper)
    (func : val → res bool) :
  (∀ items,
     as_iterable h w = Iteration items None →
     (_BuiltinWrapper_all_func h w func = Ok true
      ↔ ∀ x, x ∈ items → func x = Ok true))
  ∧ (∀ before x after tail r,
       as_iterable h w = Iteration (before ++ x :: after) tail →
       (∀ y, y ∈ before → func y = Ok true) →
       func x = r → r ≠ Ok true →
       _BuiltinWrapper_all_func h w func = (b ← r; Ok b)).
Proof.
  unfold _BuiltinWrapper_all_func. split.
  - intros items ->. apply all_of_true.
  - intros before x after tail r -> Hbefore Hx Hr. simpl.
    by apply all_of_stops.
Qed.

Lemma as_seq_class_same (cls : seq_class) (h : heap) (a : nat) (items : list val) :
  h !! a = Some (OSeq cls items) → as_seq_class cls h (VRef a) = (h, Ok (VRef a)).
Proof. intros Ha. unfold as_seq_class. rewrite Ha. by rewrite decide_True. Qed.

Lemma as_seq_class_other (cls c : seq_class) (h : heap) (a : nat) (items : list val) :
  h !! a = Some (OSeq c items) → c ≠ cls →
  cls = C_list ∨ items ≠ [] →
  ∃ s, h !! s = None
       ∧ as_seq_class cls h (VRef a) = (<[s := OSeq cls items]> h, Ok (VRef s)).
Proof.
  intros Ha Hc Hnew. unfold as_seq_class. rewrite Ha. rewrite decide_False by done.
  destruct (new_seq_fresh h cls items Hnew) as (s & Hs & ->). by exists s.
Qed.

(** [tuple(x)] for a list [x] without items: the empty tuple, the same
    object at every call. *)
Lemma as_tuple_of_empty_list (h : heap) (a : nat) :
  h !! a = Some (OSeq C_list []) →
  (∀ e, the_empty_tuple h = Some e → as_seq_class C_tuple h (VRef a) = (h, Ok (VRef e)))
  ∧ ∃ h' e, as_seq_class C_tuple h (VRef a) = (h', Ok (VRef e))
            ∧ h ⊆ h' ∧ h' !! e = Some (OSeq C_tuple [])
            ∧ as_seq_class C_tuple h' (VRef a) = (h', Ok (VRef e)).
Proof.
  intros Ha.
  assert (Hone : ∀ h0 e, h0 !! a = Some (OSeq C_list []) → the_empty_tuple h0 = Some e →
                 as_seq_class C_tuple h0 (VRef a) = (h0, Ok (VRef e))).
  { intros h0 e Ha0 He. unfold as_seq_class. rewrite Ha0. rewrite decide_False by done.
    by rewrite (new_seq_empty_tuple h0 e He). }
  split; [intros e; by apply Hone|].
  destruct (the_empty_tuple h) as [e|] eqn:He.
  - exists h, e. rewrite (Hone h e Ha He). repeat split; [done|].
    by apply the_empty_tuple_Some.
  - set (s := (alloc h (OSeq C_tuple [])).2).
    assert (Hs : h !! s = None) by apply alloc_fresh.
    set (h' := <[s := OSeq C_tuple []]> h).
    assert (Hsub : h ⊆ h') by by apply insert_subseteq.
    assert (Hs' : h' !! s = Some (OSeq C_tuple [])) by apply lookup_insert_eq.
    assert (He' : the_empty_tuple h' = Some s).
    { apply the_empty_tuple_unique; [done|]. intros b Hb.
      destruct (decide (b = s)) as [|Hne]; [done|].
      unfold h' in Hb. rewrite lookup_insert_ne in Hb by done.
      destruct (the_empty_tuple_is_Some h b Hb) as [? ?]. congruence. }
    exists h', s. split.
    + unfold as_seq_class. rewrite Ha. rewrite decide_False by done.
      unfold new_seq. by rewrite He.
    + split; [done|]. split; [done|].
      apply Hone; [|done]. eapply lookup_weaken; done.
Qed.

(** X4.  [to_list] and [to_tuple] of a [_Sequence1DWrapper] do not copy a
    sequence that has the class asked for: they return the wrapped object
    itself and leave the store alone.  From a sequence of the other class
    [to_list] makes a new list with the same items in the same order, and so
    does [to_tuple] make a new tuple when there are items; the wrapped
    sequence and the wrapper stay as they are.  [to_tuple] of a list without
    items makes nothing new: it returns the empty tuple, the one the store
    holds if it holds one, and the same object at the next call. *)
Theorem to_list_to_tuple_copy_only_to_convert (h : heap) (w : wrapper) (a : nat)
    (c : seq_class) (items : list val) :
  _array w = VRef a →
  h !! a = Some (OSeq c items) →
  (c = C_list → _Sequence1DWrapper_to_list h w = (h, Ok (VRef a)))
  ∧ (c = C_tuple → _Sequence1DWrapper_to_tuple h w = (h, Ok (VRef a)))
  ∧ (c = C_tuple →
     ∃ s, h !! s = None
          ∧ _Sequence1DWrapper_to_list h w
            = (<[s := OSeq C_list items]> h, Ok (VRef s)))
  ∧ (c = C_list → items ≠ [] →
     ∃ s, h !! s = None
          ∧ _Sequence1DWrapper_to_tuple h w
            = (<[s := OSeq C_tuple items]> h, Ok (VRef s)))
  ∧ (c = C_list → items = [] →
     (∀ e, the_empty_tuple h = Some e →
        _Sequence1DWrapper_to_tuple h w = (h, Ok (VRef e)))
     ∧ ∃ h' e, _Sequence1DWrapper_to_tuple h w = (h', Ok (VRef e))
               ∧ h ⊆ h' ∧ h' !! e = Some (OSeq C_tuple [])
               ∧ _Sequence1DWrapper_to_tuple h' w = (h', Ok (VRef e))).
Proof.
  intros Harr Ha. unfold _Sequence1DWrapper_to_list, _Sequence1DWrapper_to_tuple.
  rewrite Harr.
  split; [|split; [|split; [|split]]].
  - intros ->. by eapply as_seq_class_same.
  - intros ->. by eapply as_seq_class_same.
  - intros ->. eapply as_seq_class_other; [done|done|by left].
  - intros -> Hne. eapply as_seq_class_other; [done|done|by right].
  - intros -> ->. by apply as_tuple_of_empty_list.
Qed.

Lemma chain_from_iterable_rows (h : heap) (rows : list val) (n : nat) :
  (∀ row, row ∈ rows → ∃ items, seq_items h row = Ok items ∧ length items = n) →
  raised (chain_from_iterable h rows) = None
  ∧ length (yielded (chain_from_iterable h rows)) = (length rows * n)%nat.
Proof.
  induction rows as [|row rest IH]; intros Hrows; [done|].
  destruct (Hrows row) as (items & Hitems & Hlen); [by left|].
  destruct IH as [IH1 IH2]; [intros r Hr; apply Hrows; by right|].
  simpl. rewrite Hitems. simpl. split; [done|].
  rewrite length_app, IH2, Hlen. done.
Qed.

(** X5.  [size] against the items.  For a [_NumberWrapper] and a
    [_Sequence1DWrapper], [size] is the number of items that iterating over
    the wrapper yields.  For a [_Sequence2DWrapper] it is the number of rows
    times the length of the first row, which is the number of items only if
    the rows are all as long as the first. *)
Theorem size_is_number_of_items (h : heap) (w : wrapper) :
  (w_class w = _NumberWrapper →
   size h w = Ok (length (yielded (as_iterable h w))))
  ∧ (∀ items, w_class w = _Sequence1DWrapper →
       seq_items h (_array w) = Ok items →
       as_iterable h w = Iteration items None ∧ size h w = Ok (length items))
  ∧ (∀ rows first rest n, w_class w = _Sequence2DWrapper →
       seq_items h (_array w) = Ok rows → rows = first :: rest →
       (∀ row, row ∈ rows → ∃ items, seq_items h row = Ok items ∧ length items = n) →
       raised (as_iterable h w) = None
       ∧ size h w = Ok (length (yielded (as_iterable h w)))).
Proof.
  split; [|split].
  - intros Hk. unfold size, as_iterable. by rewrite Hk.
  - intros items Hk Hitems. unfold size, as_iterable, iterate. rewrite Hk, Hitems.
    split; [done|]. unfold seq_items in Hitems. unfold py_len.
    destruct (_array w) as [| | | | | |a]; try done.
    destruct (h !! a) as [[c l| | |]|]; try done. by injection Hitems as ->.
  - intros rows first rest n Hk Hrows -> Hall.
    destruct (chain_from_iterable_rows h (first :: rest) n Hall) as [Hraised Hlen].
    unfold as_iterable. rewrite Hk, Hrows. split; [done|]. rewrite Hlen.
    destruct (Hall first) as (items & Hfirst & Hn); [by left|].
    unfold size. rewrite Hk. unfold seq_items in Hrows, Hfirst.
    unfold py_len, getitem0.
    destruct (_array w) as [| | | | | |a]; try done.
    destruct (h !! a) as [[c l| | |]|]; try done. injection Hrows as ->. simpl.
    destruct first as [| | | | | |b]; try done.
    destruct (h !! b) as [[c' l'| | |]|]; try done. injection Hfirst as ->.
    simpl. by rewrite Hn.
Qed.

(** *** The properties at work on the sample store *)

Lemma dtype_is_cached_witness :
  let h1 := <[4%nat := OWrapper (Wrapper _Sequence1DWrapper (VRef 0) (Some T_int))]>
              sample_heap in
  @dtype Reference.builtins sample_heap 4 = (h1, Ok T_int)
  ∧ ∀ h2, h2 !! 4%nat = h1 !! 4%nat → @dtype Reference.builtins h2 4 = (h2, Ok T_int).
Proof.
  cbv zeta.
  assert (@dtype Reference.builtins sample_heap 4
          = (<[4%nat := OWrapper (Wrapper _Sequence1DWrapper (VRef 0) (Some T_int))]>
               sample_heap, Ok T_int)) as Hd by (vm_compute; reflexivity).
  split; [exact Hd|].
  destruct (@dtype_is_cached Reference.builtins sample_heap
              (<[4%nat := OWrapper (Wrapper _Sequence1DWrapper (VRef 0) (Some T_int))]>
                 sample_heap)
              4 (Wrapper _Sequence1DWrapper (VRef 0) None) T_int) as [_ T];
    [reflexivity|by left|exact Hd|].
  exact T.
Defined.

(** [sample_heap] with the list [[]] and a wrapper of it. *)
Definition sample_heap_empty : heap :=
  <[7%nat := OSeq C_list []]>
    (<[8%nat := OWrapper (Wrapper _Sequence1DWrapper (VRef 7) None)]> sample_heap).

Lemma dtype_after_change_dtype_witness :
  let h1 := (@change_dtype Reference.builtins sample_heap 4 (Some T_float)).1 in
  let h2 := (@change_dtype Reference.builtins sample_heap_empty 8 None).1 in
  (@change_dtype Reference.builtins sample_heap 4 (Some T_float) = (h1, Ok ())
   ∧ @dtype Reference.builtins h1 4 = (h1, Ok T_float))
  ∧ (@change_dtype Reference.builtins sample_heap_empty 8 None = (h2, Ok ())
     ∧ (@dtype Reference.builtins h2 8).2 = Ok T_float).
Proof.
  cbv zeta. split.
  - assert (@change_dtype Reference.builtins sample_heap 4 (Some T_float)
            = ((@change_dtype Reference.builtins sample_heap 4 (Some T_float)).1, Ok ()))
      as Hc by (vm_compute; reflexivity).
    split; [exact Hc|].
    destruct (@dtype_after_change_dtype Reference.builtins sample_heap
                (@change_dtype Reference.builtins sample_heap 4 (Some T_float)).1 4
                (Wrapper _Sequence1DWrapper (VRef 0) None) (Some T_float))
      as (arr & _ & T & _); [reflexivity|by left|exact Hc|].
    by apply T.
  - assert (@change_dtype Reference.builtins sample_heap_empty 8 None
            = ((@change_dtype Reference.builtins sample_heap_empty 8 None).1, Ok ()))
      as Hc by (vm_compute; reflexivity).
    split; [exact Hc|].
    destruct (@dtype_after_change_dtype Reference.builtins sample_heap_empty
                (@change_dtype Reference.builtins sample_heap_empty 8 None).1 8
                (Wrapper _Sequence1DWrapper (VRef 7) None) None)
      as (arr & _ & _ & T); [reflexivity|by left|exact Hc|].
    destruct T as [_ ->]; done.
Defined.

(** [lambda x: x > 0] and [lambda x: x > 1] on integers. *)
Definition greater_than (bound : Z) (x : val) : res bool :=
  match x with
  | VInt z => Ok (bound <? z)%Z
  | _ => Raise (Exn TypeError "not supported between instances")
  end.

Lemma all_func_stops_at_first_failure_witness :
  let w := Wrapper _Sequence1DWrapper (VRef 0) None in
  _BuiltinWrapper_all_func sample_heap w (greater_than 0) = Ok true
  ∧ _BuiltinWrapper_all_func sample_heap w (greater_than 1) = Ok false.
Proof.
  cbv zeta.
  destruct (all_func_stops_at_first_failure sample_heap
              (Wrapper _Sequence1DWrapper (VRef 0) None) (greater_than 0)) as [T _].
  destruct (all_func_stops_at_first_failure sample_heap
              (Wrapper _Sequence1DWrapper (VRef 0) None) (greater_than 1)) as [_ T'].
  split.
  - apply (T [VInt 1; VInt 2]); [reflexivity|].
    intros x Hx. repeat (apply elem_of_cons in Hx as [->|Hx]; [reflexivity|]).
    by apply elem_of_nil in Hx.
  - apply (T' [] (VInt 1) [VInt 2] None (Ok false));
      [reflexivity| |reflexivity|discriminate].
    intros y Hy. by apply elem_of_nil in Hy.
Defined.

Lemma to_list_to_tuple_copy_only_to_convert_witness :
  let w := Wrapper _Sequence1DWrapper (VRef 0) None in
  let w0 := Wrapper _Sequence1DWrapper (VRef 7) None in
  _Sequence1DWrapper_to_list sample_heap w = (sample_heap, Ok (VRef 0))
  ∧ (∃ s, sample_heap !! s = None
          ∧ _Sequence1DWrapper_to_tuple sample_heap w
            = (<[s := OSeq C_tuple [VInt 1; VInt 2]]> sample_heap, Ok (VRef s)))
  ∧ ∃ h' e, _Sequence1DWrapper_to_tuple sample_heap_empty w0 = (h', Ok (VRef e))
            ∧ sample_heap_empty ⊆ h' ∧ h' !! e = Some (OSeq C_tuple [])
            ∧ _Sequence1DWrapper_to_tuple h' w0 = (h', Ok (VRef e)).
Proof.
  cbv zeta.
  destruct (to_list_to_tuple_copy_only_to_convert sample_heap
              (Wrapper _Sequence1DWrapper (VRef 0) None) 0 C_list [VInt 1; VInt 2])
    as (T1 & _ & _ & T4 & _); [reflexivity|reflexivity|].
  destruct (to_list_to_tuple_copy_only_to_convert sample_heap_empty
              (Wrapper _Sequence1DWrapper (VRef 7) None) 7 C_list [])
    as (_ & _ & _ & _ & T5); [reflexivity|reflexivity|].
  split; [by apply T1|]. split; [by apply T4|].
  by apply T5.
Defined.

Lemma size_is_number_of_items_witness :
  let w := Wrapper _Sequence2DWrapper (VRef 1) None in
  raised (as_iterable sample_heap w) = None
  ∧ size sample_heap w = Ok (length (yielded (as_iterable sample_heap w))).
Proof.
  cbv zeta.
  destruct (size_is_number_of_items sample_heap
              (Wrapper _Sequence2DWrapper (VRef 1) None)) as (_ & _ & T).
  apply (T [VRef 0] (VRef 0) [] 2%nat); [reflexivity|reflexivity|reflexivity|].
  intros row Hrow. apply elem_of_cons in Hrow as [->|Hrow]; [|by apply elem_of_nil in Hrow].
  exists [VInt 1; VInt 2]. split; reflexivity.
Defined.

End ArrayWrapper.

(** ** [pyvista/plotting/axes_actor.py] *)

Module AxesActor.

#[local] Open Scope Z_scope.

(** Modelled from the spec: the native visibility state that the adapter
    wraps.  [vtkProp] keeps [Visibility] as a [vtkTypeBool], a C [int];
    [SetVisibility] stores its argument and [GetVisibility] returns the
    stored integer. *)
Record vtkAxesActor := { Visibility : Z }.

Definition SetVisibility (self : vtkAxesActor) (arg : Z) : vtkAxesActor :=
  {| Visibility := arg |}.

Definition GetVisibility (self : vtkAxesActor) : Z := Visibility self.

(** What Python hands to the native setter. *)
Inductive py_arg :=
  | PBool (b : bool)
  | PInt (z : Z).

(** Conversion of the argument to a C [int] by the VTK wrapper: a [bool] is 0
    or 1, an [int] must fit 32 bits. *)
Definition to_c_int (a : py_arg) : res Z :=
  match a with
  | PBool b => Ok (Z.b2z b)
  | PInt z =>
      if (- 2 ^ 31 <=? z) && (z <? 2 ^ 31) then Ok z
      else Raise (Exn OverflowError "value is out of range for int")
  end.

(** [visibility] getter: [bool(self.GetVisibility())] *)
Definition visibility (self : vtkAxesActor) : bool :=
  negb (GetVisibility self =? 0).

(** [visibility] setter: [self.SetVisibility(value)] *)
Definition set_visibility (self : vtkAxesActor) (value : py_arg) : res vtkAxesActor :=
  arg ← to_c_int value; Ok (SetVisibility self arg).

(** C7.  Assigning a boolean [b] to [visibility] succeeds, and reading
    [visibility] afterwards returns [b]; in every state the getter returns
    the boolean [GetVisibility() != 0]. *)
Theorem visibility_set_get (self : vtkAxesActor) (b : bool) :
  (∃ self', set_visibility self (PBool b) = Ok self' ∧ visibility self' = b)
  ∧ visibility self = negb (GetVisibility self =? 0).
Proof.
  split; [|reflexivity].
  exists (SetVisibility self (Z.b2z b)). split; [reflexivity|].
  by destruct b.
Qed.

(** *** Lengths, types, labels and the tip properties *)

(** The members of [AxesActor.ShaftType] and [AxesActor.TipType]. *)
Inductive ShaftType := CYLINDER | LINE.
Inductive TipType := CONE | SPHERE.

(** The Python values the properties below are given. *)
Inductive value :=
  | VNone
  | VBool (b : bool)
  | VInt (z : Z)
  | VFloat (bits : Z)                       (* IEEE-754 binary64 pattern *)
  | VStr (s : string)
  | VList (items : list value)
  | VTuple (items : list value)
  | VShaftType (m : ShaftType)
  | VTipType (m : TipType).

(** The methods of the native [vtkAxesActor] that the properties call, and
    what the VTK wrapper does with an argument before the native code sees
    it.  None of this is part of the sources. *)
Class Native (actor : Type) := {
  to_c_double : value → res Z;
  to_c_string : value → res string;
  SetTotalLength : actor → Z → Z → Z → actor;
  SetNormalizedShaftLength : actor → Z → Z → Z → actor;
  SetNormalizedTipLength : actor → Z → Z → Z → actor;
  SetNormalizedLabelPosition : actor → Z → Z → Z → actor;
  GetShaftType : actor → Z;
  SetShaftTypeToCylinder : actor → actor;
  SetShaftTypeToLine : actor → actor;
  GetTipType : actor → Z;
  SetTipTypeToCone : actor → actor;
  SetTipTypeToSphere : actor → actor;
  GetXAxisLabelText : actor → string;
  GetYAxisLabelText : actor → string;
  GetZAxisLabelText : actor → string;
  SetXAxisLabelText : actor → string → actor;
  SetYAxisLabelText : actor → string → actor;
  SetZAxisLabelText : actor → string → actor;
  py_str : value → string;
}.

(** [isinstance(x, Iterable)] *)
Definition isinstance_Iterable (x : value) : bool :=
  match x with
  | VStr _ | VList _ | VTuple _ => true
  | _ => false
  end.

(** [x[i]] for [i] not negative. *)
Definition getitem (x : value) (i : nat) : res value :=
  match x with
  | VList items | VTuple items =>
      match items !! i with
      | Some v => Ok v
      | None => Raise (Exn IndexError "index out of range")
      end
  | VStr s =>
      match String.get i s with
      | Some c => Ok (VStr (String c EmptyString))
      | None => Raise (Exn IndexError "string index out of range")
      end
  | _ => Raise (Exn TypeError "object is not subscriptable")
  end.

Section Adapter.
Context {actor : Type} `{Native actor}.

(** The setter shared, word for word, by [total_length], [shaft_length],
    [tip_length] and [label_position]; [native_set] is the method each of
    them calls.  The three subscripts are evaluated before the call. *)
Definition set_lengths (native_set : actor → Z → Z → Z → actor) (self : actor)
    (length : value) : res actor :=
  if isinstance_Iterable length then
    a ← getitem length 0;
    b ← getitem length 1;
    c ← getitem length 2;
    x ← to_c_double a;
    y ← to_c_double b;
    z ← to_c_double c;
    Ok (native_set self x y z)
  else
    x ← to_c_double length;
    Ok (native_set self x x x).

Definition set_total_length := set_lengths SetTotalLength.
Definition set_shaft_length := set_lengths SetNormalizedShaftLength.
Definition set_tip_length := set_lengths SetNormalizedTipLength.
Definition set_label_position := set_lengths SetNormalizedLabelPosition.

(** [Enum.__call__] by value: the member whose value equals the argument,
    a member of the class itself, or [ValueError].  [False], [0] and [0.0]
    are equal and hash alike, as are [True], [1] and [1.0]. *)
Definition member_index (x : value) : option Z :=
  match x with
  | VBool b => Some (Z.b2z b)
  | VInt z => if (z =? 0) || (z =? 1) then Some z else None
  | VFloat f =>
      if int_float_eq 0 f then Some 0
      else if int_float_eq 1 f then Some 1
      else None
  | _ => None
  end.

Definition ShaftType_call (x : value) : res ShaftType :=
  match x with
  | VShaftType m => Ok m
  | _ =>
      match member_index x with
      | Some 0 => Ok CYLINDER
      | Some _ => Ok LINE
      | None =>
          Raise (Exn ValueError (py_str x ++ " is not a valid AxesActor.ShaftType"))
      end
  end.

Definition TipType_call (x : value) : res TipType :=
  match x with
  | VTipType m => Ok m
  | _ =>
      match member_index x with
      | Some 0 => Ok CONE
      | Some _ => Ok SPHERE
      | None =>
          Raise (Exn ValueError (py_str x ++ " is not a valid AxesActor.TipType"))
      end
  end.

(** The [shaft_type] and [tip_type] properties. *)
Definition shaft_type (self : actor) : res ShaftType :=
  ShaftType_call (VInt (GetShaftType self)).

Definition set_shaft_type (self : actor) (shaft_type : value) : res actor :=
  m ← ShaftType_call shaft_type;
  match m with
  | CYLINDER => Ok (SetShaftTypeToCylinder self)
  | LINE => Ok (SetShaftTypeToLine self)
  end.

Definition tip_type (self : actor) : res TipType :=
  TipType_call (VInt (GetTipType self)).

Definition set_tip_type (self : actor) (tip_type : value) : res actor :=
  m ← TipType_call tip_type;
  match m with
  | CONE => Ok (SetTipTypeToCone self)
  | SPHERE => Ok (SetTipTypeToSphere self)
  end.

(** The [x_label], [y_label] and [z_label] setters, and [labels].  A setter
    that raises after another has returned leaves the actor as the earlier
    one made it, so the actor is returned next to the outcome. *)
Definition set_x_label (self : actor) (label : value) : res actor :=
  s ← to_c_string label; Ok (SetXAxisLabelText self s).
Definition set_y_label (self : actor) (label : value) : res actor :=
  s ← to_c_string label; Ok (SetYAxisLabelText self s).
Definition set_z_label (self : actor) (label : value) : res actor :=
  s ← to_c_string label; Ok (SetZAxisLabelText self s).

Definition labels (self : actor) : value :=
  VTuple [ VStr (GetXAxisLabelText self); VStr (GetYAxisLabelText self);
           VStr (GetZAxisLabelText self) ].

Definition labels_msg (labels : value) : string :=
  "Labels must be a list or tuple with three items. Got " ++ py_str labels
  ++ " instead.".

Definition set_labels (self : actor) (labels : value) : actor * res () :=
  match labels with
  | VList [a; b; c] | VTuple [a; b; c] =>
      match set_x_label self a with
      | Raise e => (self, Raise e)
      | Ok self1 =>
          match set_y_label self1 b with
          | Raise e => (self1, Raise e)
          | Ok self2 =>
              match set_z_label self2 c with
              | Raise e => (self2, Raise e)
              | Ok self3 => (self3, Ok ())
              end
          end
      end
  | _ => (self, Raise (Exn ValueError (labels_msg labels)))
  end.

(** The setter of [x_axis_tip_properties], and word for word those of
    [y_axis_tip_properties] and [z_axis_tip_properties]: its body assigns to
    the property it is the setter of, which calls it again.  [depth] is the
    number of frames left below the interpreter's recursion limit. *)
Fixpoint set_axis_tip_properties {A} (depth : nat) (self : actor) (properties : A)
  : res actor :=
  match depth with
  | O => Raise (Exn OtherError "RecursionError: maximum recursion depth exceeded")
  | S depth' => set_axis_tip_properties depth' self properties
  end.

End Adapter.

(** *** Properties of the adapters *)

Section AdapterTheorems.
Context {actor : Type} `{Native actor}.

(** X6.  The setters of [total_length], [shaft_length], [tip_length] and
    [label_position] hand the native method the first three items of a list
    or tuple and ignore any further ones; a list or tuple of fewer than
    three items raises [IndexError] before anything is set; a value that is
    not iterable is passed three times. *)
Theorem set_lengths_takes_three_items (native_set : actor → Z → Z → Z → actor)
    (self : actor) :
  (∀ a b c rest x y z,
     to_c_double a = Ok x → to_c_double b = Ok y → to_c_double c = Ok z →
     set_lengths native_set self (VList (a :: b :: c :: rest))
     = Ok (native_set self x y z)
     ∧ set_lengths native_set self (VTuple (a :: b :: c :: rest))
       = Ok (native_set self x y z))
  ∧ (∀ items, (length items < 3)%nat →
       set_lengths native_set self (VList items)
       = Raise (Exn IndexError "index out of range")
       ∧ set_lengths native_set self (VTuple items)
         = Raise (Exn IndexError "index out of range"))
  ∧ (∀ length x, isinstance_Iterable length = false → to_c_double length = Ok x →
       set_lengths native_set self length = Ok (native_set self x x x)).
Proof.
  split; [|split].
  - intros a b c rest x y z Ha Hb Hc. unfold set_lengths. simpl.
    rewrite Ha, Hb, Hc. done.
  - intros items Hlen. unfold set_lengths. simpl.
    destruct items as [|a [|b [|c rest]]]; simpl in *; try done. lia.
  - intros length x Hit Hx. unfold set_lengths. rewrite Hit, Hx. done.
Qed.

(** X7.  [shaft_type] and [tip_type] go through the enumeration by value.
    The setters raise [ValueError], and call no native method, for a string
    (the name of a member included) and for a member of the other
    enumeration; what they accept sets one of the two native types of the
    enumeration.  The getters raise [ValueError] when the native type is
    any other than 0 and 1. *)
Theorem shaft_and_tip_type_by_value (self : actor) :
  (∀ s, set_shaft_type self (VStr s)
        = Raise (Exn ValueError (py_str (VStr s) ++ " is not a valid AxesActor.ShaftType"))
        ∧ set_tip_type self (VStr s)
          = Raise (Exn ValueError (py_str (VStr s) ++ " is not a valid AxesActor.TipType")))
  ∧ (∀ m, set_shaft_type self (VTipType m)
          = Raise (Exn ValueError
                     (py_str (VTipType m) ++ " is not a valid AxesActor.ShaftType")))
  ∧ (∀ m, set_tip_type self (VShaftType m)
          = Raise (Exn ValueError
                     (py_str (VShaftType m) ++ " is not a valid AxesActor.TipType")))
  ∧ (∀ x self', set_shaft_type self x = Ok self' →
       self' = SetShaftTypeToCylinder self ∨ self' = SetShaftTypeToLine self)
  ∧ (∀ x self', set_tip_type self x = Ok self' →
       self' = SetTipTypeToCone self ∨ self' = SetTipTypeToSphere self)
  ∧ (GetShaftType self ≠ 0 → GetShaftType self ≠ 1 →
     shaft_type self
     = Raise (Exn ValueError (py_str (VInt (GetShaftType self))
                              ++ " is not a valid AxesActor.ShaftType")))
  ∧ (GetTipType self ≠ 0 → GetTipType self ≠ 1 →
     tip_type self
     = Raise (Exn ValueError (py_str (VInt (GetTipType self))
                              ++ " is not a valid AxesActor.TipType"))).
Proof.
  split; [done|]. split; [done|]. split; [done|]. split; [|split; [|split]].
  - intros x self'. unfold set_shaft_type.
    destruct (ShaftType_call x) as [[]|e]; simpl; intros Hs; simplify_eq; auto.
  - intros x self'. unfold set_tip_type.
    destruct (TipType_call x) as [[]|e]; simpl; intros Hs; simplify_eq; auto.
  - intros H0 H1. unfold shaft_type, ShaftType_call. simpl.
    destruct (GetShaftType self =? 0) eqn:E0; [apply Z.eqb_eq in E0; done|].
    destruct (GetShaftType self =? 1) eqn:E1; [apply Z.eqb_eq in E1; done|].
    done.
  - intros H0 H1. unfold tip_type, TipType_call. simpl.
    destruct (GetTipType self =? 0) eqn:E0; [apply Z.eqb_eq in E0; done|].
    destruct (GetTipType self =? 1) eqn:E1; [apply Z.eqb_eq in E1; done|].
    done.
Qed.

(** X8.  The setter of [labels] checks the container only: anything but a
    list or tuple of exactly three items raises [ValueError] and leaves the
    actor as it is.  Three items the native setters accept are set in the
    order x, y, z.  The assignment is not undone on failure: when the second
    item is refused, the exception comes after the x label has been
    replaced. *)
Theorem set_labels_checks_the_container (self : actor) :
  (∀ labels,
     (∀ a b c, labels ≠ VList [a; b; c] ∧ labels ≠ VTuple [a; b; c]) →
     set_labels self labels = (self, Raise (Exn ValueError (labels_msg labels))))
  ∧ (∀ a b c sa sb sc,
       to_c_string a = Ok sa → to_c_string b = Ok sb → to_c_string c = Ok sc →
       let self' :=
         SetZAxisLabelText (SetYAxisLabelText (SetXAxisLabelText self sa) sb) sc in
       set_labels self (VList [a; b; c]) = (self', Ok ())
       ∧ set_labels self (VTuple [a; b; c]) = (self', Ok ()))
  ∧ (∀ a b c sa e,
       to_c_string a = Ok sa → to_c_string b = Raise e →
       set_labels self (VList [a; b; c]) = (SetXAxisLabelText self sa, Raise e)
       ∧ set_labels self (VTuple [a; b; c]) = (SetXAxisLabelText self sa, Raise e)).
Proof.
  split; [|split].
  - intros labels Hno. unfold set_labels.
    destruct labels as [| | | | |items|items| |]; try done;
      destruct items as [|a [|b [|c [|d rest]]]]; try done;
      destruct (Hno a b c) as [H1 H2]; done.
  - intros a b c sa sb sc Ha Hb Hc. simpl.
    unfold set_labels, set_x_label, set_y_label, set_z_label.
    rewrite Ha. simpl. rewrite Hb. simpl. rewrite Hc. done.
  - intros a b c sa e Ha Hb.
    unfold set_labels, set_x_label, set_y_label.
    rewrite Ha. simpl. rewrite Hb. done.
Qed.

(** X9.  Assigning to [x_axis_tip_properties], [y_axis_tip_properties] or
    [z_axis_tip_properties] never succeeds: whatever the recursion limit,
    the setter ends in [RecursionError], and the actor is not changed. *)
Theorem tip_properties_setter_never_returns {A} (depth : nat) (self : actor)
    (properties : A) :
  set_axis_tip_properties depth self properties
  = Raise (Exn OtherError "RecursionError: maximum recursion depth exceeded").
Proof. induction depth as [|depth IH]; [done|exact IH]. Qed.

End AdapterTheorems.

(** *** A native object to run the adapters on *)

Module Reference.

(** Modelled from the spec: a native object that stores what each of its
    setters is given and returns it from the getter of the same name; the
    wrapper converts a [bool], [int] or [float] to a C [double] and accepts
    a [str] for a C string. *)
Record actor := Actor {
  total_length : Z * Z * Z;
  shaft_length : Z * Z * Z;
  tip_length : Z * Z * Z;
  label_position : Z * Z * Z;
  shaft : Z;
  tip : Z;
  x_text : string;
  y_text : string;
  z_text : string;
}.

#[local] Instance native : Native actor := {
  to_c_double := λ x,
    match x with
    | VBool b => float_of_int (Z.b2z b)
    | VInt z => float_of_int z
    | VFloat f => Ok f
    | _ => Raise (Exn TypeError "a float is required")
    end;
  to_c_string := λ x,
    match x with
    | VStr s => Ok s
    | _ => Raise (Exn TypeError "a string is required")
    end;
  SetTotalLength := λ a x y z,
    Actor (x, y, z) (shaft_length a) (tip_length a) (label_position a)
      (shaft a) (tip a) (x_text a) (y_text a) (z_text a);
  SetNormalizedShaftLength := λ a x y z,
    Actor (total_length a) (x, y, z) (tip_length a) (label_position a)
      (shaft a) (tip a) (x_text a) (y_text a) (z_text a);
  SetNormalizedTipLength := λ a x y z,
    Actor (total_length a) (shaft_length a) (x, y, z) (label_position a)
      (shaft a) (tip a) (x_text a) (y_text a) (z_text a);
  SetNormalizedLabelPosition := λ a x y z,
    Actor (total_length a) (shaft_length a) (tip_length a) (x, y, z)
      (shaft a) (tip a) (x_text a) (y_text a) (z_text a);
  GetShaftType := shaft;
  SetShaftTypeToCylinder := λ a,
    Actor (total_length a) (shaft_length a) (tip_length a) (label_position a)
      0 (tip a) (x_text a) (y_text a) (z_text a);
  SetShaftTypeToLine := λ a,
    Actor (total_length a) (shaft_length a) (tip_length a) (label_position a)
      1 (tip a) (x_text a) (y_text a) (z_text a);
  GetTipType := tip;
  SetTipTypeToCone := λ a,
    Actor (total_length a) (shaft_length a) (tip_length a) (label_position a)
      (shaft a) 0 (x_text a) (y_text a) (z_text a);
  SetTipTypeToSphere := λ a,
    Actor (total_length a) (shaft_length a) (tip_length a) (label_position a)
      (shaft a) 1 (x_text a) (y_text a) (z_text a);
  GetXAxisLabelText := x_text;
  GetYAxisLabelText := y_text;
  GetZAxisLabelText := z_text;
  SetXAxisLabelText := λ a s,
    Actor (total_length a) (shaft_length a) (tip_length a) (label_position a)
      (shaft a) (tip a) s (y_text a) (z_text a);
  SetYAxisLabelText := λ a s,
    Actor (total_length a) (shaft_length a) (tip_length a) (label_position a)
      (shaft a) (tip a) (x_text a) s (z_text a);
  SetZAxisLabelText := λ a s,
    Actor (total_length a) (shaft_length a) (tip_length a) (label_position a)
      (shaft a) (tip a) (x_text a) (y_text a) s;
  py_str := λ _, "...";
}.

(** An actor whose native shaft type is the user-defined one. *)
Definition sample_actor : actor :=
  Actor (0, 0, 0) (0, 0, 0) (0, 0, 0) (0, 0, 0) 2 0 "X" "Y" "Z".

End Reference.

#[local] Existing Instance Reference.native.

Lemma set_lengths_takes_three_items_witness :
  let one := 0x3FF0000000000000 in
  let two := 0x4000000000000000 in
  set_total_length Reference.sample_actor
    (VList [VInt 1; VFloat two; VBool true; VInt 7])
  = Ok (SetTotalLength Reference.sample_actor one two one)
  ∧ set_tip_length Reference.sample_actor (VTuple [VInt 1; VInt 1])
    = Raise (Exn IndexError "index out of range")
  ∧ set_shaft_length Reference.sample_actor (VInt 1)
    = Ok (SetNormalizedShaftLength Reference.sample_actor one one one).
Proof.
  cbv zeta. split; [|split].
  - destruct (set_lengths_takes_three_items SetTotalLength
                Reference.sample_actor) as (T & _ & _).
    apply (T (VInt 1) (VFloat 0x4000000000000000) (VBool true) [VInt 7]);
      vm_compute; reflexivity.
  - destruct (set_lengths_takes_three_items SetNormalizedTipLength
                Reference.sample_actor) as (_ & T & _).
    apply (T [VInt 1; VInt 1]). simpl. lia.
  - destruct (set_lengths_takes_three_items SetNormalizedShaftLength
                Reference.sample_actor) as (_ & _ & T).
    apply (T (VInt 1)); [reflexivity|vm_compute; reflexivity].
Defined.

Lemma shaft_and_tip_type_by_value_witness :
  shaft_type Reference.sample_actor
  = Raise (Exn ValueError "... is not a valid AxesActor.ShaftType")
  ∧ set_shaft_type Reference.sample_actor (VStr "line")
    = Raise (Exn ValueError "... is not a valid AxesActor.ShaftType")
  ∧ (SetShaftTypeToLine Reference.sample_actor
     = SetShaftTypeToCylinder Reference.sample_actor
     ∨ SetShaftTypeToLine Reference.sample_actor
       = SetShaftTypeToLine Reference.sample_actor).
Proof.
  destruct (shaft_and_tip_type_by_value Reference.sample_actor)
    as (T1 & _ & _ & T4 & _ & T6 & _).
  split; [|split].
  - apply T6; discriminate.
  - apply (T1 "line").
  - apply (T4 (VBool true)). reflexivity.
Defined.

Lemma set_labels_checks_the_container_witness :
  let self := Reference.sample_actor in
  set_labels self (VList [VStr "a"; VStr "b"])
  = (self, Raise (Exn ValueError
                    "Labels must be a list or tuple with three items. Got ... instead."))
  ∧ set_labels self (VTuple [VStr "a"; VStr "b"; VStr "c"])
    = (SetZAxisLabelText (SetYAxisLabelText (SetXAxisLabelText self "a") "b") "c", Ok ())
  ∧ set_labels self (VList [VStr "a"; VInt 2; VStr "c"])
    = (SetXAxisLabelText self "a", Raise (Exn TypeError "a string is required")).
Proof.
  cbv zeta.
  destruct (set_labels_checks_the_container Reference.sample_actor)
    as (T1 & T2 & T3).
  split; [|split].
  - apply (T1 (VList [VStr "a"; VStr "b"])). intros a b c. split; discriminate.
  - apply (T2 (VStr "a") (VStr "b") (VStr "c") "a" "b" "c"); reflexivity.
  - apply (T3 (VStr "a") (VInt 2) (VStr "c") "a"); reflexivity.
Defined.

End AxesActor.

(** ** [pyvista/plotting/themes.py] *)

Module Themes.

#[local] Open Scope Z_scope.

(** *** Classes and values *)

(** The subclasses of [_ThemeConfig]. *)
Inductive cls :=
  | _LightingConfig | _DepthPeelingConfig | _SilhouetteConfig | _ColorbarConfig
  | _AxesConfig | _Font | _SliderStyleConfig | _TrameConfig | _CameraConfig
  | Theme | DarkTheme | ParaViewTheme | DocumentTheme | DocumentProTheme
  | _TestingTheme.

#[global] Instance cls_eq_dec : EqDecision cls.
Proof. solve_decision. Defined.

(** A number: what iterating over a [Color] yields. *)
Inductive number :=
  | NBool (b : bool)
  | NInt (z : Z)
  | NFloat (bits : Z).

(** The values a slot or a theme dictionary holds.  A configuration object
    carries its class and its slots, by slot name; a [Color] its integer
    RGBA channels; a member of the [InterpolationType] enumeration its
    integer value; any other object (a callback, a cycler) is known by its
    identity only. *)
Inductive value :=
  | VNone
  | VBool (b : bool)
  | VInt (z : Z)
  | VFloat (bits : Z)
  | VStr (s : string)
  | VList (items : list value)
  | VTuple (items : list value)
  | VDict (entries : list (string * value))
  | VColor (rgba : Z * Z * Z * Z)
  | VConfig (c : cls) (slots : list (string * value))
  | VEnum (member : Z)
  | VObject (id : nat).

Definition of_number (n : number) : value :=
  match n with NBool b => VBool b | NInt z => VInt z | NFloat f => VFloat f end.

(** An instance of a [_ThemeConfig] class. *)
Record instance := Instance {
  i_cls : cls;
  i_slots : list (string * value);
}.

Definition VInstance (i : instance) : value := VConfig (i_cls i) (i_slots i).

(** *** Dictionaries and slot tables, in insertion order *)

Fixpoint assoc_get {A} (k : string) (l : list (string * A)) : option A :=
  match l with
  | [] => None
  | (k', v) :: rest => if decide (k' = k) then Some v else assoc_get k rest
  end.

(** [d[k] = v]: in place when the key is there, at the end otherwise. *)
Fixpoint assoc_set {A} (k : string) (v : A) (l : list (string * A)) : list (string * A) :=
  match l with
  | [] => [(k, v)]
  | (k', v') :: rest =>
      if decide (k' = k) then (k, v) :: rest else (k', v') :: assoc_set k v rest
  end.

(** *** Built-in conversions *)

(** [bool(x)].  Sequences and dictionaries are true when not empty; a
    [Color], a configuration and other objects are taken to define neither
    [__bool__] nor [__len__]. *)
Definition py_bool (x : value) : bool :=
  match x with
  | VNone => false
  | VBool b => b
  | VInt z => negb (z =? 0)
  | VFloat f => bool_of_float f
  | VStr s => negb (String.eqb s EmptyString)
  | VList l | VTuple l => negb (Nat.eqb (length l) 0)
  | VDict d => negb (Nat.eqb (length d) 0)
  | VColor _ | VConfig _ _ | VEnum _ | VObject _ => true
  end.

(** A double quote, and a text between double quotes. *)
Definition dq : string := String (Ascii.ascii_of_nat 34) EmptyString.
Definition quoted (s : string) : string := dq ++ s ++ dq.

(** [s.startswith(p)] *)
Fixpoint str_startswith (p s : string) : bool :=
  match p, s with
  | EmptyString, _ => true
  | String a p', String b s' => if decide (a = b) then str_startswith p' s' else false
  | String _ _, EmptyString => false
  end.

(** [s.lstrip('/')] *)
Fixpoint str_lstrip_slash (s : string) : string :=
  match s with
  | String c rest => if decide (c = Ascii.ascii_of_nat 47) then str_lstrip_slash rest else s
  | EmptyString => EmptyString
  end.

(** *** What the module imports and reads from its environment

    None of [pyvista.plotting.colors], [pyvista.plotting.opts],
    [pyvista.plotting.tools], [pyvista.core.utilities.misc] and
    [pyvista.jupyter] is part of the sources; the process environment and
    the file system are inputs of the program, and so is the case mapping
    of Unicode, which [str.lower] applies. *)
Class Env := {
  (* [Color(x)]: the channels of the colour, or an exception *)
  Color : value → res (Z * Z * Z * Z);
  (* [Color.to_dict] and [Color.from_dict], where [Color] has them *)
  Color_to_dict : option (Z * Z * Z * Z → value);
  Color_from_dict : option (value → res value);
  (* [Color.__eq__], and the channels [tuple(color)] iterates over *)
  Color_eq : Z * Z * Z * Z → value → bool;
  Color_channels : Z * Z * Z * Z → list number;
  (* [get_cmap_safe(cmap)]: [None] for an unknown colour map *)
  get_cmap_safe : value → res value;
  get_cycler : value → res value;
  (* [InterpolationType.from_any(x)]: the value of the member *)
  InterpolationType_from_any : value → res Z;
  InterpolationType_FLAT : Z;
  (* [Path(filename).open()] and [json.load] *)
  read_json : value → res value;
  parse_font_family : value → res ();
  (* [_check_range(value, (lo, hi), name)] *)
  _check_range : value → Z → Z → string → res ();
  _validate_jupyter_backend : value → res value;
  (* [int(s)] and [float(s)] for a string *)
  int_of_str : string → res Z;
  float_of_str : string → res Z;
  (* [os.environ.get], [os.name], [os.path.join], [pathlib.Path(p).exists()] *)
  environ : string → option string;
  os_name : string;
  os_path_join : string → string → string;
  path_exists : value → res bool;
  (* [str(x)], as an f-string formats [x]; [repr] of a list of names;
     [type(x).__name__] and [str(type(x))] *)
  py_str : value → string;
  repr_names : list string → string;
  type_name : value → string;
  type_str : value → string;
  (* [s.lower()] *)
  str_lower : string → string;
}.

Section Model.
Context `{Env}.

(** [int(x)] *)
Definition py_int (x : value) : res Z :=
  match x with
  | VBool b => Ok (Z.b2z b)
  | VInt z => Ok z
  | VFloat f => int_of_float f
  | VStr s => int_of_str s
  | _ => Raise (Exn TypeError "int() argument must be a string or a real number")
  end.

(** [float(x)] *)
Definition py_float (x : value) : res Z :=
  match x with
  | VBool b => float_of_int (Z.b2z b)
  | VInt z => float_of_int z
  | VFloat f => Ok f
  | VStr s => float_of_str s
  | _ => Raise (Exn TypeError "float() argument must be a string or a real number")
  end.

(** [tuple(x)] for the comparison in [__eq__]: the items of a list or a
    tuple, the keys of a dictionary, the characters of a string, the
    channels of a colour. *)
Definition py_tuple (x : value) : res (list value) :=
  match x with
  | VList l | VTuple l => Ok l
  | VDict d => Ok ((λ kv, VStr kv.1) <$> d)
  | VStr s => Ok ((λ c, VStr (String c EmptyString)) <$> String.list_ascii_of_string s)
  | VColor c => Ok (of_number <$> Color_channels c)
  | _ => Raise (Exn TypeError "object is not iterable")
  end.

(** *** Equality *)

(** [a == b] on two numbers (bool, int or float). *)
Definition num_eq (a b : value) : option bool :=
  let as_int (x : value) : option Z :=
    match x with VBool b => Some (Z.b2z b) | VInt z => Some z | _ => None end in
  match a, b with
  | VFloat f, VFloat g => Some (float_eq f g)
  | VFloat f, _ => (λ z, int_float_eq z f) <$> as_int b
  | _, VFloat g => (λ z, int_float_eq z g) <$> as_int a
  | _, _ => z1 ← as_int a; z2 ← as_int b; Some (z1 =? z2)
  end.

(** What [b.__eq__(a)] answers when [a.__eq__(b)] returned [NotImplemented]:
    [Color.__eq__] for a colour, [False] from [_ThemeConfig.__eq__] (as [a]
    is no configuration) and for everything else. *)
Definition reflected_eq (a b : value) : bool :=
  match b with
  | VColor c => Color_eq c a
  | _ => false
  end.

(** The comparisons [__eq__] makes with one slot value on the left:
    [attr == x], and [tuple(attr) == tuple(x)] for a list or tuple. *)
Record comparer := Comparer {
  eq_to : value → res bool;
  items_eq_to : list value → res bool;
}.

(** The mro without [_ThemeConfig] and [object], neither of which has
    slots. *)
Definition mro (c : cls) : list cls :=
  match c with
  | DarkTheme => [DarkTheme; Theme]
  | ParaViewTheme => [ParaViewTheme; Theme]
  | DocumentTheme => [DocumentTheme; Theme]
  | DocumentProTheme => [DocumentProTheme; DocumentTheme; Theme]
  | _TestingTheme => [_TestingTheme; Theme]
  | _ => [c]
  end.

(** [cls.__slots__] *)
Definition own_slots (c : cls) : list string :=
  match c with
  | _LightingConfig =>
      ["_interpolation"; "_metallic"; "_roughness"; "_ambient"; "_diffuse";
       "_specular"; "_specular_power"; "_emissive"]
  | _DepthPeelingConfig => ["_number_of_peels"; "_occlusion_ratio"; "_enabled"]
  | _SilhouetteConfig =>
      ["_color"; "_line_width"; "_opacity"; "_feature_angle"; "_decimate"; "_enabled"]
  | _ColorbarConfig => ["_width"; "_height"; "_position_x"; "_position_y"]
  | _AxesConfig => ["_x_color"; "_y_color"; "_z_color"; "_box"; "_show"]
  | _Font => ["_family"; "_size"; "_title_size"; "_label_size"; "_color"; "_fmt"]
  | _SliderStyleConfig =>
      ["_name"; "_slider_length"; "_slider_width"; "_slider_color"; "_tube_width";
       "_tube_color"; "_cap_opacity"; "_cap_length"; "_cap_width"]
  | _TrameConfig =>
      ["_interactive_ratio"; "_still_ratio"; "_jupyter_server_name";
       "_jupyter_server_port"; "_server_proxy_enabled"; "_server_proxy_prefix";
       "_default_mode"; "_jupyter_extension_available"; "_jupyter_extension_enabled"]
  | _CameraConfig => ["_position"; "_viewup"; "_parallel_projection"; "_parallel_scale"]
  | Theme =>
      ["_name"; "_background"; "_jupyter_backend"; "_trame"; "_full_screen";
       "_window_size"; "_image_scale"; "_camera"; "_notebook"; "_font";
       "_auto_close"; "_cmap"; "_color"; "_color_cycler"; "_above_range_color";
       "_below_range_color"; "_nan_color"; "_edge_color"; "_line_width";
       "_point_size"; "_outline_color"; "_floor_color"; "_colorbar_orientation";
       "_colorbar_horizontal"; "_colorbar_vertical"; "_show_scalar_bar";
       "_show_edges"; "_show_vertices"; "_lighting"; "_interactive";
       "_render_points_as_spheres"; "_render_lines_as_tubes";
       "_transparent_background"; "_title"; "_axes"; "_multi_samples";
       "_multi_rendering_splitting_position"; "_volume_mapper"; "_smooth_shading";
       "_depth_peeling"; "_silhouette"; "_slider_style"; "_return_cpos";
       "_hidden_line_removal"; "_anti_aliasing"; "_enable_camera_orientation_widget";
       "_split_sharp_edges"; "_sharp_edges_feature_angle"; "_before_close_callback";
       "_allow_empty_mesh"; "_lighting_params"; "_interpolate_before_map";
       "_opacity"; "_before_close_callback"; "_logo_file"; "_edge_opacity"]
  | DarkTheme | ParaViewTheme | DocumentTheme | DocumentProTheme | _TestingTheme => []
  end.

(** [_ThemeConfig._all__slots__] *)
Definition _all__slots__ (c : cls) : list string := concat (own_slots <$> mro c).

(** [isinstance(x, c)] for a configuration class [c]. *)
Definition isinstance (x : value) (c : cls) : bool :=
  match x with
  | VConfig c' _ => bool_decide (c ∈ mro c')
  | _ => false
  end.

(** [issubclass(c', c) and c' is not c] *)
Definition proper_subclass (c' c : cls) : bool :=
  bool_decide (c ∈ mro c') && negb (bool_decide (c' = c)).

(** The comparisons of sequences, dictionaries and configurations, given
    the comparison [eq] of their parts. *)
Section Parts.
Variable eq : value → value → res bool.

Fixpoint seq_eq (l l' : list value) : res bool :=
  match l, l' with
  | [], [] => Ok true
  | x :: r, y :: r' =>
      same ← eq x y;
      if (same : bool) then seq_eq r r' else Ok false
  | _, _ => Ok false
  end.

Definition items_eq (l l' : list value) : res bool :=
  if Nat.eqb (length l) (length l') then seq_eq l l' else Ok false.

Fixpoint dict_eq (d d' : list (string * value)) : res bool :=
  match d with
  | [] => Ok true
  | (k, v) :: r =>
      match assoc_get k d' with
      | None => Ok false
      | Some v' =>
          same ← eq v v';
          if (same : bool) then dict_eq r d' else Ok false
      end
  end.

(** The test of the loop of [_ThemeConfig.__eq__], negated:
    [not (isinstance(attr, (tuple, list)) and tuple(attr) != tuple(other_attr)
          or not attr == other_attr)]. *)
Definition attr_test (attr other_attr : value) : res bool :=
  differs ←
    match attr with
    | VList l | VTuple l =>
        other_items ← py_tuple other_attr;
        same ← items_eq l other_items;
        Ok (negb same)
    | _ => Ok false
    end;
  if (differs : bool) then Ok false
  else eq attr other_attr.

(** [for attr_name in other.__slots__: ...; return True], for the slots of
    [self] and of [other] and the names of [other.__slots__]. *)
Fixpoint slots_eq (self_slots other_slots : list (string * value))
    (names : list string) : res bool :=
  match names with
  | [] => Ok true
  | attr_name :: rest =>
      match assoc_get attr_name self_slots with
      | None => Raise (Exn AttributeError attr_name)
      | Some attr =>
          match assoc_get attr_name other_slots with
          | None => Raise (Exn AttributeError attr_name)
          | Some other_attr =>
              same ← attr_test attr other_attr;
              if (same : bool) then slots_eq self_slots other_slots rest else Ok false
          end
      end
  end.

End Parts.

(** [a == b], for operands nested [n] deep at most.  Python asks the left
    operand first, [a.__eq__(b)], unless the class of [b] is a proper
    subclass of the class of [a]: then [b.__eq__(a)] has the first word, and
    [_ThemeConfig.__eq__] always answers.  Of the values here only the
    subclasses of [Theme] are such classes. *)
Fixpoint eq_fuel (n : nat) (a b : value) : res bool :=
  match n with
  | O => Raise (Exn OtherError "RecursionError: maximum recursion depth exceeded")
  | S n =>
      match a with
      | VNone => Ok match b with VNone => true | _ => reflected_eq a b end
      | VBool _ | VInt _ | VFloat _ =>
          match num_eq a b with Some r => Ok r | None => Ok (reflected_eq a b) end
      | VStr s => Ok match b with VStr s' => String.eqb s s' | _ => reflected_eq a b end
      | VList l =>
          match b with
          | VList l' => items_eq (eq_fuel n) l l'
          | _ => Ok (reflected_eq a b)
          end
      | VTuple l =>
          match b with
          | VTuple l' => items_eq (eq_fuel n) l l'
          | _ => Ok (reflected_eq a b)
          end
      | VDict d =>
          match b with
          | VDict d' =>
              if Nat.eqb (length d) (length d') then dict_eq (eq_fuel n) d d'
              else Ok false
          | _ => Ok (reflected_eq a b)
          end
      | VColor c => Ok (Color_eq c b)
      | VConfig c slots =>
          match b with
          | VConfig c' slots' =>
              if proper_subclass c' c
              then slots_eq (eq_fuel n) slots' slots (own_slots c)
              else slots_eq (eq_fuel n) slots slots' (own_slots c')
          | _ => Ok false
          end
      | VEnum m => Ok match b with VEnum m' => m =? m' | _ => reflected_eq a b end
      | VObject id =>
          Ok match b with VObject id' => Nat.eqb id id' | _ => reflected_eq a b end
      end
  end.

(** How deep a value is nested. *)
Fixpoint depth (v : value) : nat :=
  let fix items_depth (l : list value) : nat :=
    match l with
    | [] => O
    | x :: r => Nat.max (depth x) (items_depth r)
    end in
  let fix entries_depth (l : list (string * value)) : nat :=
    match l with
    | [] => O
    | (_, x) :: r => Nat.max (depth x) (entries_depth r)
    end in
  match v with
  | VList l | VTuple l => S (items_depth l)
  | VDict d | VConfig _ d => S (entries_depth d)
  | _ => O
  end.

(** [a == b]: a comparison goes one level down in both operands at each
    step, so that their depths are a bound. *)
Definition py_eq (a b : value) : res bool := eq_fuel (S (depth a + depth b)) a b.

(** The comparisons with [a] on the left. *)
Definition compare (a : value) : comparer :=
  Comparer (py_eq a)
    match a with
    | VList l | VTuple l => items_eq py_eq l
    | _ => λ _, Ok false
    end.

(** The test of the loop of [_ThemeConfig.__eq__], negated, given the
    comparisons of [attr]. *)
Definition attr_equal (attr : value) (attr_cmp : comparer) (other_attr : value)
  : res bool :=
  differs ←
    match attr with
    | VList _ | VTuple _ =>
        other_items ← py_tuple other_attr;
        same ← items_eq_to attr_cmp other_items;
        Ok (negb same)
    | _ => Ok false
    end;
  if (differs : bool) then Ok false
  else eq_to attr_cmp other_attr.

(** One round of the loop of [_ThemeConfig.__eq__], given the comparisons of
    the slot values of [self]. *)
Definition eq_slot (self_cmp : list (string * (value * comparer)))
    (other_slots : list (string * value)) (attr_name : string) : res bool :=
  match assoc_get attr_name self_cmp with
  | None => Raise (Exn AttributeError attr_name)
  | Some (attr, attr_cmp) =>
      match assoc_get attr_name other_slots with
      | None => Raise (Exn AttributeError attr_name)
      | Some other_attr =>
          attr_equal attr attr_cmp other_attr
      end
  end.

(** [for attr_name in other.__slots__: ...; return True] *)
Fixpoint eq_slots (self_cmp : list (string * (value * comparer)))
    (other_slots : list (string * value)) (names : list string) : res bool :=
  match names with
  | [] => Ok true
  | attr_name :: rest =>
      same ← eq_slot self_cmp other_slots attr_name;
      if (same : bool) then eq_slots self_cmp other_slots rest else Ok false
  end.

(** The slot values of a configuration with their comparisons. *)
Fixpoint slot_comparers (l : list (string * value))
  : list (string * (value * comparer)) :=
  match l with
  | [] => []
  | (n, v) :: r => (n, (v, compare v)) :: slot_comparers r
  end.

(** [_ThemeConfig.__eq__(self, other)], the method: [False] when [other] is
    no configuration, else the loop over [other.__slots__]. *)
Definition __eq__ (self : instance) (other : value) : res bool :=
  match other with
  | VConfig c' slots' => eq_slots (slot_comparers (i_slots self)) slots' (own_slots c')
  | _ => Ok false
  end.

(** *** Slots and properties *)

(** [self._x] *)
Definition rd (slot : string) (self : instance) : res value :=
  match assoc_get slot (i_slots self) with
  | Some v => Ok v
  | None => Raise (Exn AttributeError slot)
  end.

(** [self._x = v] *)
Definition wr (slot : string) (v : value) (self : instance) : instance :=
  Instance (i_cls self) (assoc_set slot v (i_slots self)).

(** A [property]: its getter and its setter. *)
Record property := Property {
  fget : instance → res value;
  fset : instance → value → res instance;
}.

(** The setters that occur many times over. *)

(* [self._x = v] *)
Definition plain (slot : string) : property :=
  Property (rd slot) (λ self v, Ok (wr slot v self)).

(* [self._x = bool(v)] *)
Definition as_bool (slot : string) : property :=
  Property (rd slot) (λ self v, Ok (wr slot (VBool (py_bool v)) self)).

(* [self._x = int(v)] *)
Definition as_int (slot : string) : property :=
  Property (rd slot) (λ self v, z ← py_int v; Ok (wr slot (VInt z) self)).

(* [self._x = float(v)] *)
Definition as_float (slot : string) : property :=
  Property (rd slot) (λ self v, f ← py_float v; Ok (wr slot (VFloat f) self)).

(* [self._x = Color(v)] *)
Definition as_color (slot : string) : property :=
  Property (rd slot) (λ self v, c ← Color v; Ok (wr slot (VColor c) self)).

(* [_check_range(v, (lo, hi), name); self._x = v] *)
Definition in_range (lo hi : Z) (name slot : string) : property :=
  Property (rd slot)
    (λ self v, _ ← _check_range v lo hi name; Ok (wr slot v self)).

(* [_check_range(v, (lo, hi), name); self._x = float(v)] *)
Definition in_range_float (lo hi : Z) (name slot : string) : property :=
  Property (rd slot)
    (λ self v, _ ← _check_range v lo hi name;
               f ← py_float v; Ok (wr slot (VFloat f) self)).

(* [if v is None: self._x = None else: self._x = int(v)] *)
Definition none_or_int (slot : string) : property :=
  Property (rd slot)
    (λ self v, match v with
               | VNone => Ok (wr slot VNone self)
               | _ => z ← py_int v; Ok (wr slot (VInt z) self)
               end).

(* [if not isinstance(v, c): raise TypeError(msg)]; [self._x = v] *)
Definition of_class (c : cls) (msg slot : string) : property :=
  Property (rd slot)
    (λ self v, if isinstance v c then Ok (wr slot v self)
               else Raise (Exn TypeError msg)).

(* [if v not in names: raise ValueError(msg)]; [self._x = v], where the
   message may name [v] *)
Definition one_of (names : list string) (msg : value → string) (slot : string)
  : property :=
  Property (rd slot)
    (λ self v,
       same ← mapM (λ n, py_eq (VStr n) v) names;
       if existsb id same then Ok (wr slot v self)
       else Raise (Exn ValueError (msg v))).

Definition truthy (r : res value) : res bool := v ← r; Ok (py_bool v).

End Model.

(** The class attributes that [register_default] changes.  The module has
    three [_defaults] dictionaries, from theme name to method name: the one
    of [_ThemeConfig], which every class without one of its own shares, the
    one of [_SliderStyleConfig], and the one of [Theme], which the
    subclasses of [Theme] share.  [registered] holds the class methods that
    [register_default] has set: for a class and an attribute name, the
    dictionary the method passes to [cls.from_dict]. *)
Record registry := Registry {
  _ThemeConfig_defaults : list (string * string);
  _SliderStyleConfig_defaults : list (string * string);
  Theme_defaults : list (string * string);
  registered : list (cls * string * value);
}.

(** The class whose body binds the [_defaults] that [cls._defaults] finds;
    [None] is [_ThemeConfig]. *)
Definition defaults_owner (c : cls) : option cls :=
  match c with
  | _SliderStyleConfig => Some _SliderStyleConfig
  | Theme | DarkTheme | ParaViewTheme | DocumentTheme | DocumentProTheme
  | _TestingTheme => Some Theme
  | _ => None
  end.

(** [cls._defaults] *)
Definition _defaults (reg : registry) (c : cls) : list (string * string) :=
  match defaults_owner c with
  | Some _SliderStyleConfig => _SliderStyleConfig_defaults reg
  | Some _ => Theme_defaults reg
  | None => _ThemeConfig_defaults reg
  end.

(** The method [register_default] has set on the class [c] itself under
    the name [name], if any. *)
Fixpoint registered_get (c : cls) (name : string) (l : list (cls * string * value))
  : option value :=
  match l with
  | [] => None
  | (c', name', dict_) :: rest =>
      if decide (c' = c ∧ name' = name) then Some dict_
      else registered_get c name rest
  end.

(** [setattr(cls, name, return_theme)] *)
Fixpoint registered_set (c : cls) (name : string) (dict_ : value)
    (l : list (cls * string * value)) : list (cls * string * value) :=
  match l with
  | [] => [(c, name, dict_)]
  | (c', name', dict_') :: rest =>
      if decide (c' = c ∧ name' = name) then (c, name, dict_) :: rest
      else (c', name', dict_') :: registered_set c name dict_ rest
  end.

(** The dictionaries as the class bodies set them. *)
Definition initial_registry : registry :=
  Registry
    []
    [ ("default", "default_theme"); ("classic", "classic_theme");
      ("modern", "modern_theme") ]
    [ ("dark", "dark_theme"); ("default", "document_theme");
      ("document", "document_theme"); ("document_pro", "document_pro_theme");
      ("paraview", "paraview_theme"); ("testing", "testing_theme");
      ("vtk", "vtk_theme") ]
    [].

(** [cls.register_default(name, dict_)]: [setattr(cls, name, return_theme)]
    and [cls._defaults[name] = name].  [setattr] replaces an attribute the
    class has under that name, be it a property or a method; the model
    follows the call for the names that replace nothing, those of
    [collision_free] below. *)
Definition register_default (reg : registry) (c : cls) (name : string) (dict_ : value)
  : registry :=
  let attrs := registered_set c name dict_ (registered reg) in
  let d := assoc_set name name (_defaults reg c) in
  match defaults_owner c with
  | Some _SliderStyleConfig =>
      Registry (_ThemeConfig_defaults reg) d (Theme_defaults reg) attrs
  | Some _ =>
      Registry (_ThemeConfig_defaults reg) (_SliderStyleConfig_defaults reg) d attrs
  | None =>
      Registry d (_SliderStyleConfig_defaults reg) (Theme_defaults reg) attrs
  end.

(** The public names the class bodies of the module bind, properties and
    methods, and [mro], which a class has from [type]. *)
Definition public_names : list string :=
  [ "from_dict"; "update_from_dict"; "to_dict"; "register_default";
    "from_default"; "defaults"; "interpolation"; "metallic"; "roughness";
    "ambient"; "diffuse"; "specular"; "specular_power"; "emissive";
    "number_of_peels"; "occlusion_ratio"; "enabled"; "color"; "line_width";
    "opacity"; "feature_angle"; "decimate"; "width"; "height"; "position_x";
    "position_y"; "x_color"; "y_color"; "z_color"; "box"; "show"; "family";
    "size"; "title_size"; "label_size"; "fmt"; "name"; "cap_width";
    "cap_length"; "cap_opacity"; "tube_color"; "tube_width"; "slider_color";
    "slider_width"; "slider_length"; "default_theme"; "classic_theme";
    "modern_theme"; "interactive_ratio"; "still_ratio";
    "jupyter_server_name"; "jupyter_server_port"; "server_proxy_enabled";
    "server_proxy_prefix"; "jupyter_extension_available";
    "jupyter_extension_enabled"; "default_mode"; "position"; "viewup";
    "parallel_projection"; "parallel_scale"; "dark_theme"; "paraview_theme";
    "document_theme"; "document_pro_theme"; "testing_theme"; "vtk_theme";
    "hidden_line_removal"; "interpolate_before_map"; "edge_opacity";
    "above_range_color"; "below_range_color"; "return_cpos"; "background";
    "jupyter_backend"; "trame"; "auto_close"; "full_screen";
    "enable_camera_orientation_widget"; "camera"; "notebook"; "window_size";
    "image_scale"; "font"; "cmap"; "color_cycler"; "nan_color"; "edge_color";
    "point_size"; "outline_color"; "floor_color"; "colorbar_orientation";
    "colorbar_horizontal"; "colorbar_vertical"; "show_scalar_bar";
    "show_edges"; "show_vertices"; "lighting"; "interactive";
    "render_points_as_spheres"; "render_lines_as_tubes";
    "transparent_background"; "title"; "anti_aliasing"; "multi_samples";
    "multi_rendering_splitting_position"; "volume_mapper"; "smooth_shading";
    "depth_peeling"; "silhouette"; "slider_style"; "axes";
    "before_close_callback"; "allow_empty_mesh"; "restore_defaults";
    "load_theme"; "save"; "split_sharp_edges"; "sharp_edges_feature_angle";
    "lighting_params"; "logo_file"; "mro" ].

(** A name under which no class of the module has an attribute: it does not
    start with an underscore, as the slots, the private helpers and the
    special methods do, and it is none of the public names. *)
Definition collision_free (name : string) : Prop :=
  str_startswith "_" name = false ∧ name ∉ public_names.

#[global] Instance collision_free_dec (name : string) : Decision (collision_free name).
Proof. unfold collision_free. apply _. Defined.

(** The registries the model follows: what calls of [register_default] with
    such names make of the class attributes. *)
Inductive registry_ok : registry → Prop :=
  | ok_initial : registry_ok initial_registry
  | ok_register (reg : registry) (c : cls) (name : string) (dict_ : value) :
      registry_ok reg → collision_free name →
      registry_ok (register_default reg c name dict_).

(** The module state: [pyvista.global_theme] and the class attributes that
    [register_default] changes. *)
Record state := State {
  global_theme : instance;
  theme_registry : registry;
}.

(** The classes, with the recursion through the [camera] setter left open. *)
Module Open.
Section ClassTable.
Context `{Env}.

(** [_CameraConfig.from_dict], which the [camera] setter of [Theme] calls.
    It is [from_dict] below at [_CameraConfig]; the definitions after this
    section close the recursion. *)
Variable camera_from_dict : value → res instance.

Definition _LightingConfig_properties : list (string * property) :=
  [ ("interpolation",
     Property (λ self, v ← rd "_interpolation" self;
                       m ← InterpolationType_from_any v; Ok (VEnum m))
       (λ self v, m ← InterpolationType_from_any v;
                  Ok (wr "_interpolation" (VInt m) self)));
    ("metallic", in_range 0 1 "metallic" "_metallic");
    ("roughness", in_range 0 1 "roughness" "_roughness");
    ("ambient", in_range 0 1 "ambient" "_ambient");
    ("diffuse", in_range 0 1 "diffuse" "_diffuse");
    ("specular", in_range 0 1 "specular" "_specular");
    ("specular_power", in_range 0 128 "specular_power" "_specular_power");
    ("emissive", as_bool "_emissive") ].

Definition _DepthPeelingConfig_properties : list (string * property) :=
  [ ("number_of_peels", as_int "_number_of_peels");
    ("occlusion_ratio", as_float "_occlusion_ratio");
    ("enabled", as_bool "_enabled") ].

Definition _SilhouetteConfig_properties : list (string * property) :=
  [ ("enabled", as_bool "_enabled");
    ("color", as_color "_color");
    ("line_width", as_float "_line_width");
    ("opacity", in_range_float 0 1 "opacity" "_opacity");
    ("feature_angle", plain "_feature_angle");
    ("decimate",
     Property (rd "_decimate")
       (λ self v, match v with
                  | VNone => Ok (wr "_decimate" VNone self)
                  | _ => _ ← _check_range v 0 1 "decimate";
                         f ← py_float v; Ok (wr "_decimate" (VFloat f) self)
                  end)) ].

Definition _ColorbarConfig_properties : list (string * property) :=
  [ ("width", as_float "_width");
    ("height", as_float "_height");
    ("position_x", as_float "_position_x");
    ("position_y", as_float "_position_y") ].

Definition _AxesConfig_properties : list (string * property) :=
  [ ("x_color", as_color "_x_color");
    ("y_color", as_color "_y_color");
    ("z_color", as_color "_z_color");
    ("box", as_bool "_box");
    ("show", as_bool "_show") ].

Definition _Font_properties : list (string * property) :=
  [ ("family",
     Property (rd "_family")
       (λ self v, _ ← parse_font_family v; Ok (wr "_family" v self)));
    ("size", as_int "_size");
    ("title_size", none_or_int "_title_size");
    ("label_size", none_or_int "_label_size");
    ("color", as_color "_color");
    ("fmt", plain "_fmt") ].

Definition _SliderStyleConfig_properties : list (string * property) :=
  [ ("name", plain "_name");
    ("cap_width", as_float "_cap_width");
    ("cap_length", as_float "_cap_length");
    ("cap_opacity", in_range_float 0 1 "cap_opacity" "_cap_opacity");
    ("tube_color", as_color "_tube_color");
    ("tube_width", as_float "_tube_width");
    ("slider_color", as_color "_slider_color");
    ("slider_width", as_float "_slider_width");
    ("slider_length", as_float "_slider_length") ].

Definition _TrameConfig_properties : list (string * property) :=
  [ ("interactive_ratio", plain "_interactive_ratio");
    ("still_ratio", plain "_still_ratio");
    ("jupyter_server_name", plain "_jupyter_server_name");
    ("jupyter_server_port", plain "_jupyter_server_port");
    ("server_proxy_enabled",
     Property (rd "_server_proxy_enabled")
       (λ self enabled,
          self1 ←
            (if py_bool enabled then
               ext ← truthy (rd "_jupyter_extension_enabled" self);
               Ok (if (ext : bool)
                   then wr "_jupyter_extension_enabled" (VBool false) self else self)
             else Ok self);
          Ok (wr "_server_proxy_enabled" (VBool (py_bool enabled)) self1)));
    ("server_proxy_prefix", plain "_server_proxy_prefix");
    ("jupyter_extension_available",
     (* the setter only warns that the flag is read only *)
     Property (rd "_jupyter_extension_available") (λ self _, Ok self));
    ("jupyter_extension_enabled",
     Property (rd "_jupyter_extension_enabled")
       (λ self enabled,
          if py_bool enabled then
            available ← truthy (rd "_jupyter_extension_available" self);
            if negb available
            then Raise (Exn ValueError "The trame_jupyter_extension is not available")
            else
              proxy ← truthy (rd "_server_proxy_enabled" self);
              let self1 :=
                if (proxy : bool)
                then wr "_server_proxy_enabled" (VBool false) self else self in
              Ok (wr "_jupyter_extension_enabled" (VBool true) self1)
          else Ok (wr "_jupyter_extension_enabled" (VBool false) self)));
    ("default_mode", plain "_default_mode") ].

Definition _CameraConfig_properties : list (string * property) :=
  [ ("position", plain "_position");
    ("viewup", plain "_viewup");
    ("parallel_projection", plain "_parallel_projection");
    ("parallel_scale", plain "_parallel_scale") ].

(** The messages of the setters of [Theme] that hold double quotes or name
    the value. *)

(* ['Colorbar orientation must be either "vertical" or "horizontal"'] *)
Definition colorbar_orientation_msg : string :=
  "Colorbar orientation must be either " ++ quoted "vertical" ++ " or "
  ++ quoted "horizontal".

(* ['anti_aliasing must be either "ssaa", "msaa", or "fxaa"'] *)
Definition anti_aliasing_name_msg : string :=
  "anti_aliasing must be either " ++ quoted "ssaa" ++ ", " ++ quoted "msaa"
  ++ ", or " ++ quoted "fxaa".

(* ['anti_aliasing must be either "ssaa", "msaa", "fxaa", or None'] *)
Definition anti_aliasing_type_msg : string :=
  "anti_aliasing must be either " ++ quoted "ssaa" ++ ", " ++ quoted "msaa"
  ++ ", " ++ quoted "fxaa" ++ ", or None".

(* [f"Mapper ({mapper}) unknown. Available volume mappers "
   f"include:\n {', '.join(mappers)}"] *)
Definition volume_mapper_msg (mapper : value) : string :=
  "Mapper (" ++ py_str mapper ++ ") unknown. Available volume mappers include:"
  ++ String (Ascii.ascii_of_nat 10) " fixed_point, gpu, open_gl, smart".

(** [len(x)], [x[i]] and [x < 0], as the [window_size] setter uses them. *)
Definition py_len (x : value) : res nat :=
  match x with
  | VStr s => Ok (String.length s)
  | VList l | VTuple l => Ok (length l)
  | VDict d => Ok (length d)
  | _ => Raise (Exn TypeError "object has no len()")
  end.

Definition py_getitem (x : value) (i : nat) : res value :=
  match x with
  | VList l | VTuple l =>
      match l !! i with
      | Some v => Ok v
      | None => Raise (Exn IndexError "index out of range")
      end
  | VStr s =>
      match String.get i s with
      | Some c => Ok (VStr (String c EmptyString))
      | None => Raise (Exn IndexError "string index out of range")
      end
  | VDict _ => Raise (Exn KeyError "0")
  | _ => Raise (Exn TypeError "object is not subscriptable")
  end.

Definition py_lt (x : value) (bound : Z) : res bool :=
  match x with
  | VBool b => Ok (Z.b2z b <? bound)
  | VInt z => Ok (z <? bound)
  | VFloat f => Ok (float_lt_int f bound)
  | _ => Raise (Exn TypeError "'<' not supported")
  end.

Definition Theme_properties : list (string * property) :=
  [ ("hidden_line_removal", plain "_hidden_line_removal");
    ("interpolate_before_map", plain "_interpolate_before_map");
    ("opacity", in_range_float 0 1 "opacity" "_opacity");
    ("edge_opacity", in_range_float 0 1 "edge_opacity" "_edge_opacity");
    ("above_range_color", as_color "_above_range_color");
    ("below_range_color", as_color "_below_range_color");
    ("return_cpos", plain "_return_cpos");
    ("background", as_color "_background");
    ("jupyter_backend",
     Property (rd "_jupyter_backend")
       (λ self backend, b ← _validate_jupyter_backend backend;
                        Ok (wr "_jupyter_backend" b self)));
    ("trame", of_class _TrameConfig "Configuration type must be `_TrameConfig`." "_trame");
    ("auto_close", plain "_auto_close");
    ("full_screen", plain "_full_screen");
    ("enable_camera_orientation_widget", plain "_enable_camera_orientation_widget");
    ("camera",
     Property (rd "_camera")
       (λ self camera,
          match camera with
          | VDict _ => c ← camera_from_dict camera; Ok (wr "_camera" (VInstance c) self)
          | _ =>
              if isinstance camera _CameraConfig then Ok (wr "_camera" camera self)
              else Raise (Exn TypeError
                            ("camera value must either be a `dict` or a `_CameraConfig`, got "
                             ++ type_str camera))
          end));
    ("notebook", plain "_notebook");
    ("window_size",
     Property (rd "_window_size")
       (λ self window_size,
          n ← py_len window_size;
          if negb (Nat.eqb n 2)
          then Raise (Exn ValueError "Expected a length 2 iterable for ``window_size``.")
          else
            w ← py_getitem window_size 0;
            w_neg ← py_lt w 0;
            h_neg ← (if (w_neg : bool) then Ok true
                     else h ← py_getitem window_size 1; py_lt h 0);
            if (h_neg : bool)
            then Raise (Exn ValueError "Window size must be a positive value.")
            else Ok (wr "_window_size" window_size self)));
    ("image_scale",
     Property (rd "_image_scale")
       (λ self value,
          z ← py_int value;
          if z <? 1 then Raise (Exn ValueError "Scale factor must be a positive integer.")
          else Ok (wr "_image_scale" (VInt z) self)));
    ("font", of_class _Font "Configuration type must be `_Font`." "_font");
    ("cmap",
     Property (rd "_cmap")
       (λ self cmap,
          out ← get_cmap_safe cmap;
          match out with
          | VNone => Raise (Exn ValueError ("Invalid color map " ++ py_str cmap))
          | _ => Ok (wr "_cmap" cmap self)
          end));
    ("color", as_color "_color");
    ("color_cycler",
     Property (rd "_color_cycler")
       (λ self color_cycler, c ← get_cycler color_cycler; Ok (wr "_color_cycler" c self)));
    ("nan_color", as_color "_nan_color");
    ("edge_color", as_color "_edge_color");
    ("line_width", as_float "_line_width");
    ("point_size", as_float "_point_size");
    ("outline_color", as_color "_outline_color");
    ("floor_color", as_color "_floor_color");
    ("colorbar_orientation",
     one_of ["vertical"; "horizontal"] (λ _, colorbar_orientation_msg)
       "_colorbar_orientation");
    ("colorbar_horizontal",
     of_class _ColorbarConfig "Configuration type must be `_ColorbarConfig`."
       "_colorbar_horizontal");
    ("colorbar_vertical",
     of_class _ColorbarConfig "Configuration type must be `_ColorbarConfig`."
       "_colorbar_vertical");
    ("show_scalar_bar", as_bool "_show_scalar_bar");
    ("show_edges", as_bool "_show_edges");
    ("show_vertices", as_bool "_show_vertices");
    ("lighting", plain "_lighting");
    ("interactive", as_bool "_interactive");
    ("render_points_as_spheres", as_bool "_render_points_as_spheres");
    ("render_lines_as_tubes", as_bool "_render_lines_as_tubes");
    ("transparent_background", plain "_transparent_background");
    ("title", plain "_title");
    ("anti_aliasing",
     Property (rd "_anti_aliasing")
       (λ self anti_aliasing,
          match anti_aliasing with
          | VStr a =>
              if bool_decide (a ∈ ["ssaa"; "msaa"; "fxaa"])
              then Ok (wr "_anti_aliasing" anti_aliasing self)
              else Raise (Exn ValueError anti_aliasing_name_msg)
          | VNone => Ok (wr "_anti_aliasing" anti_aliasing self)
          | _ => Raise (Exn TypeError anti_aliasing_type_msg)
          end));
    ("multi_samples", as_int "_multi_samples");
    ("multi_rendering_splitting_position", plain "_multi_rendering_splitting_position");
    ("volume_mapper",
     one_of ["fixed_point"; "gpu"; "open_gl"; "smart"] volume_mapper_msg
       "_volume_mapper");
    ("smooth_shading", as_bool "_smooth_shading");
    ("depth_peeling",
     of_class _DepthPeelingConfig "Configuration type must be `_DepthPeelingConfig`."
       "_depth_peeling");
    ("silhouette",
     of_class _SilhouetteConfig "Configuration type must be `_SilhouetteConfig`"
       "_silhouette");
    ("slider_style",
     of_class _SliderStyleConfig "Configuration type must be `_SliderStyleConfig`."
       "_slider_style");
    ("axes", of_class _AxesConfig "Configuration type must be `_AxesConfig`." "_axes");
    ("before_close_callback", plain "_before_close_callback");
    ("allow_empty_mesh", as_bool "_allow_empty_mesh");
    ("name", plain "_name");
    ("split_sharp_edges", plain "_split_sharp_edges");
    ("sharp_edges_feature_angle", as_float "_sharp_edges_feature_angle");
    ("lighting_params",
     of_class _LightingConfig "Configuration type must be `_LightingConfig`."
       "_lighting_params");
    ("logo_file",
     Property (rd "_logo_file")
       (λ self logo_file,
          match logo_file with
          | VNone => Ok (wr "_logo_file" VNone self)
          | _ =>
              found ← path_exists logo_file;
              if (found : bool) then Ok (wr "_logo_file" (VStr (py_str logo_file)) self)
              else Raise (Exn OtherError
                            ("FileNotFoundError: Logo file (" ++ py_str logo_file
                             ++ ") not found."))
          end)) ].

(** The properties a class defines; the deprecated subclasses of [Theme]
    inherit those of [Theme]. *)
Definition properties (c : cls) : list (string * property) :=
  match c with
  | _LightingConfig => _LightingConfig_properties
  | _DepthPeelingConfig => _DepthPeelingConfig_properties
  | _SilhouetteConfig => _SilhouetteConfig_properties
  | _ColorbarConfig => _ColorbarConfig_properties
  | _AxesConfig => _AxesConfig_properties
  | _Font => _Font_properties
  | _SliderStyleConfig => _SliderStyleConfig_properties
  | _TrameConfig => _TrameConfig_properties
  | _CameraConfig => _CameraConfig_properties
  | Theme | DarkTheme | ParaViewTheme | DocumentTheme | DocumentProTheme
  | _TestingTheme => Theme_properties
  end.

(** [getattr(self, name)]: a property, else a slot.  Any other name of the
    class is a method or a class attribute, which [setattr] below refuses;
    the model refuses it here already, with the same exception class. *)
Definition getattr (self : instance) (name : string) : res value :=
  match assoc_get name (properties (i_cls self)) with
  | Some p => fget p self
  | None =>
      if bool_decide (name ∈ _all__slots__ (i_cls self)) then rd name self
      else Raise (Exn AttributeError name)
  end.

(** [setattr(self, name, v)] *)
Definition setattr (self : instance) (name : string) (v : value) : res instance :=
  match assoc_get name (properties (i_cls self)) with
  | Some p => fset p self v
  | None =>
      if bool_decide (name ∈ _all__slots__ (i_cls self)) then Ok (wr name v self)
      else Raise (Exn AttributeError name)
  end.

(** *** Constructors

    [cls()] without keyword arguments, which is how every modelled caller
    constructs; the slots are listed in the order [__init__] assigns them.
    Warnings are not modelled. *)

Definition f0_0 := 0x0000000000000000.
Definition f0_005 := 0x3F747AE147AE147B.
Definition f0_01 := 0x3F847AE147AE147B.
Definition f0_02 := 0x3F947AE147AE147B.
Definition f0_04 := 0x3FA47AE147AE147B.
Definition f0_05 := 0x3FA999999999999A.
Definition f0_08 := 0x3FB47AE147AE147B.
Definition f0_3 := 0x3FD3333333333333.
Definition f0_35 := 0x3FD6666666666666.
Definition f0_45 := 0x3FDCCCCCCCCCCCCD.
Definition f0_5 := 0x3FE0000000000000.
Definition f0_6 := 0x3FE3333333333333.
Definition f0_9 := 0x3FECCCCCCCCCCCCD.
Definition f1_0 := 0x3FF0000000000000.
Definition f5_0 := 0x4014000000000000.
Definition f30_0 := 0x403E000000000000.
Definition f100_0 := 0x4059000000000000.

(** [Color(name)] as a slot value. *)
Definition color_of (x : value) : res value := c ← Color x; Ok (VColor c).

(** A sequence of assignments [self.k = v] through [setattr]. *)
Fixpoint assign_all (self : instance) (kvs : list (string * value)) : res instance :=
  match kvs with
  | [] => Ok self
  | (k, v) :: rest => self' ← setattr self k v; assign_all self' rest
  end.

(** [self.attr.name = v]: the configuration held in [self._attr] is updated
    in place. *)
Definition assign_in (self : instance) (attr name : string) (v : value) : res instance :=
  sub ← getattr self attr;
  match sub with
  | VConfig c slots =>
      sub' ← setattr (Instance c slots) name v;
      Ok (wr ("_" ++ attr) (VInstance sub') self)
  | _ => Raise (Exn AttributeError name)
  end.

Definition _LightingConfig_init : res instance :=
  Ok (Instance _LightingConfig
        [ ("_interpolation", VInt InterpolationType_FLAT);
          ("_metallic", VFloat f0_0); ("_roughness", VFloat f0_5);
          ("_ambient", VFloat f0_0); ("_diffuse", VFloat f1_0);
          ("_specular", VFloat f0_0); ("_specular_power", VFloat f100_0);
          ("_emissive", VBool false) ]).

Definition _DepthPeelingConfig_init : res instance :=
  Ok (Instance _DepthPeelingConfig
        [ ("_number_of_peels", VInt 4); ("_occlusion_ratio", VFloat f0_0);
          ("_enabled", VBool false) ]).

Definition _SilhouetteConfig_init : res instance :=
  black ← color_of (VStr "black");
  Ok (Instance _SilhouetteConfig
        [ ("_color", black); ("_line_width", VInt 2); ("_opacity", VFloat f1_0);
          ("_feature_angle", VNone); ("_decimate", VNone); ("_enabled", VBool false) ]).

Definition _ColorbarConfig_init : res instance :=
  Ok (Instance _ColorbarConfig
        [ ("_width", VNone); ("_height", VNone);
          ("_position_x", VNone); ("_position_y", VNone) ]).

Definition _AxesConfig_init : res instance :=
  x ← color_of (VStr "tomato");
  y ← color_of (VStr "seagreen");
  z ← color_of (VStr "mediumblue");
  Ok (Instance _AxesConfig
        [ ("_x_color", x); ("_y_color", y); ("_z_color", z);
          ("_box", VBool false); ("_show", VBool true) ]).

Definition _Font_init : res instance :=
  white ← color_of (VStr "white");
  Ok (Instance _Font
        [ ("_family", VStr "arial"); ("_size", VInt 12); ("_title_size", VNone);
          ("_label_size", VNone); ("_color", white); ("_fmt", VNone) ]).

Definition _SliderStyleConfig_init : res instance :=
  assign_all (Instance _SliderStyleConfig [("_name", VNone)])
    [ ("slider_length", VFloat f0_05); ("slider_width", VFloat f0_05);
      ("slider_color", VTuple [VInt 0; VInt 0; VInt 0]);
      ("tube_width", VFloat f0_04);
      ("tube_color", VTuple [VInt 0; VInt 0; VInt 0]);
      ("cap_opacity", VFloat f1_0); ("cap_length", VFloat f0_01);
      ("cap_width", VFloat f0_05) ].

Definition env_has (name : string) : bool :=
  match environ name with Some _ => true | None => false end.

Definition env_get (name default : string) : string :=
  match environ name with Some v => v | None => default end.

Definition _TrameConfig_init : res instance :=
  let proxy0 := env_has "PYVISTA_TRAME_SERVER_PROXY_PREFIX" in
  let service := env_get "JUPYTERHUB_SERVICE_PREFIX" EmptyString in
  let prefix := env_get "PYVISTA_TRAME_SERVER_PROXY_PREFIX" "/proxy/" in
  let joined := negb (String.eqb service EmptyString) && negb (str_startswith "http" prefix) in
  let proxy_prefix :=
    if joined then os_path_join service (str_lstrip_slash prefix) else prefix in
  let proxy1 := if joined then true else proxy0 in
  let available := env_has "TRAME_JUPYTER_WWW" in
  let enabled1 := available && negb proxy1 in
  let jupyter_mode := environ "PYVISTA_TRAME_JUPYTER_MODE" in
  let '(proxy2, enabled2) :=
    if bool_decide (jupyter_mode = Some "extension") && available then (false, true)
    else if bool_decide (jupyter_mode = Some "proxy") && proxy1 then (proxy1, false)
    else if bool_decide (jupyter_mode = Some "native") then (false, false)
    else (proxy1, enabled1) in
  Ok (Instance _TrameConfig
        [ ("_interactive_ratio", VInt 1); ("_still_ratio", VInt 1);
          ("_jupyter_server_name", VStr "pyvista-jupyter");
          ("_jupyter_server_port", VInt 0);
          ("_server_proxy_enabled", VBool proxy2);
          ("_server_proxy_prefix", VStr proxy_prefix);
          ("_jupyter_extension_available", VBool available);
          ("_jupyter_extension_enabled", VBool enabled2);
          ("_default_mode", VStr "trame") ]).

Definition _CameraConfig_init : res instance :=
  Ok (Instance _CameraConfig
        [ ("_position", VList [VFloat f1_0; VFloat f1_0; VFloat f1_0]);
          ("_viewup", VList [VFloat f0_0; VFloat f0_0; VFloat f1_0]);
          ("_parallel_projection", VBool false);
          ("_parallel_scale", VFloat f1_0) ]).

(** [_ColorbarConfig()] followed by the four assignments of [Theme.__init__]. *)
Definition colorbar_of (w h x y : Z) : res value :=
  c ← _ColorbarConfig_init;
  c' ← assign_all c [ ("width", VFloat w); ("height", VFloat h);
                      ("position_x", VFloat x); ("position_y", VFloat y) ];
  Ok (VInstance c').

Definition Theme_init (c : cls) : res instance :=
  background ← color_of (VList [VFloat f0_3; VFloat f0_3; VFloat f0_3]);
  camera ← _CameraConfig_init;
  font ← _Font_init;
  color ← color_of (VStr "white");
  nan_color ← color_of (VStr "darkgray");
  above_range_color ← color_of (VStr "grey");
  below_range_color ← color_of (VStr "grey");
  edge_color ← color_of (VStr "black");
  outline_color ← color_of (VStr "white");
  floor_color ← color_of (VStr "gray");
  colorbar_horizontal ← colorbar_of f0_6 f0_08 f0_35 f0_05;
  colorbar_vertical ← colorbar_of f0_08 f0_45 f0_9 f0_02;
  axes ← _AxesConfig_init;
  multi_samples ←
    match environ "PYVISTA_MULTI_SAMPLES" with
    | None => Ok 8
    | Some text =>
        match int_of_str text with
        | Ok z => Ok z
        | Raise e => if bool_decide (exn_cls e = ValueError) then Ok 8 else Raise e
        end
    end;
  trame ← _TrameConfig_init;
  depth_peeling ← _DepthPeelingConfig_init;
  silhouette ← _SilhouetteConfig_init;
  slider_style ← _SliderStyleConfig_init;
  lighting_params ← _LightingConfig_init;
  Ok (Instance c
        [ ("_name", VStr "default"); ("_background", background);
          ("_full_screen", VBool false); ("_camera", VInstance camera);
          ("_notebook", VNone); ("_window_size", VList [VInt 1024; VInt 768]);
          ("_image_scale", VInt 1); ("_font", VInstance font);
          ("_cmap", VStr "viridis"); ("_color", color); ("_color_cycler", VNone);
          ("_nan_color", nan_color); ("_above_range_color", above_range_color);
          ("_below_range_color", below_range_color); ("_edge_color", edge_color);
          ("_line_width", VFloat f1_0); ("_point_size", VFloat f5_0);
          ("_outline_color", outline_color); ("_floor_color", floor_color);
          ("_colorbar_orientation", VStr "horizontal");
          ("_colorbar_horizontal", colorbar_horizontal);
          ("_colorbar_vertical", colorbar_vertical);
          ("_show_scalar_bar", VBool true); ("_show_edges", VBool false);
          ("_show_vertices", VBool false); ("_lighting", VBool true);
          ("_interactive", VBool false); ("_render_points_as_spheres", VBool false);
          ("_render_lines_as_tubes", VBool false);
          ("_transparent_background", VBool false); ("_title", VStr "PyVista");
          ("_axes", VInstance axes); ("_split_sharp_edges", VBool false);
          ("_sharp_edges_feature_angle", VFloat f30_0);
          ("_before_close_callback", VNone); ("_allow_empty_mesh", VBool false);
          ("_multi_samples", VInt multi_samples);
          ("_auto_close",
           VBool (negb (String.eqb (str_lower (env_get "PYVISTA_AUTO_CLOSE" EmptyString))
                          "false")));
          ("_jupyter_backend", VStr (env_get "PYVISTA_JUPYTER_BACKEND" "trame"));
          ("_trame", VInstance trame);
          ("_multi_rendering_splitting_position", VNone);
          ("_volume_mapper",
           VStr (if String.eqb os_name "nt" then "fixed_point" else "smart"));
          ("_smooth_shading", VBool false);
          ("_depth_peeling", VInstance depth_peeling);
          ("_silhouette", VInstance silhouette);
          ("_slider_style", VInstance slider_style);
          ("_return_cpos", VBool true); ("_hidden_line_removal", VBool false);
          ("_anti_aliasing", VStr "msaa");
          ("_enable_camera_orientation_widget", VBool false);
          ("_lighting_params", VInstance lighting_params);
          ("_interpolate_before_map", VBool true);
          ("_opacity", VFloat f1_0); ("_edge_opacity", VFloat f1_0);
          ("_logo_file", VNone) ]).

Definition DarkTheme_init (c : cls) : res instance :=
  self ← Theme_init c;
  self ← assign_all self [("name", VStr "dark"); ("background", VStr "black");
                          ("cmap", VStr "viridis")];
  self ← assign_in self "font" "color" (VStr "white");
  self ← assign_all self [("show_edges", VBool false); ("color", VStr "lightblue");
                          ("outline_color", VStr "white"); ("edge_color", VStr "white")];
  self ← assign_in self "axes" "x_color" (VStr "tomato");
  self ← assign_in self "axes" "y_color" (VStr "seagreen");
  assign_in self "axes" "z_color" (VStr "blue").

Definition ParaViewTheme_init (c : cls) : res instance :=
  self ← Theme_init c;
  self ← assign_all self [("name", VStr "paraview"); ("background", VStr "paraview");
                          ("cmap", VStr "coolwarm")];
  self ← assign_in self "font" "family" (VStr "arial");
  self ← assign_in self "font" "label_size" (VInt 16);
  self ← assign_in self "font" "color" (VStr "white");
  self ← assign_all self [("show_edges", VBool false); ("color", VStr "white");
                          ("outline_color", VStr "white"); ("edge_color", VStr "black")];
  self ← assign_in self "axes" "x_color" (VStr "tomato");
  self ← assign_in self "axes" "y_color" (VStr "gold");
  assign_in self "axes" "z_color" (VStr "green").

Definition DocumentTheme_init (c : cls) : res instance :=
  self ← Theme_init c;
  self ← assign_all self [("name", VStr "document"); ("background", VStr "white");
                          ("cmap", VStr "viridis")];
  self ← assign_in self "font" "size" (VInt 18);
  self ← assign_in self "font" "title_size" (VInt 18);
  self ← assign_in self "font" "label_size" (VInt 18);
  self ← assign_in self "font" "color" (VStr "black");
  self ← assign_all self [("show_edges", VBool false); ("color", VStr "lightblue");
                          ("outline_color", VStr "black"); ("edge_color", VStr "black")];
  self ← assign_in self "axes" "x_color" (VStr "tomato");
  self ← assign_in self "axes" "y_color" (VStr "seagreen");
  assign_in self "axes" "z_color" (VStr "blue").

Definition DocumentProTheme_init (c : cls) : res instance :=
  self ← DocumentTheme_init c;
  self ← assign_all self [("anti_aliasing", VStr "ssaa")];
  cycler ← get_cycler (VStr "default");
  self ← assign_all self [("color_cycler", cycler);
                          ("render_points_as_spheres", VBool true);
                          ("multi_samples", VInt 8)];
  self ← assign_in self "depth_peeling" "number_of_peels" (VInt 4);
  self ← assign_in self "depth_peeling" "occlusion_ratio" (VFloat f0_0);
  assign_in self "depth_peeling" "enabled" (VBool true).

Definition _TestingTheme_init (c : cls) : res instance :=
  self ← Theme_init c;
  self ← assign_all self [("name", VStr "testing"); ("multi_samples", VInt 1);
                          ("window_size", VList [VInt 400; VInt 400])];
  self ← assign_in self "axes" "show" (VBool false);
  assign_all self [("return_cpos", VBool false)].

(** [c()] *)
Definition __init__ (c : cls) : res instance :=
  match c with
  | _LightingConfig => _LightingConfig_init
  | _DepthPeelingConfig => _DepthPeelingConfig_init
  | _SilhouetteConfig => _SilhouetteConfig_init
  | _ColorbarConfig => _ColorbarConfig_init
  | _AxesConfig => _AxesConfig_init
  | _Font => _Font_init
  | _SliderStyleConfig => _SliderStyleConfig_init
  | _TrameConfig => _TrameConfig_init
  | _CameraConfig => _CameraConfig_init
  | Theme => Theme_init c
  | DarkTheme => DarkTheme_init c
  | ParaViewTheme => ParaViewTheme_init c
  | DocumentTheme => DocumentTheme_init c
  | DocumentProTheme => DocumentProTheme_init c
  | _TestingTheme => _TestingTheme_init c
  end.

(** *** [to_dict], [from_dict], [update_from_dict] *)

(** [key[1:]] *)
Definition str_tail (key : string) : string :=
  match key with
  | String _ rest => rest
  | EmptyString => EmptyString
  end.

(** The loop of [to_dict] over the slot names, given what each slot of
    [self] serialises to. *)
Fixpoint to_dict_loop (serialised : list (string * res value)) (names : list string)
    (dict_ : list (string * value)) : res (list (string * value)) :=
  match names with
  | [] => Ok dict_
  | key :: rest =>
      match assoc_get key serialised with
      | None => Raise (Exn AttributeError key)
      | Some r => v ← r; to_dict_loop serialised rest (assoc_set (str_tail key) v dict_)
      end
  end.

(** What [to_dict] stores for a slot value: [value.to_dict()] when the value
    has that method, the value itself otherwise. *)
Fixpoint serialise (v : value) : res value :=
  let fix slots_serialised (l : list (string * value)) : list (string * res value) :=
    match l with
    | [] => []
    | (n, x) :: r => (n, serialise x) :: slots_serialised r
    end in
  match v with
  | VConfig c slots =>
      d ← to_dict_loop (slots_serialised slots) (_all__slots__ c) [];
      Ok (VDict d)
  | VColor rgba =>
      match Color_to_dict with
      | Some color_to_dict => Ok (color_to_dict rgba)
      | None => Ok v
      end
  | _ => Ok v
  end.

(** [_ThemeConfig.to_dict(self)] *)
Definition to_dict (self : instance) : res value := serialise (VInstance self).

(** [_ThemeConfig.from_dict(cls, dict_)] *)
Fixpoint from_dict (c : cls) (dict_ : value) {struct dict_} : res instance :=
  match __init__ c with
  | Raise e => Raise e
  | Ok inst0 =>
      match dict_ with
      | VDict entries =>
          (fix loop (entries : list (string * value)) (inst : instance) : res instance :=
             match entries with
             | [] => Ok inst
             | (key, value) :: rest =>
                 attr ← getattr inst key;
                 v ← match attr with
                     | VConfig c' _ => sub ← from_dict c' value; Ok (VInstance sub)
                     | VColor _ =>
                         match Color_from_dict with
                         | Some color_from_dict => color_from_dict value
                         | None => Ok value
                         end
                     | _ => Ok value
                     end;
                 inst' ← setattr inst key v;
                 loop rest inst'
             end) entries inst0
      | _ => Raise (Exn AttributeError "items")
      end
  end.

(** The body of the loop of [from_dict], and the loop. *)
Definition from_dict_entry (inst : instance) (key : string) (value : value)
  : res instance :=
  attr ← getattr inst key;
  v ← match attr with
      | VConfig c' _ => sub ← from_dict c' value; Ok (VInstance sub)
      | VColor _ =>
          match Color_from_dict with
          | Some color_from_dict => color_from_dict value
          | None => Ok value
          end
      | _ => Ok value
      end;
  setattr inst key v.

Fixpoint from_dict_entries (inst : instance) (entries : list (string * value))
  : res instance :=
  match entries with
  | [] => Ok inst
  | (key, value) :: rest =>
      inst' ← from_dict_entry inst key value; from_dict_entries inst' rest
  end.

(** The slot that holds what [getattr(self, key)] returned. *)
Definition holder (self : instance) (key : string) : string :=
  match assoc_get key (properties (i_cls self)) with
  | Some _ => "_" ++ key
  | None => key
  end.

(** [_ThemeConfig.update_from_dict(self, dict_)]; a nested configuration is
    updated in place. *)
Fixpoint update_from_dict (self : instance) (dict_ : value) {struct dict_} : res instance :=
  match dict_ with
  | VDict entries =>
      (fix loop (entries : list (string * value)) (self : instance) : res instance :=
         match entries with
         | [] => Ok self
         | (key, value) :: rest =>
             attr ← getattr self key;
             self' ← match attr with
                     | VConfig c' slots' =>
                         sub ← update_from_dict (Instance c' slots') value;
                         Ok (wr (holder self key) (VInstance sub) self)
                     | _ => setattr self key value
                     end;
             loop rest self'
         end) entries self
  | _ => Raise (Exn AttributeError "items")
  end.

(** *** The default themes *)

Definition dark_theme (c : cls) : res instance :=
  from_dict c
    (VDict [ ("name", VStr "dark"); ("background", VStr "black");
             ("cmap", VStr "viridis"); ("font", VDict [("color", VStr "white")]);
             ("show_edges", VBool false); ("color", VStr "lightblue");
             ("outline_color", VStr "white"); ("edge_color", VStr "white");
             ("axes", VDict [ ("x_color", VStr "tomato"); ("y_color", VStr "seagreen");
                              ("z_color", VStr "blue") ]) ]).

Definition paraview_theme (c : cls) : res instance :=
  from_dict c
    (VDict [ ("name", VStr "paraview"); ("background", VStr "paraview");
             ("cmap", VStr "coolwarm");
             ("font", VDict [ ("family", VStr "arial"); ("label_size", VInt 16);
                              ("color", VStr "white") ]);
             ("show_edges", VBool false); ("color", VStr "white");
             ("outline_color", VStr "white"); ("edge_color", VStr "black");
             ("axes", VDict [ ("x_color", VStr "tomato"); ("y_color", VStr "gold");
                              ("z_color", VStr "green") ]) ]).

Definition document_theme (c : cls) : res instance :=
  from_dict c
    (VDict [ ("name", VStr "document"); ("background", VStr "white");
             ("cmap", VStr "viridis");
             ("font", VDict [ ("size", VInt 18); ("title_size", VInt 18);
                              ("label_size", VInt 18); ("color", VStr "black") ]);
             ("show_edges", VBool false); ("color", VStr "lightblue");
             ("outline_color", VStr "black"); ("edge_color", VStr "black");
             ("axes", VDict [ ("x_color", VStr "tomato"); ("y_color", VStr "seagreen");
                              ("z_color", VStr "blue") ]) ]).

Definition document_pro_theme (c : cls) : res instance :=
  theme ← document_theme c;
  cycler ← get_cycler (VStr "default");
  update_from_dict theme
    (VDict [ ("anti_aliasing", VStr "ssaa"); ("color_cycler", cycler);
             ("render_points_as_spheres", VBool true); ("multi_samples", VInt 8);
             ("depth_peeling",
              VDict [ ("number_of_peels", VInt 4); ("occlusion_ratio", VFloat f0_0);
                      ("enabled", VBool true) ]) ]).

Definition testing_theme (c : cls) : res instance :=
  from_dict c
    (VDict [ ("name", VStr "testing"); ("multi_samples", VInt 1);
             ("window_size", VList [VInt 400; VInt 400]);
             ("axes", VDict [("show", VBool false)]); ("return_cpos", VBool false) ]).

Definition vtk_theme (c : cls) : res instance := __init__ c.

(** The default styles of [_SliderStyleConfig]. *)
Definition _SliderStyleConfig_default_theme (c : cls) : res instance := __init__ c.

Definition _SliderStyleConfig_classic_theme (c : cls) : res instance :=
  from_dict c
    (VDict [ ("slider_length", VFloat f0_02); ("slider_width", VFloat f0_04);
             ("slider_color", VStr "gray"); ("tube_width", VFloat f0_005);
             ("tube_color", VStr "white"); ("cap_opacity", VInt 1);
             ("cap_length", VFloat f0_01); ("cap_width", VFloat f0_02) ]).

Definition _SliderStyleConfig_modern_theme (c : cls) : res instance :=
  from_dict c
    (VDict [ ("slider_length", VFloat f0_02); ("slider_width", VFloat f0_04);
             ("slider_color", VTuple [VInt 110; VInt 113; VInt 117]);
             ("tube_width", VFloat f0_04);
             ("tube_color", VTuple [VInt 178; VInt 179; VInt 181]);
             ("cap_opacity", VInt 0);
             ("cap_length", VFloat f0_01); ("cap_width", VFloat f0_02) ]).

(** The class methods without arguments that the body of the class [k]
    defines, by name. *)
Definition class_body_factory (k : cls) (method : string)
  : option (cls → res instance) :=
  match k with
  | Theme =>
      if String.eqb method "dark_theme" then Some dark_theme
      else if String.eqb method "paraview_theme" then Some paraview_theme
      else if String.eqb method "document_theme" then Some document_theme
      else if String.eqb method "document_pro_theme" then Some document_pro_theme
      else if String.eqb method "testing_theme" then Some testing_theme
      else if String.eqb method "vtk_theme" then Some vtk_theme
      else None
  | _SliderStyleConfig =>
      if String.eqb method "default_theme" then Some _SliderStyleConfig_default_theme
      else if String.eqb method "classic_theme" then Some _SliderStyleConfig_classic_theme
      else if String.eqb method "modern_theme" then Some _SliderStyleConfig_modern_theme
      else None
  | _ => None
  end.

(** [getattr(cls, method)] for a theme factory, looked up along the mro:
    in each class, first what [register_default] has set on it, then what
    its body defines. *)
Fixpoint find_factory (reg : registry) (classes : list cls) (method : string)
  : option (cls → res instance) :=
  match classes with
  | [] => None
  | k :: rest =>
      match registered_get k method (registered reg) with
      | Some dict_ => Some (λ c, from_dict c dict_)
      | None =>
          match class_body_factory k method with
          | Some theme => Some theme
          | None => find_factory reg rest method
          end
      end
  end.

(** [cls.from_default(name)]: [theme = getattr(cls, cls._defaults[name])] and
    [theme()], the class method being called on [cls]. *)
Definition from_default (reg : registry) (c : cls) (name : string) : res instance :=
  match assoc_get name (_defaults reg c) with
  | None => Raise (Exn KeyError name)
  | Some method =>
      match find_factory reg (mro c) method with
      | Some theme => theme c
      | None => Raise (Exn AttributeError method)
      end
  end.

(** [cls.defaults()] *)
Definition defaults (reg : registry) (c : cls) : list string := fst <$> _defaults reg c.

(** *** [load_theme] and [set_plot_theme] *)

(** The module function [load_theme(filename)] *)
Definition load_theme_file (filename : value) : res instance :=
  theme_dict ← read_json filename;
  from_dict Theme theme_dict.

(** [for attr_name in Theme.__slots__: setattr(self, attr_name, getattr(theme, attr_name))]:
    the target as the loop leaves it, and how the loop ended. *)
Fixpoint copy_slots (self theme : instance) (names : list string) : instance * res () :=
  match names with
  | [] => (self, Ok ())
  | attr_name :: rest =>
      match getattr theme attr_name with
      | Raise e => (self, Raise e)
      | Ok v =>
          match setattr self attr_name v with
          | Raise e => (self, Raise e)
          | Ok self' => copy_slots self' theme rest
          end
      end
  end.

Definition must_be_theme_msg : string :=
  "``theme`` must be a pyvista theme like ``pyvista.plotting.themes.Theme``.".

(** [Theme.load_theme(self, theme)]: the target afterwards, and the outcome. *)
Definition load_theme (self : instance) (theme : value) : instance * res () :=
  let loaded :=
    match theme with
    | VStr _ => t ← load_theme_file theme; Ok (VInstance t)
    | _ => Ok theme
    end in
  match loaded with
  | Raise e => (self, Raise e)
  | Ok (VConfig c slots) =>
      if isinstance (VConfig c slots) Theme
      then copy_slots self (Instance c slots) (own_slots Theme)
      else (self, Raise (Exn TypeError must_be_theme_msg))
  | Ok _ => (self, Raise (Exn TypeError must_be_theme_msg))
  end.

Definition not_found_msg (reg : registry) (theme : string) : string :=
  "Theme '" ++ theme ++ "' not found in PyVista's default themes: "
  ++ repr_names (defaults reg Theme).

(** [set_plot_theme(theme)]: the state afterwards, and the outcome. *)
Definition set_plot_theme (st : state) (theme : value) : state * res () :=
  let load (t : value) :=
    let '(g, r) := load_theme (global_theme st) t in (State g (theme_registry st), r) in
  match theme with
  | VStr name =>
      let theme := str_lower name in
      match from_default (theme_registry st) Theme theme with
      | Raise e =>
          if bool_decide (exn_cls e = KeyError)
          then (st, Raise (Exn ValueError (not_found_msg (theme_registry st) theme)))
          else (st, Raise e)
      | Ok new_theme_type => load (VInstance new_theme_type)
      end
  | _ =>
      if isinstance theme Theme then load theme
      else (st, Raise (Exn TypeError
                         ("Expected a ``pyvista.plotting.themes.Theme`` or ``str``, not "
                          ++ type_name theme)))
  end.

End ClassTable.
End Open.

(** *** The classes, with the recursion closed *)

Section Closed.
Context `{Env}.

(** [_CameraConfig.from_dict], as the [camera] setter calls it.  The model
    follows it one level: a camera dictionary that stores a whole [Theme] in
    a camera slot and then addresses that slot by its raw name, so that the
    [camera] setter is reached again inside, is outside the model. *)
Definition _CameraConfig_from_dict (dict_ : value) : res instance :=
  Open.from_dict (λ _, Raise (Exn OtherError "nested camera dictionary"))
    _CameraConfig dict_.

Definition properties := Open.properties _CameraConfig_from_dict.
Definition getattr := Open.getattr _CameraConfig_from_dict.
Definition setattr := Open.setattr _CameraConfig_from_dict.
Definition __init__ := Open.__init__ _CameraConfig_from_dict.
Definition to_dict := Open.to_dict.
Definition from_dict := Open.from_dict _CameraConfig_from_dict.
Definition from_dict_entry := Open.from_dict_entry _CameraConfig_from_dict.
Definition update_from_dict := Open.update_from_dict _CameraConfig_from_dict.
Definition from_default := Open.from_default _CameraConfig_from_dict.
Definition load_theme := Open.load_theme _CameraConfig_from_dict.
Definition set_plot_theme := Open.set_plot_theme _CameraConfig_from_dict.

End Closed.

(** *** A reference environment *)

Module Reference.

(** Modelled from the spec: [str.lower] on text in ASCII, where it replaces
    the letters [A] to [Z] and nothing else. *)
Definition ascii_lower (c : Ascii.ascii) : Ascii.ascii :=
  let n := Ascii.nat_of_ascii c in
  if (65 <=? n)%nat && (n <=? 90)%nat then Ascii.ascii_of_nat (n + 32) else c.

Fixpoint lower (s : string) : string :=
  match s with
  | EmptyString => EmptyString
  | String c rest => String (ascii_lower c) (lower rest)
  end.

(** Modelled from the spec: the colours the module names, as [Color] knows
    them (CSS names, and PyVista's own [paraview]). *)
Definition named_colors : list (string * (Z * Z * Z * Z)) :=
  [ ("black", (0, 0, 0, 255)); ("white", (255, 255, 255, 255));
    ("tomato", (255, 99, 71, 255)); ("seagreen", (46, 139, 87, 255));
    ("mediumblue", (0, 0, 205, 255)); ("blue", (0, 0, 255, 255));
    ("lightblue", (173, 216, 230, 255)); ("darkgray", (169, 169, 169, 255));
    ("grey", (128, 128, 128, 255)); ("gray", (128, 128, 128, 255));
    ("gold", (255, 215, 0, 255)); ("green", (0, 128, 0, 255));
    ("red", (255, 0, 0, 255)); ("paraview", (82, 87, 110, 255)) ].

(** A channel given as an integer in 0..255 or as a float in [0, 1], the
    latter rounded to the nearest of the 256 levels. *)
Definition channel (x : value) : option Z :=
  match x with
  | VInt z => if (0 <=? z) && (z <=? 255) then Some z else None
  | VFloat f =>
      if float_lt_int f 0 || float_gt_int f 1 || float_is_nan f then None
      else
        let ex := (f / 2 ^ 52) mod 2 ^ 11 in
        let m := if ex =? 0 then f mod 2 ^ 52 else 2 ^ 52 + f mod 2 ^ 52 in
        let den := 2 ^ (if ex =? 0 then 1074 else 1075 - ex) in
        Some ((2 * 255 * m + den) / (2 * den))
  | _ => None
  end.

(** Modelled from the spec: [Color(x)] for a name, a colour, a sequence of
    three or four channels, or a dictionary of channels. *)
Definition Color (x : value) : res (Z * Z * Z * Z) :=
  let invalid := Raise (Exn ValueError "Invalid color input") in
  let of_channels (l : list value) :=
    match channel <$> l with
    | [Some r; Some g; Some b] => Ok (r, g, b, 255)
    | [Some r; Some g; Some b; Some a] => Ok (r, g, b, a)
    | _ => invalid
    end in
  match x with
  | VStr name =>
      match assoc_get (lower name) named_colors with
      | Some c => Ok c
      | None => invalid
      end
  | VColor c => Ok c
  | VList l | VTuple l => of_channels l
  | VDict d =>
      match assoc_get "r" d, assoc_get "g" d, assoc_get "b" d, assoc_get "a" d with
      | Some r, Some g, Some b, Some a => of_channels [r; g; b; a]
      | Some r, Some g, Some b, None => of_channels [r; g; b]
      | _, _, _, _ => invalid
      end
  | _ => invalid
  end.

Definition rgba_eqb (c c' : Z * Z * Z * Z) : bool :=
  let '(r, g, b, a) := c in
  let '(r', g', b', a') := c' in
  (r =? r') && (g =? g') && (b =? b') && (a =? a').

(** [n / d] as a double, for [0 <= n <= d], rounded to nearest, ties to
    even. *)
Definition float_of_ratio (n d : Z) : Z :=
  if n =? 0 then 0
  else
    let k0 := 52 + Z.log2 d - Z.log2 n in
    let k := if n * 2 ^ k0 / d <? 2 ^ 52 then k0 + 1 else k0 in
    let q := n * 2 ^ k / d in
    let r := n * 2 ^ k mod d in
    let q1 := if (d <? 2 * r) || ((2 * r =? d) && Z.odd q) then q + 1 else q in
    if q1 =? 2 ^ 53 then (1076 - k) * 2 ^ 52
    else (1075 - k) * 2 ^ 52 + (q1 - 2 ^ 52).

Definition digit_of (c : Ascii.ascii) : option Z :=
  let n := Z.of_nat (Ascii.nat_of_ascii c) in
  if (48 <=? n) && (n <=? 57) then Some (n - 48) else None.

Fixpoint digits (acc : Z) (s : string) : option Z :=
  match s with
  | EmptyString => Some acc
  | String c rest => d ← digit_of c; digits (10 * acc + d) rest
  end.

(** [int(s)] for an optional minus sign and decimal digits. *)
Definition int_of_str (s : string) : res Z :=
  let invalid := Raise (Exn ValueError "invalid literal for int() with base 10") in
  match s with
  | EmptyString => invalid
  | String c rest =>
      if decide (c = Ascii.ascii_of_nat 45) then
        match rest, digits 0 rest with
        | String _ _, Some z => Ok (- z)
        | _, _ => invalid
        end
      else match digits 0 s with Some z => Ok z | None => invalid end
  end.

(** [v < lo or v > hi] for a number. *)
Definition out_of_range (v : value) (lo hi : Z) : option bool :=
  match v with
  | VBool b => Some ((Z.b2z b <? lo) || (hi <? Z.b2z b))
  | VInt z => Some ((z <? lo) || (hi <? z))
  | VFloat f => Some (float_lt_int f lo || float_gt_int f hi)
  | _ => None
  end.

Definition join_names (names : list string) : string :=
  foldr (λ n acc, "'" ++ n ++ "'"
                  ++ (if String.eqb acc EmptyString then acc else ", " ++ acc))
        EmptyString names.

(** Modelled from the spec: an environment with no variables set, a POSIX
    system, no theme or logo files, and the imported helpers on the values
    the module itself passes them.  Strings are not parsed as float
    literals. *)
#[local] Instance env : Env := {
  Themes.Color := Color;
  Color_to_dict :=
    Some (λ '(r, g, b, a),
            VDict [("r", VInt r); ("g", VInt g); ("b", VInt b); ("a", VInt a)]);
  Color_from_dict := Some (λ v, c ← Color v; Ok (VColor c));
  Color_eq := λ c x,
    match x with
    | VColor c' => rgba_eqb c c'
    | _ => match Color x with Ok c' => rgba_eqb c c' | Raise _ => false end
    end;
  Color_channels := λ '(r, g, b, a),
    [ NFloat (float_of_ratio r 255); NFloat (float_of_ratio g 255);
      NFloat (float_of_ratio b 255); NFloat (float_of_ratio a 255) ];
  get_cmap_safe := λ x,
    match x with
    | VStr name =>
        match assoc_get name [("viridis", 100%nat); ("coolwarm", 101%nat);
                              ("jet", 102%nat)] with
        | Some id => Ok (VObject id)
        | None => Ok VNone
        end
    | VObject id => Ok x
    | _ => Ok VNone
    end;
  get_cycler := λ x,
    match x with
    | VNone => Ok VNone
    | VStr name =>
        match assoc_get name [("default", 200%nat); ("matplotlib", 201%nat);
                              ("all", 202%nat)] with
        | Some id => Ok (VObject id)
        | None => Raise (Exn ValueError "color cycler not understood")
        end
    | VObject id => Ok x
    | _ => Raise (Exn TypeError "color cycler not understood")
    end;
  InterpolationType_from_any := λ x,
    match x with
    | VEnum m => Ok m
    | VInt z =>
        if (0 <=? z) && (z <=? 3) then Ok z
        else Raise (Exn ValueError "not a valid InterpolationType")
    | VStr name =>
        match assoc_get (lower name)
                [("flat", 0); ("gouraud", 1); ("phong", 2); ("pbr", 3);
                 ("physically based rendering", 3)] with
        | Some z => Ok z
        | None => Raise (Exn ValueError "not a valid InterpolationType")
        end
    | _ => Raise (Exn TypeError "not a valid InterpolationType")
    end;
  InterpolationType_FLAT := 0;
  read_json := λ _, Raise (Exn OtherError "FileNotFoundError");
  parse_font_family := λ x,
    match x with
    | VStr name =>
        if bool_decide (lower name ∈ ["courier"; "times"; "arial"]) then Ok ()
        else Raise (Exn ValueError "Font must be one of courier, times, arial")
    | _ => Raise (Exn AttributeError "lower")
    end;
  _check_range := λ v lo hi name,
    match out_of_range v lo hi with
    | Some false => Ok ()
    | Some true => Raise (Exn ValueError ("The value for `" ++ name
                                           ++ "` is outside the acceptable range"))
    | None => Raise (Exn TypeError "'<' not supported")
    end;
  _validate_jupyter_backend := λ x,
    match x with
    | VStr name =>
        if bool_decide (lower name ∈ ["static"; "client"; "server"; "trame";
                                           "html"; "none"])
        then Ok (VStr (lower name))
        else Raise (Exn ValueError "Invalid Jupyter notebook plotting backend")
    | _ => Raise (Exn TypeError "Invalid Jupyter notebook plotting backend")
    end;
  Themes.int_of_str := int_of_str;
  float_of_str := λ _, Raise (Exn ValueError "could not convert string to float");
  environ := λ _, None;
  os_name := "posix";
  os_path_join := λ a b, a ++ "/" ++ b;
  path_exists := λ _, Ok false;
  py_str := λ x, match x with VStr s => s | _ => "<object>" end;
  repr_names := λ names, "[" ++ join_names names ++ "]";
  type_name := λ x,
    match x with
    | VNone => "NoneType" | VBool _ => "bool" | VInt _ => "int" | VFloat _ => "float"
    | VStr _ => "str" | VList _ => "list" | VTuple _ => "tuple" | VDict _ => "dict"
    | VColor _ => "Color" | VConfig _ _ => "_ThemeConfig"
    | VEnum _ => "InterpolationType" | VObject _ => "object"
    end;
  type_str := λ x,
    "<class '"
    ++ match x with
       | VNone => "NoneType" | VBool _ => "bool" | VInt _ => "int" | VFloat _ => "float"
       | VStr _ => "str" | VList _ => "list" | VTuple _ => "tuple" | VDict _ => "dict"
       | VColor _ => "pyvista.plotting.colors.Color"
       | VConfig _ _ => "pyvista.plotting.themes._ThemeConfig"
       | VEnum _ => "pyvista.plotting.opts.InterpolationType" | VObject _ => "object"
       end
    ++ "'>";
  str_lower := lower;
}.

End Reference.

(** *** Properties *)

Lemma assoc_get_set_eq {A} (k : string) (v : A) (l : list (string * A)) :
  assoc_get k (assoc_set k v l) = Some v.
Proof.
  induction l as [|[k' v'] l IH]; simpl.
  - by rewrite decide_True.
  - destruct (decide (k' = k)) as [->|Hne]; simpl.
    + by rewrite decide_True.
    + by rewrite decide_False.
Qed.

Lemma assoc_get_set_ne {A} (k k' : string) (v : A) (l : list (string * A)) :
  k ≠ k' → assoc_get k' (assoc_set k v l) = assoc_get k' l.
Proof.
  intros Hne. induction l as [|[k0 v0] l IH]; simpl.
  - by rewrite decide_False.
  - destruct (decide (k0 = k)) as [->|Hk0]; simpl.
    + by rewrite !decide_False.
    + destruct (decide (k0 = k')); [done|apply IH].
Qed.

Lemma assoc_get_None {A} (k : string) (l : list (string * A)) :
  k ∉ l.*1 → assoc_get k l = None.
Proof.
  induction l as [|[k' v'] l IH]; simpl; [done|].
  intros Hnin. rewrite decide_False; [apply IH|]; set_solver.
Qed.

Lemma assoc_set_keys {A} (k : string) (v : A) (l : list (string * A)) (k' : string) :
  k' ∈ (assoc_set k v l).*1 ↔ k' = k ∨ k' ∈ l.*1.
Proof.
  induction l as [|[k0 v0] l IH]; simpl; [set_solver|].
  destruct (decide (k0 = k)) as [->|Hne]; simpl; [set_solver|].
  rewrite !elem_of_cons, IH. naive_solver.
Qed.

Lemma assoc_set_NoDup {A} (k : string) (v : A) (l : list (string * A)) :
  NoDup l.*1 → NoDup (assoc_set k v l).*1.
Proof.
  induction l as [|[k0 v0] l IH]; simpl; intros Hnd.
  - apply NoDup_singleton.
  - apply NoDup_cons in Hnd as [Hnin Hnd].
    destruct (decide (k0 = k)) as [->|Hne]; simpl.
    + by apply NoDup_cons.
    + apply NoDup_cons. split; [|by apply IH].
      rewrite assoc_set_keys. naive_solver.
Qed.

(** The classes whose instances [isinstance(x, Theme)] accepts. *)
Definition theme_class (c : cls) : Prop := Theme ∈ mro c.

(** Every slot of [names] holds a value. *)
Definition has_slots (names : list string) (slots : list (string * value)) : Prop :=
  ∀ s, s ∈ names → is_Some (assoc_get s slots).

(** What the round trip needs of one entry [key: d] of [t.to_dict()], where
    [inst0] is what the constructor returned: on any instance of the class
    whose slot [_key] still holds what the constructor put there, the round
    of the loop of [from_dict] for this entry succeeds, leaves in slot [_key]
    a value that [__eq__] finds equal to the one of [t], and changes no
    other slot. *)
Definition replays `{Env} (from_dict_entry : instance → string → value → res instance)
    (t inst0 : instance) (key : string) (d : value) : Prop :=
  ∀ inst, i_cls inst = i_cls inst0 →
    assoc_get ("_" ++ key) (i_slots inst) = assoc_get ("_" ++ key) (i_slots inst0) →
    ∃ inst' v' v,
      from_dict_entry inst key d = Ok inst'
      ∧ i_cls inst' = i_cls inst0
      ∧ assoc_get ("_" ++ key) (i_slots inst') = Some v'
      ∧ assoc_get ("_" ++ key) (i_slots t) = Some v
      ∧ attr_equal v' (compare v') v = Ok true
      ∧ ∀ s, s ≠ "_" ++ key → assoc_get s (i_slots inst') = assoc_get s (i_slots inst).

Section OpenProperties.
Context `{Env}.
Variable cam : value → res instance.

Lemma Theme_property_names :
  (Open.Theme_properties cam).*1
  = [ "hidden_line_removal"; "interpolate_before_map"; "opacity"; "edge_opacity";
      "above_range_color"; "below_range_color"; "return_cpos"; "background";
      "jupyter_backend"; "trame"; "auto_close"; "full_screen";
      "enable_camera_orientation_widget"; "camera"; "notebook"; "window_size";
      "image_scale"; "font"; "cmap"; "color"; "color_cycler"; "nan_color";
      "edge_color"; "line_width"; "point_size"; "outline_color"; "floor_color";
      "colorbar_orientation"; "colorbar_horizontal"; "colorbar_vertical";
      "show_scalar_bar"; "show_edges"; "show_vertices"; "lighting"; "interactive";
      "render_points_as_spheres"; "render_lines_as_tubes"; "transparent_background";
      "title"; "anti_aliasing"; "multi_samples"; "multi_rendering_splitting_position";
      "volume_mapper"; "smooth_shading"; "depth_peeling"; "silhouette"; "slider_style";
      "axes"; "before_close_callback"; "allow_empty_mesh"; "name"; "split_sharp_edges";
      "sharp_edges_feature_angle"; "lighting_params"; "logo_file" ].
Proof. reflexivity. Qed.

Lemma theme_class_tables (c : cls) :
  theme_class c →
  Open.properties cam c = Open.Theme_properties cam
  ∧ _all__slots__ c = own_slots Theme.
Proof.
  unfold theme_class. destruct c; simpl; intros Hc; try done;
    exfalso; revert Hc; by_evaluation_false.
Qed.

Lemma theme_slot_is_no_property (s : string) :
  s ∈ own_slots Theme → assoc_get s (Open.Theme_properties cam) = None.
Proof.
  intros Hs. apply assoc_get_None. rewrite Theme_property_names.
  revert s Hs. apply Forall_forall. by_evaluation.
Qed.

(** Reading and writing a slot of a theme by its raw name goes past the
    properties. *)
Lemma getattr_theme_slot (self : instance) (s : string) :
  theme_class (i_cls self) → s ∈ own_slots Theme →
  Open.getattr cam self s = rd s self.
Proof.
  intros Hc Hs. unfold Open.getattr.
  destruct (theme_class_tables _ Hc) as [-> ->].
  rewrite theme_slot_is_no_property by done. by rewrite bool_decide_true.
Qed.

Lemma setattr_theme_slot (self : instance) (s : string) (v : value) :
  theme_class (i_cls self) → s ∈ own_slots Theme →
  Open.setattr cam self s v = Ok (wr s v self).
Proof.
  intros Hc Hs. unfold Open.setattr.
  destruct (theme_class_tables _ Hc) as [-> ->].
  rewrite theme_slot_is_no_property by done. by rewrite bool_decide_true.
Qed.

Lemma copy_slots_ok (self theme : instance) (names : list string) :
  theme_class (i_cls self) → theme_class (i_cls theme) →
  names ⊆ own_slots Theme →
  has_slots names (i_slots theme) →
  ∃ self',
    Open.copy_slots cam self theme names = (self', Ok ())
    ∧ i_cls self' = i_cls self
    ∧ ∀ s, assoc_get s (i_slots self')
           = if decide (s ∈ names) then assoc_get s (i_slots theme)
             else assoc_get s (i_slots self).
Proof.
  intros Hself Htheme. revert self Hself.
  induction names as [|n names IH]; intros self Hself Hsub Hhas.
  - exists self. split; [done|]. split; [done|]. intros s.
    rewrite decide_False; [done|]. by intros ?%elem_of_nil.
  - assert (n ∈ own_slots Theme) as Hn by (apply Hsub; by left).
    destruct (Hhas n) as [v Hv]; [by left|].
    simpl. rewrite getattr_theme_slot by done. unfold rd. rewrite Hv.
    rewrite setattr_theme_slot by done.
    destruct (IH (wr n v self)) as (self' & -> & Hcls & Hslots);
      [done|intros x Hx; apply Hsub; by right|intros s Hs; apply Hhas; by right|].
    exists self'. split; [done|]. split; [done|]. intros s. rewrite Hslots.
    destruct (decide (s ∈ names)) as [Hin|Hnin].
    + rewrite decide_True; [done|by right].
    + simpl. destruct (decide (s = n)) as [->|Hne].
      * rewrite assoc_get_set_eq. rewrite decide_True; [done|by left].
      * rewrite assoc_get_set_ne by done. rewrite decide_False; [done|].
        by intros [?|?]%elem_of_cons.
Qed.

Lemma load_theme_instance (self : instance) (c : cls) (slots : list (string * value)) :
  theme_class (i_cls self) → theme_class c →
  has_slots (own_slots Theme) slots →
  ∃ self',
    Open.load_theme cam self (VConfig c slots) = (self', Ok ())
    ∧ i_cls self' = i_cls self
    ∧ ∀ s, s ∈ own_slots Theme →
        assoc_get s (i_slots self') = assoc_get s slots.
Proof.
  intros Hself Hc Hhas. unfold Open.load_theme, isinstance.
  rewrite bool_decide_true by done.
  destruct (copy_slots_ok self (Instance c slots) (own_slots Theme))
    as (self' & -> & Hcls & Hslots); [done..|].
  exists self'. split; [done|]. split; [done|].
  intros s Hs. rewrite Hslots. by rewrite decide_True.
Qed.

Lemma load_theme_not_a_theme (self : instance) (theme : value) :
  (∀ name, theme ≠ VStr name) → isinstance theme Theme = false →
  Open.load_theme cam self theme = (self, Raise (Exn TypeError Open.must_be_theme_msg)).
Proof.
  intros Hstr Hno. unfold Open.load_theme.
  destruct theme; try done.
  - by destruct (Hstr s).
  - by rewrite Hno.
Qed.

End OpenProperties.

(** *** Equality: the depth of the operands bounds the comparison *)

Section EqualityProperties.
Context `{Env}.
#[local] Open Scope nat_scope.

Definition items_depth (l : list value) : nat := foldr (λ x, Nat.max (depth x)) O l.

Definition entries_depth (l : list (string * value)) : nat :=
  foldr (λ kv, Nat.max (depth kv.2)) O l.

Lemma depth_VList (l : list value) : depth (VList l) = S (items_depth l).
Proof. simpl; f_equal; induction l as [|x l IH]; simpl; congruence. Qed.

Lemma depth_VTuple (l : list value) : depth (VTuple l) = S (items_depth l).
Proof. simpl; f_equal; induction l as [|x l IH]; simpl; congruence. Qed.

Lemma depth_VDict (d : list (string * value)) : depth (VDict d) = S (entries_depth d).
Proof. simpl; f_equal; induction d as [|[k x] d IH]; simpl; congruence. Qed.

Lemma depth_VConfig (c : cls) (d : list (string * value)) :
  depth (VConfig c d) = S (entries_depth d).
Proof. simpl; f_equal; induction d as [|[k x] d IH]; simpl; congruence. Qed.

Lemma items_depth_elem (l : list value) (x : value) : x ∈ l → depth x ≤ items_depth l.
Proof.
  induction l as [|y l IH]; [by intros ?%elem_of_nil|].
  intros [->|Hx]%elem_of_cons; simpl; [lia|]. specialize (IH Hx). lia.
Qed.

Lemma entries_depth_get (d : list (string * value)) (k : string) (v : value) :
  assoc_get k d = Some v → depth v ≤ entries_depth d.
Proof.
  induction d as [|[k' x] d IH]; [done|]. simpl.
  destruct (decide (k' = k)); [intros [= ->]; lia|]. intros Hv. specialize (IH Hv). lia.
Qed.

Lemma entries_depth_elem (d : list (string * value)) (k : string) (v : value) :
  (k, v) ∈ d → depth v ≤ entries_depth d.
Proof.
  induction d as [|[k' x] d IH]; [by intros ?%elem_of_nil|].
  intros [[= -> ->]|Hx]%elem_of_cons; simpl; [lia|]. specialize (IH Hx). lia.
Qed.

(** What [tuple(x)] yields is no deeper than [x], and less deep when [x] is
    a list or a tuple. *)
Lemma depth_py_tuple (v : value) (items : list value) (y : value) :
  py_tuple v = Ok items → y ∈ items → depth y ≤ depth v.
Proof.
  destruct v; try done; simpl py_tuple; intros [= <-] Hy.
  - apply list_elem_of_fmap in Hy as (c & -> & _). simpl. lia.
  - rewrite depth_VList. apply items_depth_elem in Hy. lia.
  - rewrite depth_VTuple. apply items_depth_elem in Hy. lia.
  - apply list_elem_of_fmap in Hy as (kv & -> & _). simpl. lia.
  - apply list_elem_of_fmap in Hy as (n & -> & _). destruct n; simpl; lia.
Qed.

Lemma seq_eq_ext (eq1 eq2 : value → value → res bool) (l l' : list value) :
  (∀ x y, x ∈ l → y ∈ l' → eq1 x y = eq2 x y) →
  seq_eq eq1 l l' = seq_eq eq2 l l'.
Proof.
  revert l'. induction l as [|x l IH]; intros [|y l'] Heq; simpl; try done.
  rewrite (Heq x y) by (by left). destruct (eq2 x y) as [[]|]; simpl; try done.
  apply IH. intros x' y' Hx' Hy'. apply Heq; by right.
Qed.

Lemma items_eq_ext (eq1 eq2 : value → value → res bool) (l l' : list value) :
  (∀ x y, x ∈ l → y ∈ l' → eq1 x y = eq2 x y) →
  items_eq eq1 l l' = items_eq eq2 l l'.
Proof. intros Heq. unfold items_eq. by rewrite (seq_eq_ext eq1 eq2). Qed.

Lemma dict_eq_ext (eq1 eq2 : value → value → res bool) (d d' : list (string * value)) :
  (∀ k v v', (k, v) ∈ d → assoc_get k d' = Some v' → eq1 v v' = eq2 v v') →
  dict_eq eq1 d d' = dict_eq eq2 d d'.
Proof.
  induction d as [|[k v] d IH]; intros Heq; simpl; [done|].
  destruct (assoc_get k d') as [v'|] eqn:Hv'; [|done].
  rewrite (Heq k v v') by (by left || done).
  destruct (eq2 v v') as [[]|]; simpl; try done.
  apply IH. intros k0 v0 v0' Hin. apply Heq. by right.
Qed.

Lemma attr_test_ext (eq1 eq2 : value → value → res bool) (attr other_attr : value) :
  eq1 attr other_attr = eq2 attr other_attr →
  (∀ x y items, py_tuple other_attr = Ok items → depth x < depth attr →
                y ∈ items → eq1 x y = eq2 x y) →
  attr_test eq1 attr other_attr = attr_test eq2 attr other_attr.
Proof.
  intros Htop Hitems. unfold attr_test. rewrite Htop.
  destruct attr; try done.
  - destruct (py_tuple other_attr) as [items'|] eqn:Ht; [|done]. simpl.
    rewrite (items_eq_ext eq1 eq2); [done|].
    intros x y Hx Hy. apply (Hitems x y items'); [done| |done].
    rewrite depth_VList. apply items_depth_elem in Hx. lia.
  - destruct (py_tuple other_attr) as [items'|] eqn:Ht; [|done]. simpl.
    rewrite (items_eq_ext eq1 eq2); [done|].
    intros x y Hx Hy. apply (Hitems x y items'); [done| |done].
    rewrite depth_VTuple. apply items_depth_elem in Hx. lia.
Qed.

Lemma slots_eq_ext (eq1 eq2 : value → value → res bool)
    (self_slots other_slots : list (string * value)) (names : list string) :
  (∀ n attr other_attr,
     assoc_get n self_slots = Some attr → assoc_get n other_slots = Some other_attr →
     attr_test eq1 attr other_attr = attr_test eq2 attr other_attr) →
  slots_eq eq1 self_slots other_slots names = slots_eq eq2 self_slots other_slots names.
Proof.
  intros Heq. induction names as [|n names IH]; simpl; [done|].
  destruct (assoc_get n self_slots) as [attr|] eqn:Ha; [|done].
  destruct (assoc_get n other_slots) as [other_attr|] eqn:Ho; [|done].
  rewrite (Heq n attr other_attr Ha Ho).
  destruct (attr_test eq2 attr other_attr) as [[]|]; simpl; try done.
Qed.

(** The test of the loop, for two comparisons that agree below the
    operands. *)
Lemma attr_test_below (eq1 eq2 : value → value → res bool) (attr other_attr : value) :
  (∀ x y, depth x + depth y ≤ depth attr + depth other_attr → eq1 x y = eq2 x y) →
  attr_test eq1 attr other_attr = attr_test eq2 attr other_attr.
Proof.
  intros Heq. apply attr_test_ext; [by apply Heq|].
  intros x y items Ht Hx Hy. apply Heq.
  pose proof (depth_py_tuple _ _ _ Ht Hy). lia.
Qed.

Lemma slots_eq_below (eq1 eq2 : value → value → res bool)
    (self_slots other_slots : list (string * value)) (names : list string) :
  (∀ x y, depth x + depth y ≤ entries_depth self_slots + entries_depth other_slots →
          eq1 x y = eq2 x y) →
  slots_eq eq1 self_slots other_slots names = slots_eq eq2 self_slots other_slots names.
Proof.
  intros Heq. apply slots_eq_ext. intros n attr other_attr Ha Ho.
  apply attr_test_below. intros x y Hxy. apply Heq.
  apply entries_depth_get in Ha, Ho. lia.
Qed.

(** More fuel than the depth of the operands changes nothing. *)
Lemma eq_fuel_enough (n m : nat) (a b : value) :
  depth a + depth b < n → depth a + depth b < m → eq_fuel n a b = eq_fuel m a b.
Proof.
  revert m a b. induction n as [|n IH]; intros [|m] a b Hn Hm; try lia.
  destruct a; try done; destruct b; try done; cbn [eq_fuel].
  - apply items_eq_ext. intros x y Hx Hy.
    rewrite !depth_VList in Hn, Hm.
    apply items_depth_elem in Hx, Hy. apply IH; lia.
  - apply items_eq_ext. intros x y Hx Hy.
    rewrite !depth_VTuple in Hn, Hm.
    apply items_depth_elem in Hx, Hy. apply IH; lia.
  - destruct (Nat.eqb _ _); [|done]. apply dict_eq_ext. intros k v v' Hv Hv'.
    rewrite !depth_VDict in Hn, Hm.
    apply entries_depth_elem in Hv. apply entries_depth_get in Hv'. apply IH; lia.
  - rewrite !depth_VConfig in Hn, Hm.
    destruct (proper_subclass _ _); apply slots_eq_below; intros x y Hxy; apply IH; lia.
Qed.

Lemma eq_fuel_py_eq (n : nat) (a b : value) :
  depth a + depth b < n → eq_fuel n a b = py_eq a b.
Proof. intros Hn. unfold py_eq. apply eq_fuel_enough; lia. Qed.

(** The loop of [__eq__] on the comparisons of the slot values. *)
Lemma assoc_get_slot_comparers (s : string) (slots : list (string * value)) :
  assoc_get s (slot_comparers slots) = (λ v, (v, compare v)) <$> assoc_get s slots.
Proof.
  induction slots as [|[n v] slots IH]; [done|]. simpl.
  by destruct (decide (n = s)).
Qed.

Lemma attr_test_compare (attr other_attr : value) :
  attr_test py_eq attr other_attr = attr_equal attr (compare attr) other_attr.
Proof. by destruct attr. Qed.

Lemma slots_eq_compare (slots slots' : list (string * value)) (names : list string) :
  slots_eq py_eq slots slots' names = eq_slots (slot_comparers slots) slots' names.
Proof.
  induction names as [|n names IH]; simpl; [done|].
  unfold eq_slot. rewrite assoc_get_slot_comparers.
  destruct (assoc_get n slots) as [attr|]; [|done]. simpl.
  destruct (assoc_get n slots') as [other_attr|]; [|done].
  rewrite attr_test_compare.
  destruct (attr_equal attr (compare attr) other_attr) as [[]|]; simpl; try done.
Qed.

(** [a == b] on two configurations is the method of one of them: of [b],
    with [a] for its argument, when the class of [b] is a proper subclass
    of the class of [a], and of [a] otherwise. *)
Lemma py_eq_config (a b : instance) :
  py_eq (VInstance a) (VInstance b)
  = if proper_subclass (i_cls b) (i_cls a) then __eq__ b (VInstance a)
    else __eq__ a (VInstance b).
Proof.
  unfold py_eq, VInstance, __eq__. cbn [eq_fuel]. rewrite !depth_VConfig.
  destruct (proper_subclass _ _); rewrite <- slots_eq_compare;
    apply slots_eq_below; intros x y Hxy; apply eq_fuel_py_eq; lia.
Qed.

End EqualityProperties.

(** The keys of the dictionary [to_dict] builds: no key twice, and every
    slot name without its first character. *)
Lemma to_dict_loop_keys (serialised : list (string * res value)) (names : list string)
    (acc dict_ : list (string * value)) :
  Open.to_dict_loop serialised names acc = Ok dict_ →
  NoDup acc.*1 →
  NoDup dict_.*1 ∧ ∀ k, k ∈ dict_.*1 ↔ k ∈ acc.*1 ∨ k ∈ Open.str_tail <$> names.
Proof.
  revert acc. induction names as [|n names IH]; simpl; intros acc Hloop Hnd.
  - injection Hloop as <-. split; [done|]. set_solver.
  - destruct (assoc_get n serialised) as [[v|e]|]; try done. simpl in Hloop.
    destruct (IH _ Hloop) as [Hnd' Hkeys]; [by apply assoc_set_NoDup|].
    split; [done|]. intros k. rewrite Hkeys, assoc_set_keys, elem_of_cons.
    naive_solver.
Qed.

Lemma slot_names_start_with_underscore (c : cls) (s : string) :
  s ∈ _all__slots__ c → s = "_" ++ Open.str_tail s.
Proof.
  revert s. apply Forall_forall. destruct c; by_evaluation.
Qed.

Lemma own_slots_all_slots (c : cls) : own_slots c ⊆ _all__slots__ c.
Proof.
  intros s Hs. unfold _all__slots__. destruct c; simpl; rewrite ?app_nil_r; set_solver.
Qed.

Section RoundTripProperties.
Context `{Env}.
Variable cam : value → res instance.

Lemma to_dict_keys (t : instance) (dict_ : list (string * value)) :
  Open.to_dict t = Ok (VDict dict_) →
  NoDup dict_.*1
  ∧ ∀ key, key ∈ dict_.*1 ↔ key ∈ Open.str_tail <$> _all__slots__ (i_cls t).
Proof.
  intros Hdict. unfold Open.to_dict, VInstance in Hdict. simpl in Hdict.
  match type of Hdict with
  | mbind _ ?m = _ => destruct m as [D|e] eqn:Hloop; [|done]
  end.
  injection Hdict as ->.
  destruct (to_dict_loop_keys _ _ _ _ Hloop) as [Hnd Hkeys]; [apply NoDup_nil_2|].
  split; [done|]. intros key. rewrite Hkeys. set_solver.
Qed.

(** [from_dict] is the constructor followed by one round per entry. *)
Lemma from_dict_entries_unfold (c : cls) (entries : list (string * value))
    (inst0 : instance) :
  Open.__init__ cam c = Ok inst0 →
  Open.from_dict cam c (VDict entries) = Open.from_dict_entries cam inst0 entries.
Proof.
  intros Hinit. simpl. rewrite Hinit. generalize inst0.
  induction entries as [|[k d] rest IH]; intros inst; [done|].
  simpl. unfold Open.from_dict_entry.
  destruct (Open.getattr cam inst k) as [attr|e]; [|done]. simpl.
  match goal with
  | |- context [mbind _ ?m] => destruct m as [v|e]; [|done]
  end. simpl.
  destruct (Open.setattr cam inst k v) as [inst'|e]; [|done]. simpl.
  apply IH.
Qed.

Lemma eq_slots_true (slots slots' : list (string * value)) (names : list string) :
  (∀ s, s ∈ names → ∃ v v',
     assoc_get s slots = Some v ∧ assoc_get s slots' = Some v'
     ∧ attr_equal v (compare v) v' = Ok true) →
  eq_slots (slot_comparers slots) slots' names = Ok true.
Proof.
  induction names as [|n names IH]; intros Hall; [done|].
  destruct (Hall n) as (v & v' & Hv & Hv' & Heq); [set_solver|].
  simpl. unfold eq_slot. rewrite assoc_get_slot_comparers, Hv. simpl.
  rewrite Hv', Heq. simpl. apply IH. intros s Hs. apply Hall. set_solver.
Qed.

(** The loop of [from_dict] over entries with distinct keys that replay:
    each slot named by an entry ends up equal to the one of [t], and the
    other slots are as they were. *)
Lemma from_dict_entries_replay (t inst0 : instance) (todo : list (string * value)) :
  ∀ inst,
  NoDup todo.*1 → i_cls inst = i_cls inst0 →
  (∀ k d, (k, d) ∈ todo → replays (Open.from_dict_entry cam) t inst0 k d) →
  (∀ k, k ∈ todo.*1 →
     assoc_get ("_" ++ k) (i_slots inst) = assoc_get ("_" ++ k) (i_slots inst0)) →
  ∃ t',
    Open.from_dict_entries cam inst todo = Ok t'
    ∧ i_cls t' = i_cls inst0
    ∧ (∀ k, k ∈ todo.*1 → ∃ v' v,
         assoc_get ("_" ++ k) (i_slots t') = Some v'
         ∧ assoc_get ("_" ++ k) (i_slots t) = Some v
         ∧ attr_equal v' (compare v') v = Ok true)
    ∧ (∀ s, (∀ k, k ∈ todo.*1 → s ≠ "_" ++ k) →
         assoc_get s (i_slots t') = assoc_get s (i_slots inst)).
Proof.
  induction todo as [|[k d] rest IH]; intros inst Hnd Hcls Hreplay Hfresh.
  - exists inst. split; [done|]. split; [done|]. split; [|done].
    intros k Hk. by apply elem_of_nil in Hk.
  - simpl in Hnd. apply NoDup_cons in Hnd as [Hk Hnd].
    destruct (Hreplay k d) with (inst := inst)
      as (inst1 & v' & v & Hstep & Hcls1 & Hv' & Hv & Heq & Hother);
      [set_solver|done|apply Hfresh; set_solver|].
    assert (∀ k', k' ∈ rest.*1 → "_" ++ k' ≠ "_" ++ k) as Hne.
    { intros k' Hk' Heq'. apply (inj (String.append "_")) in Heq' as ->. done. }
    destruct (IH inst1) as (t' & Hrun & Hcls' & Hdone & Hkept).
    + done.
    + done.
    + intros k' d' Hin. apply Hreplay. set_solver.
    + intros k' Hk'. rewrite Hother by by apply Hne. apply Hfresh. set_solver.
    + exists t'. split; [simpl; by rewrite Hstep|]. split; [done|]. split.
      * intros k' Hk'. simpl in Hk'. apply elem_of_cons in Hk' as [->|Hk'].
        -- exists v', v. rewrite Hkept; [done|].
           intros k' Hk' Heq'. by apply (Hne k' Hk').
        -- by apply Hdone.
      * intros s Hs. rewrite Hkept.
        -- apply Hother. apply Hs. set_solver.
        -- intros k' Hk'. apply Hs. set_solver.
Qed.

Lemma from_dict_to_dict_replay (t inst0 : instance) (dict_ : list (string * value)) :
  Open.__init__ cam (i_cls t) = Ok inst0 →
  Open.to_dict t = Ok (VDict dict_) →
  (∀ k d, (k, d) ∈ dict_ → replays (Open.from_dict_entry cam) t inst0 k d) →
  ∃ t', Open.from_dict cam (i_cls t) (VDict dict_) = Ok t'
        ∧ i_cls t' = i_cls inst0
        ∧ __eq__ t' (VInstance t) = Ok true.
Proof.
  intros Hinit Hdict Hreplay.
  destruct (to_dict_keys t dict_ Hdict) as [Hnd Hkeys].
  rewrite (from_dict_entries_unfold _ _ _ Hinit).
  destruct (from_dict_entries_replay t inst0 dict_ inst0)
    as (t' & Hrun & Hcls & Hdone & _); [done..|].
  exists t'. split; [done|]. split; [done|].
  unfold __eq__, VInstance.
  apply eq_slots_true. intros s Hs.
  apply own_slots_all_slots in Hs.
  destruct (Hdone (Open.str_tail s)) as (v' & v & Hv' & Hv & Heq).
  { apply Hkeys. by apply list_elem_of_fmap_2. }
  rewrite <- (slot_names_start_with_underscore _ _ Hs) in Hv', Hv.
  by exists v', v.
Qed.

(** A property that reads its slot and stores there what it is given,
    possibly converted, replays. *)
Lemma replays_slot_local (t inst0 : instance) (key : string) (d : value)
    (p : property) (v0 v' v : value) :
  assoc_get key (Open.properties cam (i_cls inst0)) = Some p →
  (∀ inst, fget p inst = rd ("_" ++ key) inst) →
  assoc_get ("_" ++ key) (i_slots inst0) = Some v0 →
  match v0 with VConfig _ _ | VColor _ => False | _ => True end →
  (∀ inst, fset p inst d = Ok (wr ("_" ++ key) v' inst)) →
  assoc_get ("_" ++ key) (i_slots t) = Some v →
  attr_equal v' (compare v') v = Ok true →
  replays (Open.from_dict_entry cam) t inst0 key d.
Proof.
  intros Hp Hget Hv0 Hplain Hset Hv Heq inst Hcls Hslot.
  exists (wr ("_" ++ key) v' inst), v', v.
  split; [|split; [done|split; [|split; [done|split; [done|]]]]].
  - unfold Open.from_dict_entry, Open.getattr, Open.setattr.
    rewrite Hcls, Hp, Hget. unfold rd. rewrite Hslot, Hv0. simpl.
    destruct v0; try done; simpl; apply Hset.
  - simpl. apply assoc_get_set_eq.
  - intros s Hs. simpl. by apply assoc_get_set_ne.
Qed.

End RoundTripProperties.

Section Theorems.
Context `{Env}.

(** C6.  [Theme.load_theme] with a theme as argument copies every slot of
    [Theme.__slots__] from the argument into the target, which afterwards
    holds, slot for slot, what the argument holds.  With an argument that is
    neither a string nor a theme, it raises [TypeError] and the target is
    as it was. *)
Theorem load_theme_copies_slots (self : instance) (theme : value) :
  (∀ c slots,
     theme = VConfig c slots → theme_class c → theme_class (i_cls self) →
     has_slots (own_slots Theme) slots →
     ∃ self',
       load_theme self theme = (self', Ok ())
       ∧ i_cls self' = i_cls self
       ∧ ∀ s, s ∈ own_slots Theme → assoc_get s (i_slots self') = assoc_get s slots)
  ∧ ((∀ name, theme ≠ VStr name) → isinstance theme Theme = false →
     load_theme self theme = (self, Raise (Exn TypeError Open.must_be_theme_msg))).
Proof.
  split.
  - intros c slots -> Hc Hself Hhas. by apply load_theme_instance.
  - apply load_theme_not_a_theme.
Qed.

(** X20.  The round trip through [to_dict] and [from_dict].  Let [t] be a
    configuration for which [to_dict]
    returns [dict_], and [inst0] what the constructor of its class returns.
    The keys of [dict_] are the slot names of the class, each without its
    leading underscore.  If every entry of [dict_] replays, that is, the
    round of the loop of [from_dict] for it, on an instance whose slot is as
    the constructor left it, succeeds, stores a value equal under the test
    of [__eq__] to the one [t] holds, and touches no other slot, then
    [from_dict] of the class of [t] on [dict_] returns a configuration which
    [__eq__] finds equal to [t]. *)
Theorem from_dict_to_dict_round_trip (t inst0 : instance)
    (dict_ : list (string * value)) :
  __init__ (i_cls t) = Ok inst0 →
  to_dict t = Ok (VDict dict_) →
  (∀ key d, (key, d) ∈ dict_ → replays from_dict_entry t inst0 key d) →
  (∀ key, key ∈ dict_.*1 ↔ key ∈ Open.str_tail <$> _all__slots__ (i_cls t))
  ∧ ∃ t', from_dict (i_cls t) (VDict dict_) = Ok t'
          ∧ __eq__ t' (VInstance t) = Ok true.
Proof.
  intros Hinit Hdict Hreplay. split.
  - apply (to_dict_keys t dict_ Hdict).
  - destruct (from_dict_to_dict_replay _CameraConfig_from_dict t inst0 dict_)
      as (t' & Hrun & _ & Heq); [done..|].
    by exists t'.
Qed.

End Theorems.

(** *** The theorems at work in the reference environment *)

(** The theme a constructor or factory returned. *)
Definition the (r : res instance) : instance :=
  match r with Ok t => t | Raise _ => Instance Theme [] end.

(** [Theme()], [Theme.dark_theme()] and the module state at import. *)
Definition default_theme : instance := the (@__init__ Reference.env Theme).
Definition dark : instance :=
  the (@from_default Reference.env initial_registry Theme "dark").
Definition state_at_import : state := State default_theme initial_registry.

Lemma has_slots_by_evaluation (names : list string) (slots : list (string * value)) :
  forallb (λ s, bool_decide (is_Some (assoc_get s slots))) names = true →
  has_slots names slots.
Proof.
  intros Hall s Hs. rewrite forallb_forall in Hall.
  apply list_elem_of_In in Hs. apply Hall in Hs. by apply bool_decide_eq_true in Hs.
Qed.

Lemma default_theme_complete : has_slots (own_slots Theme) (i_slots default_theme).
Proof. apply has_slots_by_evaluation. vm_compute. reflexivity. Qed.

Lemma dark_complete : has_slots (own_slots Theme) (i_slots dark).
Proof. apply has_slots_by_evaluation. vm_compute. reflexivity. Qed.

Lemma Theme_is_theme_class : theme_class Theme.
Proof. by_evaluation. Qed.

Lemma load_theme_copies_slots_witness :
  (∃ self',
     @load_theme Reference.env default_theme (VInstance dark) = (self', Ok ())
     ∧ i_cls self' = Theme
     ∧ ∀ s, s ∈ own_slots Theme →
         assoc_get s (i_slots self') = assoc_get s (i_slots dark))
  ∧ @load_theme Reference.env default_theme (VInt 3)
    = (default_theme, Raise (Exn TypeError Open.must_be_theme_msg)).
Proof.
  split.
  - destruct (@load_theme_copies_slots Reference.env default_theme (VInstance dark))
      as [T _].
    apply (T Theme (i_slots dark));
      [reflexivity|apply Theme_is_theme_class|apply Theme_is_theme_class
      |apply dark_complete].
  - destruct (@load_theme_copies_slots Reference.env default_theme (VInt 3))
      as [_ T].
    apply T; [discriminate|reflexivity].
Defined.

(** A [_DepthPeelingConfig] with every attribute set away from its default. *)
Definition peels : instance :=
  Instance _DepthPeelingConfig
    [ ("_number_of_peels", VInt 8); ("_occlusion_ratio", VFloat Open.f0_5);
      ("_enabled", VBool true) ].

Lemma from_dict_to_dict_round_trip_witness :
  (∀ key, key ∈ ["number_of_peels"; "occlusion_ratio"; "enabled"]
          ↔ key ∈ Open.str_tail <$> _all__slots__ _DepthPeelingConfig)
  ∧ ∃ t', @from_dict Reference.env _DepthPeelingConfig
            (VDict [ ("number_of_peels", VInt 8);
                     ("occlusion_ratio", VFloat Open.f0_5);
                     ("enabled", VBool true) ]) = Ok t'
          ∧ @__eq__ Reference.env t' (VInstance peels) = Ok true.
Proof.
  apply (@from_dict_to_dict_round_trip Reference.env peels
           (the (@__init__ Reference.env _DepthPeelingConfig))
           [ ("number_of_peels", VInt 8); ("occlusion_ratio", VFloat Open.f0_5);
             ("enabled", VBool true) ]).
  - reflexivity.
  - reflexivity.
  - intros key d Hin.
    repeat (apply elem_of_cons in Hin as [Hin|Hin]; [injection Hin as -> ->|]).
    + by apply (@replays_slot_local Reference.env _ _ _ _ _
                  (@as_int Reference.env "_number_of_peels")
                  (VInt 4) (VInt 8) (VInt 8)).
    + by apply (@replays_slot_local Reference.env _ _ _ _ _
                  (@as_float Reference.env "_occlusion_ratio")
                  (VFloat Open.f0_0) (VFloat Open.f0_5) (VFloat Open.f0_5)).
    + by apply (@replays_slot_local Reference.env _ _ _ _ _
                  (as_bool "_enabled")
                  (VBool false) (VBool true) (VBool true)).
    + by apply elem_of_nil in Hin.
Defined.


(** *** Equality against the deprecated theme classes *)

Section EqualityTheorems.
Context `{Env}.

(** X10.  [_ThemeConfig.__eq__] looks at the slots the class of its
    argument declares.  The deprecated subclasses of [Theme] declare none,
    so the method finds every configuration equal to every instance of such
    a class, whatever either of them holds.  With [==] Python calls the
    method of the right operand, with the left one for its argument, when
    the class of the right operand is a proper subclass of the class of the
    left one, and the method of the left operand otherwise: an instance of
    such a class on the right is equal to every configuration but a [Theme]
    (or a [DocumentTheme], for a [DocumentProTheme]), with which the
    comparison goes over the slots of the left operand's class.  A value
    that is no configuration equals none. *)
Theorem eq_is_vacuous_for_classes_without_slots (self other : instance) :
  (∀ c, own_slots c = []
        ↔ c ∈ [DarkTheme; ParaViewTheme; DocumentTheme; DocumentProTheme; _TestingTheme])
  ∧ (∀ c' c, proper_subclass c' c = true
             ↔ c' ≠ c ∧ (c = Theme ∧ own_slots c' = []
                         ∨ c = DocumentTheme ∧ c' = DocumentProTheme))
  ∧ (own_slots (i_cls other) = [] → __eq__ self (VInstance other) = Ok true)
  ∧ py_eq (VInstance self) (VInstance other)
    = (if proper_subclass (i_cls other) (i_cls self) then __eq__ other (VInstance self)
       else __eq__ self (VInstance other))
  ∧ (own_slots (i_cls other) = [] →
     proper_subclass (i_cls other) (i_cls self) = false →
     py_eq (VInstance self) (VInstance other) = Ok true)
  ∧ (∀ v, (∀ c slots, v ≠ VConfig c slots) →
       __eq__ self v = Ok false ∧ py_eq (VInstance self) v = Ok false).
Proof.
  assert (Hvac : own_slots (i_cls other) = [] → __eq__ self (VInstance other) = Ok true).
  { intros Hc. unfold __eq__, VInstance. by rewrite Hc. }
  split; [|split; [|split; [|split; [|split]]]].
  - intros c. split.
    + destruct c; simpl; intros Hc; try discriminate Hc; by_evaluation.
    + destruct c; intros Hc; try reflexivity; exfalso; revert Hc; by_evaluation_false.
  - intros c' c. destruct c', c; vm_compute; split; intros Hc; try discriminate Hc;
      try (destruct Hc as (? & [[? ?]|[? ?]]); congruence);
      (split; [discriminate|]); (left + right); by split.
  - exact Hvac.
  - apply py_eq_config.
  - intros Hc Hsub. rewrite py_eq_config, Hsub. by apply Hvac.
  - intros v Hv. split; [by destruct v; try done; destruct (Hv c slots)|].
    unfold py_eq, VInstance. cbn [eq_fuel].
    destruct v; try done. by destruct (Hv c slots).
Qed.

End EqualityTheorems.

(** *** Registered themes and the environment *)

Lemma assoc_get_Some_keys {A} (k : string) (l : list (string * A)) :
  k ∈ l.*1 → is_Some (assoc_get k l).
Proof.
  induction l as [|[k' v] l IH]; simpl; intros Hk.
  - by apply elem_of_nil in Hk.
  - destruct (decide (k' = k)); [done|]. apply IH.
    apply elem_of_cons in Hk as [->|Hk]; done.
Qed.

Lemma assoc_get_Some_elem {A} (k : string) (v : A) (l : list (string * A)) :
  assoc_get k l = Some v → (k, v) ∈ l.
Proof.
  induction l as [|[k' v'] l IH]; simpl; [done|].
  destruct (decide (k' = k)) as [->|]; [intros [= ->]; by left|].
  intros Hv. right. by apply IH.
Qed.

Lemma assoc_set_new {A} (k : string) (v : A) (l : list (string * A)) :
  k ∉ l.*1 → (assoc_set k v l).*1 = (l.*1 ++ [k])%list.
Proof.
  induction l as [|[k' v'] l IH]; simpl; intros Hk; [done|].
  destruct (decide (k' = k)) as [->|Hne]; [by destruct Hk; left|].
  simpl. f_equal. apply IH. intros Hin. apply Hk. by right.
Qed.

Lemma assoc_set_old {A} (k : string) (v : A) (l : list (string * A)) :
  k ∈ l.*1 → (assoc_set k v l).*1 = l.*1.
Proof.
  induction l as [|[k' v'] l IH]; simpl; intros Hk; [by apply elem_of_nil in Hk|].
  destruct (decide (k' = k)) as [->|Hne]; [done|].
  simpl. f_equal. apply IH. apply elem_of_cons in Hk as [->|Hk]; done.
Qed.

(** What [register_default] does to the class attributes. *)
Lemma registered_get_set_eq (c : cls) (name : string) (dict_ : value)
    (l : list (cls * string * value)) :
  registered_get c name (registered_set c name dict_ l) = Some dict_.
Proof.
  induction l as [|[[c' name'] d'] l IH]; simpl.
  - by rewrite decide_True.
  - destruct (decide (c' = c ∧ name' = name)); simpl.
    + by rewrite decide_True.
    + by rewrite decide_False.
Qed.

Lemma registered_get_set_ne (c k : cls) (name method : string) (dict_ : value)
    (l : list (cls * string * value)) :
  ¬ (k = c ∧ method = name) →
  registered_get k method (registered_set c name dict_ l) = registered_get k method l.
Proof.
  intros Hne. induction l as [|[[c' name'] d'] l IH]; simpl.
  - rewrite decide_False; [done|]. intros [-> ->]. by apply Hne.
  - destruct (decide (c' = c ∧ name' = name)) as [[-> ->]|]; simpl.
    + rewrite !decide_False; [done|..]; intros [-> ->]; by apply Hne.
    + destruct (decide (c' = k ∧ name' = method)); [done|]. apply IH.
Qed.

Lemma registered_register (reg : registry) (c : cls) (name : string) (dict_ : value) :
  registered (register_default reg c name dict_)
  = registered_set c name dict_ (registered reg).
Proof. unfold register_default. by destruct (defaults_owner c) as [[]|]. Qed.

Lemma _defaults_register (reg : registry) (c c' : cls) (name : string) (dict_ : value) :
  _defaults (register_default reg c name dict_) c'
  = if decide (defaults_owner c' = defaults_owner c)
    then assoc_set name name (_defaults reg c') else _defaults reg c'.
Proof. destruct c, c'; reflexivity. Qed.

(** A class finds the [_defaults] of the classes of its mro. *)
Lemma defaults_owner_mro (c c' : cls) :
  c ∈ mro c' → defaults_owner c' = defaults_owner c.
Proof.
  destruct c', c; try reflexivity; intros Hin; exfalso; revert Hin;
    by_evaluation_false.
Qed.

(** A name that collides with nothing is the name of no factory of a class
    body. *)
Lemma collision_free_no_factory `{Env} (cam : value → res instance) (k : cls)
    (name : string) :
  name ∉ public_names → Open.class_body_factory cam k name = None.
Proof.
  intros Hname. unfold Open.class_body_factory.
  destruct k; try done;
    repeat match goal with
           | |- context [String.eqb name ?s] =>
               destruct (String.eqb_spec name s) as [->|_];
               [exfalso; revert Hname; by_evaluation_false|]
           end; done.
Qed.

(** In a registry that calls with such names have made, a name of
    [_defaults] stands for a method of that name or for a factory of a
    class body. *)
Lemma registry_ok_methods (reg : registry) :
  registry_ok reg →
  ∀ c other method, assoc_get other (_defaults reg c) = Some method →
    method = other ∨ method ∈ public_names.
Proof.
  induction 1 as [|reg c name dict_ Hok IH Hname]; intros c' other method Hget.
  - right. apply assoc_get_Some_elem in Hget.
    assert (Hall : Forall (λ kv : string * string, kv.2 ∈ public_names)
                     (_defaults initial_registry c')).
    { destruct c'; apply Forall_forall; intros kv Hkv; revert kv Hkv;
        apply Forall_forall; by_evaluation. }
    rewrite Forall_forall in Hall. apply (Hall _ Hget).
  - rewrite _defaults_register in Hget.
    destruct (decide (defaults_owner c' = defaults_owner c)); [|by eapply IH].
    destruct (decide (other = name)) as [->|Hne].
    + rewrite assoc_get_set_eq in Hget. injection Hget as <-. by left.
    + rewrite assoc_get_set_ne in Hget by done. by eapply IH.
Qed.

Section Environment.
Context `{Env}.

(** [_set_plot_theme_from_env()]: the [ValueError] of [set_plot_theme] is
    turned into a warning, which the model does not keep. *)
Definition _set_plot_theme_from_env (st : state) : state * res () :=
  match environ "PYVISTA_PLOT_THEME" with
  | None => (st, Ok ())
  | Some theme =>
      match set_plot_theme st (VStr (str_lower theme)) with
      | (st', Raise e) =>
          if bool_decide (exn_cls e = ValueError) then (st', Ok ()) else (st', Raise e)
      | (st', Ok _) => (st', Ok ())
      end
  end.

Lemma find_factory_registered (reg : registry) (c : cls) (name : string)
    (dict_ : value) (before after : list cls) (k : cls) :
  name ∉ public_names →
  registered_get k name (registered reg) = Some dict_ →
  (∀ k', k' ∈ before → k' ≠ k → registered_get k' name (registered reg) = None) →
  ∃ theme, Open.find_factory _CameraConfig_from_dict reg (before ++ k :: after) name
           = Some theme
           ∧ theme c = from_dict c dict_.
Proof.
  intros Hname Hk. induction before as [|k0 before IH]; intros Hbefore.
  - simpl. rewrite Hk. by eexists.
  - simpl. destruct (decide (k0 = k)) as [->|Hne].
    + rewrite Hk. by eexists.
    + rewrite (Hbefore k0) by (by left || done).
      rewrite collision_free_no_factory by done. apply IH.
      intros k' Hk' Hne'. apply Hbefore; [by right|done].
Qed.

Lemma find_factory_unregistered (reg : registry) (name : string) (classes : list cls) :
  name ∉ public_names →
  (∀ k, k ∈ classes → registered_get k name (registered reg) = None) →
  Open.find_factory _CameraConfig_from_dict reg classes name = None.
Proof.
  intros Hname. induction classes as [|k0 classes IH]; intros Hnone; [done|].
  simpl. rewrite (Hnone k0) by by left.
  rewrite collision_free_no_factory by done. apply IH.
  intros k Hk. apply Hnone. by right.
Qed.

Lemma find_factory_other (reg : registry) (c : cls) (name method : string)
    (dict_ : value) (classes : list cls) :
  method ≠ name →
  Open.find_factory _CameraConfig_from_dict (register_default reg c name dict_)
    classes method
  = Open.find_factory _CameraConfig_from_dict reg classes method.
Proof.
  intros Hne. induction classes as [|k classes IH]; [done|].
  cbn [Open.find_factory]. rewrite registered_register.
  rewrite registered_get_set_ne by (intros [_ ?]; done).
  destruct (registered_get k method (registered reg)); [done|].
  destruct (Open.class_body_factory _ k method); [done|].
  apply IH.
Qed.

(** X11.  Registering a theme and asking for it.  Let [name] be a name that
    no attribute of the classes has.  After
    [c.register_default(name, dict_)], [c.from_default(name)] is
    [c.from_dict(dict_)], and so it is for a subclass of [c], with the
    subclass for [c], when no class before [c] in the mro of the subclass has
    a method registered under the name.  [defaults()] of [c], and of every class that
    shares [_defaults] with [c], lists the name, once, after the names that
    were there, or in its old place.  A class that shares [_defaults] with
    [c] without being a subclass of it lists the name as well, but has no
    such method: its [from_default(name)] raises [AttributeError], unless a
    class of its own mro has registered the name before.  Every other name
    gives, in every class, what it gave before. *)
Theorem register_default_then_from_default (reg : registry) (c : cls) (name : string)
    (dict_ : value) :
  let reg' := register_default reg c name dict_ in
  registry_ok reg → collision_free name →
  from_default reg' c name = from_dict c dict_
  ∧ (∀ c' before after, mro c' = (before ++ c :: after)%list →
       (∀ k, k ∈ before → registered_get k name (registered reg) = None) →
       from_default reg' c' name = from_dict c' dict_)
  ∧ (∀ c', defaults_owner c' = defaults_owner c →
       (name ∉ Open.defaults reg c' →
          Open.defaults reg' c' = (Open.defaults reg c' ++ [name])%list)
       ∧ (name ∈ Open.defaults reg c' → Open.defaults reg' c' = Open.defaults reg c'))
  ∧ (∀ c', defaults_owner c' = defaults_owner c → c ∉ mro c' →
       (∀ k, k ∈ mro c' → registered_get k name (registered reg) = None) →
       from_default reg' c' name = Raise (Exn AttributeError name))
  ∧ (∀ c' other, other ≠ name →
       from_default reg' c' other = from_default reg c' other).
Proof.
  cbv zeta. intros Hok [Hunder Hname].
  assert (Hsub : ∀ c' before after, mro c' = (before ++ c :: after)%list →
    (∀ k, k ∈ before → registered_get k name (registered reg) = None) →
    from_default (register_default reg c name dict_) c' name = from_dict c' dict_).
  { intros c' before after Hmro Hbefore.
    assert (Howner : defaults_owner c' = defaults_owner c).
    { apply defaults_owner_mro. rewrite Hmro. apply elem_of_app. right. by left. }
    unfold from_default, Open.from_default.
    rewrite _defaults_register, decide_True by done. rewrite assoc_get_set_eq, Hmro.
    destruct (find_factory_registered (register_default reg c name dict_) c' name dict_
                before after c) as (theme & -> & Htheme); [done| | |done].
    - rewrite registered_register. apply registered_get_set_eq.
    - intros k Hk Hne. rewrite registered_register.
      rewrite registered_get_set_ne by (intros [? _]; done). by apply Hbefore. }
  split; [|split; [|split; [|split]]].
  - apply (Hsub c [] (tail (mro c))); [by destruct c|].
    intros k Hk. by apply elem_of_nil in Hk.
  - exact Hsub.
  - intros c' Howner. unfold Open.defaults.
    rewrite _defaults_register, decide_True by done.
    split; [apply assoc_set_new|apply assoc_set_old].
  - intros c' Howner Hc Hnone. unfold from_default, Open.from_default.
    rewrite _defaults_register, decide_True by done. rewrite assoc_get_set_eq.
    rewrite find_factory_unregistered; [done|done|].
    intros k Hk. rewrite registered_register.
    rewrite registered_get_set_ne; [by apply Hnone|]. intros [-> _]. done.
  - intros c' other Hother. unfold from_default, Open.from_default.
    assert (assoc_get other (_defaults (register_default reg c name dict_) c')
            = assoc_get other (_defaults reg c')) as ->.
    { rewrite _defaults_register. destruct (decide _); [|done].
      by rewrite assoc_get_set_ne. }
    destruct (assoc_get other (_defaults reg c')) as [method|] eqn:Hget; [|done].
    rewrite find_factory_other; [done|].
    destruct (registry_ok_methods reg Hok c' other method Hget) as [->|Hpub]; [done|].
    intros ->. done.
Qed.

(** X12.  [set_plot_theme] lowers the name it is given, [register_default]
    does not: a theme registered with [Theme] under a name that
    [str.lower] changes, one with a capital letter say, is listed by
    [defaults()] but is not found by [set_plot_theme], which raises
    [ValueError] and changes nothing, unless the lowered name is registered
    as well. *)
Theorem set_plot_theme_misses_names_not_in_lower_case (st : state) (name : string)
    (dict_ : value) :
  let st' := State (global_theme st)
               (register_default (theme_registry st) Theme name dict_) in
  registry_ok (theme_registry st) → collision_free name →
  str_lower name ≠ name →
  str_lower name ∉ Open.defaults (theme_registry st) Theme →
  name ∈ Open.defaults (theme_registry st') Theme
  ∧ set_plot_theme st' (VStr name)
    = (st', Raise (Exn ValueError
                     (Open.not_found_msg (theme_registry st') (str_lower name)))).
Proof.
  cbv zeta. intros _ _ Hlower Hnot. split.
  - unfold Open.defaults. cbn [theme_registry].
    rewrite _defaults_register, decide_True by done. apply assoc_set_keys. by left.
  - unfold set_plot_theme, Open.set_plot_theme, Open.from_default. cbn [theme_registry].
    rewrite _defaults_register, decide_True by done.
    rewrite assoc_get_set_ne by done.
    rewrite assoc_get_None by done. done.
Qed.

(** X13.  [_set_plot_theme_from_env] never raises [ValueError].  Without
    [PYVISTA_PLOT_THEME] in the environment it returns and the state is as
    it was; and so it does with a value there that, lowered by
    [_set_plot_theme_from_env] and again by [set_plot_theme], names no
    default theme. *)
Theorem set_plot_theme_from_env_swallows_ValueError (st : state) :
  registry_ok (theme_registry st) →
  (∀ st' e, _set_plot_theme_from_env st = (st', Raise e) → exn_cls e ≠ ValueError)
  ∧ (environ "PYVISTA_PLOT_THEME" = None → _set_plot_theme_from_env st = (st, Ok ()))
  ∧ (∀ theme, environ "PYVISTA_PLOT_THEME" = Some theme →
       str_lower (str_lower theme) ∉ Open.defaults (theme_registry st) Theme →
       _set_plot_theme_from_env st = (st, Ok ())).
Proof.
  intros _. unfold _set_plot_theme_from_env. split; [|split].
  - intros st' e. destruct (environ "PYVISTA_PLOT_THEME") as [theme|]; [|done].
    destruct (set_plot_theme st (VStr (str_lower theme))) as [st1 [[]|e1]]; [done|].
    destruct (bool_decide (exn_cls e1 = ValueError)) eqn:He; [done|].
    intros [= <- <-]. by apply bool_decide_eq_false in He.
  - by intros ->.
  - intros theme -> Hnot.
    unfold set_plot_theme, Open.set_plot_theme, Open.from_default.
    rewrite assoc_get_None by done. done.
Qed.

End Environment.

(** *** The trame configuration *)

(** The jupyter extension is enabled only if it is available and the server
    proxy is not enabled. *)
Definition trame_consistent (t : instance) : Prop :=
  i_cls t = _TrameConfig
  ∧ ∃ proxy available enabled : bool,
      assoc_get "_server_proxy_enabled" (i_slots t) = Some (VBool proxy)
      ∧ assoc_get "_jupyter_extension_available" (i_slots t) = Some (VBool available)
      ∧ assoc_get "_jupyter_extension_enabled" (i_slots t) = Some (VBool enabled)
      ∧ (enabled = true → available = true ∧ proxy = false).

Definition trame_flag_slots : list string :=
  ["_server_proxy_enabled"; "_jupyter_extension_available"; "_jupyter_extension_enabled"].

Lemma trame_consistent_wr_other (t : instance) (slot : string) (v : value) :
  slot ∉ trame_flag_slots → trame_consistent t → trame_consistent (wr slot v t).
Proof.
  intros Hslot (Hcls & p & a & e & Hp & Ha & He & Hinv).
  split; [done|]. exists p, a, e. simpl.
  rewrite !assoc_get_set_ne; [done| | |];
    intros ->; apply Hslot; unfold trame_flag_slots; set_solver.
Qed.

Section TrameTheorems.
Context `{Env}.
Variable cam : value → res instance.

Lemma TrameConfig_init_consistent :
  ∃ t, Open._TrameConfig_init = Ok t ∧ trame_consistent t.
Proof.
  unfold Open._TrameConfig_init, Open.env_has, Open.env_get.
  destruct (environ "PYVISTA_TRAME_SERVER_PROXY_PREFIX") as [prefix|];
    destruct (environ "JUPYTERHUB_SERVICE_PREFIX") as [service|];
    destruct (environ "TRAME_JUPYTER_WWW") as [www|];
    destruct (environ "PYVISTA_TRAME_JUPYTER_MODE") as [mode|];
    repeat match goal with
           | |- context [bool_decide ?P] => destruct (bool_decide P)
           | |- context [String.eqb ?a ?b] => destruct (String.eqb a b)
           | |- context [str_startswith ?a ?b] => destruct (str_startswith a b)
           end;
    simpl; (eexists; split; [reflexivity|]);
    (split; [reflexivity|]); do 3 eexists;
    (split; [reflexivity|]); (split; [reflexivity|]); (split; [reflexivity|]);
    intros Hen; try discriminate Hen; done.
Qed.

Lemma trame_setattr_consistent (t t' : instance) (key : string) (v : value) :
  trame_consistent t →
  key ∈ (Open._TrameConfig_properties).*1 →
  Open.setattr cam t key v = Ok t' →
  trame_consistent t'.
Proof.
  intros Hcons Hkey. pose proof Hcons as (Hcls & p & a & e & Hp & Ha & He & Hinv).
  unfold Open.setattr. rewrite Hcls. simpl.
  repeat (apply elem_of_cons in Hkey as [->|Hkey]); [..|by apply elem_of_nil in Hkey];
    simpl.
  - intros [= <-]. apply trame_consistent_wr_other; [by_evaluation|done].
  - intros [= <-]. apply trame_consistent_wr_other; [by_evaluation|done].
  - intros [= <-]. apply trame_consistent_wr_other; [by_evaluation|done].
  - intros [= <-]. apply trame_consistent_wr_other; [by_evaluation|done].
  - unfold truthy, rd. rewrite He. simpl.
    destruct (py_bool v); simpl; intros [= <-].
    + split; [by destruct e|]. exists true, a, false.
      destruct e; simpl; rewrite ?assoc_get_set_eq, ?assoc_get_set_ne by done;
        rewrite ?assoc_get_set_eq, ?assoc_get_set_ne by done; done.
    + split; [done|]. exists false, a, e. simpl.
      rewrite ?assoc_get_set_eq, ?assoc_get_set_ne by done.
      split; [done|]. split; [done|]. split; [done|].
      intros He'. by destruct (Hinv He').
  - intros [= <-]. apply trame_consistent_wr_other; [by_evaluation|done].
  - by intros [= <-].
  - unfold truthy, rd. destruct (py_bool v); simpl.
    + rewrite Ha. simpl. destruct a; simpl; [|done].
      rewrite Hp. simpl. intros [= <-].
      split; [by destruct p|]. exists false, true, true.
      destruct p; simpl; rewrite ?assoc_get_set_eq, ?assoc_get_set_ne by done;
        rewrite ?assoc_get_set_eq, ?assoc_get_set_ne by done; done.
    + intros [= <-]. split; [done|]. exists p, a, false. simpl.
      rewrite ?assoc_get_set_eq, ?assoc_get_set_ne by done. done.
  - intros [= <-]. apply trame_consistent_wr_other; [by_evaluation|done].
Qed.

Lemma trame_assign_all_consistent (kvs : list (string * value)) :
  ∀ t t', trame_consistent t →
    Forall (λ kv, kv.1 ∈ (Open._TrameConfig_properties).*1) kvs →
    Open.assign_all cam t kvs = Ok t' →
    trame_consistent t'.
Proof.
  induction kvs as [|[k v] kvs IH]; intros t t' Hcons Hkeys; simpl.
  - by intros [= <-].
  - apply Forall_cons in Hkeys as [Hk Hkeys].
    destruct (Open.setattr cam t k v) as [t1|e] eqn:Hset; [|done]. simpl.
    apply IH; [|done]. by eapply trame_setattr_consistent.
Qed.

End TrameTheorems.

Section TrameInvariant.
Context `{Env}.

(** X14.  In a [_TrameConfig], the jupyter extension is never enabled
    together with the server proxy, nor without being available: this holds
    for the instance the constructor makes, in every environment, and
    after any assignments made to it through its properties. *)
Theorem trame_extension_excludes_proxy (kvs : list (string * value)) (t : instance) :
  Forall (λ kv, kv.1 ∈ (properties _TrameConfig).*1) kvs →
  (t0 ← __init__ _TrameConfig; Open.assign_all _CameraConfig_from_dict t0 kvs) = Ok t →
  trame_consistent t.
Proof.
  intros Hkeys. unfold __init__, Open.__init__.
  destruct TrameConfig_init_consistent as (t0 & -> & Hcons). simpl.
  by apply trame_assign_all_consistent.
Qed.

End TrameInvariant.

(** *** Validation in the setters of [Theme] *)

Section ThemeProperties.
Context `{Env}.
Variable cam : value → res instance.

Lemma setattr_theme_property (self : instance) (name : string) (p : property)
    (v : value) :
  theme_class (i_cls self) →
  assoc_get name (Open.Theme_properties cam) = Some p →
  Open.setattr cam self name v = fset p self v.
Proof.
  intros Hc Hp. unfold Open.setattr.
  destruct (theme_class_tables cam _ Hc) as [-> _]. by rewrite Hp.
Qed.

Lemma getattr_theme_property (self : instance) (name : string) (p : property) :
  theme_class (i_cls self) →
  assoc_get name (Open.Theme_properties cam) = Some p →
  Open.getattr cam self name = fget p self.
Proof.
  intros Hc Hp. unfold Open.getattr.
  destruct (theme_class_tables cam _ Hc) as [-> _]. by rewrite Hp.
Qed.

Lemma rd_wr (slot : string) (v : value) (self : instance) :
  rd slot (wr slot v self) = Ok v.
Proof. unfold rd. simpl. by rewrite assoc_get_set_eq. Qed.

(** The classes of the nested configurations have no subclasses. *)
Lemma isinstance_exact (c c' : cls) (slots : list (string * value)) :
  c ∉ [Theme; DarkTheme; ParaViewTheme; DocumentTheme; DocumentProTheme; _TestingTheme] →
  isinstance (VConfig c' slots) c = bool_decide (c' = c).
Proof.
  intros Hc. unfold isinstance.
  destruct c; try (exfalso; apply Hc; by_evaluation);
    destruct c'; vm_compute; reflexivity.
Qed.

Lemma of_class_accepts_instances_only (c : cls) (msg slot : string) (self : instance) :
  c ∉ [Theme; DarkTheme; ParaViewTheme; DocumentTheme; DocumentProTheme; _TestingTheme] →
  (∀ slots, fset (of_class c msg slot) self (VConfig c slots)
            = Ok (wr slot (VConfig c slots) self))
  ∧ (∀ v, (∀ slots, v ≠ VConfig c slots) →
       fset (of_class c msg slot) self v = Raise (Exn TypeError msg)).
Proof.
  intros Hc. split.
  - intros slots. unfold of_class. cbn [fset]. rewrite isinstance_exact by done.
    by rewrite bool_decide_true.
  - intros v Hv. unfold of_class. cbn [fset].
    destruct v as [| | | | | | | | |c' slots'| |]; try done.
    rewrite isinstance_exact by done.
    rewrite bool_decide_false; [done|]. intros ->. by destruct (Hv slots').
Qed.

End ThemeProperties.

Section SetterTheorems.
Context `{Env}.

(** X15.  [window_size] takes a sequence of exactly two items, neither of
    them negative: zero is accepted, although the message speaks of a
    positive value.  What is stored, and read back, is the sequence that
    was given. *)
Theorem window_size_accepts_two_items_not_negative (self : instance) :
  theme_class (i_cls self) →
  (∀ w h, 0 ≤ w → 0 ≤ h →
     ∃ self', setattr self "window_size" (VList [VInt w; VInt h]) = Ok self'
              ∧ getattr self' "window_size" = Ok (VList [VInt w; VInt h]))
  ∧ (∀ w h, w < 0 ∨ h < 0 →
       setattr self "window_size" (VList [VInt w; VInt h])
       = Raise (Exn ValueError "Window size must be a positive value."))
  ∧ (∀ items, length items ≠ 2%nat →
       setattr self "window_size" (VList items)
       = Raise (Exn ValueError "Expected a length 2 iterable for ``window_size``.")).
Proof.
  intros Hc. split; [|split].
  - intros w h Hw Hh. exists (wr "_window_size" (VList [VInt w; VInt h]) self). split.
    + unfold setattr. erewrite setattr_theme_property; [|done|reflexivity]. simpl.
      destruct (w <? 0) eqn:Ew; [apply Z.ltb_lt in Ew; lia|]. simpl.
      destruct (h <? 0) eqn:Eh; [apply Z.ltb_lt in Eh; lia|]. done.
    + unfold getattr. erewrite getattr_theme_property; [|done|reflexivity].
      simpl. apply rd_wr.
  - intros w h Hneg. unfold setattr.
    erewrite setattr_theme_property; [|done|reflexivity]. simpl.
    destruct (w <? 0) eqn:Ew; [done|]. simpl.
    destruct (h <? 0) eqn:Eh; [done|].
    apply Z.ltb_ge in Ew, Eh. lia.
  - intros items Hlen. unfold setattr.
    erewrite setattr_theme_property; [|done|reflexivity]. simpl.
    destruct (Nat.eqb (length items) 2) eqn:E; [apply Nat.eqb_eq in E; done|done].
Qed.

(** X16.  [image_scale] stores [int(value)], not the value: a float is cut
    down to its integer part first, and the result is refused with
    [ValueError] when it is below 1. *)
Theorem image_scale_stores_the_integer (self : instance) (value : value) (z : Z) :
  theme_class (i_cls self) →
  py_int value = Ok z →
  (1 ≤ z →
     ∃ self', setattr self "image_scale" value = Ok self'
              ∧ getattr self' "image_scale" = Ok (VInt z))
  ∧ (z < 1 →
       setattr self "image_scale" value
       = Raise (Exn ValueError "Scale factor must be a positive integer.")).
Proof.
  intros Hc Hz. split.
  - intros Hpos. exists (wr "_image_scale" (VInt z) self). split.
    + unfold setattr. erewrite setattr_theme_property; [|done|reflexivity]. simpl.
      rewrite Hz. simpl.
      destruct (z <? 1) eqn:E; [apply Z.ltb_lt in E; lia|done].
    + unfold getattr. erewrite getattr_theme_property; [|done|reflexivity].
      simpl. apply rd_wr.
  - intros Hneg. unfold setattr.
    erewrite setattr_theme_property; [|done|reflexivity]. simpl.
    rewrite Hz. simpl.
    destruct (z <? 1) eqn:E; [done|apply Z.ltb_ge in E; lia].
Qed.

(** X17.  [anti_aliasing] accepts the three names and [None], and tells a
    string it does not know, refused with [ValueError], from a value of
    another type, refused with [TypeError]; the messages name the accepted
    strings between double quotes. *)
Theorem anti_aliasing_names_or_None (self : instance) :
  theme_class (i_cls self) →
  (∀ a, a ∈ ["ssaa"; "msaa"; "fxaa"] →
     setattr self "anti_aliasing" (VStr a) = Ok (wr "_anti_aliasing" (VStr a) self))
  ∧ setattr self "anti_aliasing" VNone = Ok (wr "_anti_aliasing" VNone self)
  ∧ (∀ a, a ∉ ["ssaa"; "msaa"; "fxaa"] →
       setattr self "anti_aliasing" (VStr a)
       = Raise (Exn ValueError
                  ("anti_aliasing must be either " ++ quoted "ssaa" ++ ", "
                   ++ quoted "msaa" ++ ", or " ++ quoted "fxaa")))
  ∧ (∀ v, v ≠ VNone → (∀ a, v ≠ VStr a) →
       setattr self "anti_aliasing" v
       = Raise (Exn TypeError
                  ("anti_aliasing must be either " ++ quoted "ssaa" ++ ", "
                   ++ quoted "msaa" ++ ", " ++ quoted "fxaa" ++ ", or None")))
  ∧ quoted "ssaa"
    = String (Ascii.ascii_of_nat 34) ("ssaa" ++ String (Ascii.ascii_of_nat 34) EmptyString).
Proof.
  intros Hc. unfold setattr. split; [|split; [|split; [|split]]].
  - intros a Ha. erewrite setattr_theme_property; [|done|reflexivity]. simpl.
    by rewrite bool_decide_true.
  - erewrite setattr_theme_property; [|done|reflexivity]. done.
  - intros a Ha. erewrite setattr_theme_property; [|done|reflexivity]. simpl.
    by rewrite bool_decide_false.
  - intros v Hnone Hstr. erewrite setattr_theme_property; [|done|reflexivity].
    simpl. destruct v; try done. by destruct (Hstr s).
  - reflexivity.
Qed.

(** The properties of [Theme] that hold a configuration, with its class. *)
Definition nested_configurations : list (string * cls) :=
  [ ("trame", _TrameConfig); ("font", _Font);
    ("colorbar_horizontal", _ColorbarConfig); ("colorbar_vertical", _ColorbarConfig);
    ("depth_peeling", _DepthPeelingConfig); ("silhouette", _SilhouetteConfig);
    ("slider_style", _SliderStyleConfig); ("axes", _AxesConfig);
    ("lighting_params", _LightingConfig) ].

Lemma nested_configuration_property `{Env} (cam : value → res instance)
    (name : string) (c : cls) :
  (name, c) ∈ nested_configurations →
  (c ∉ [Theme; DarkTheme; ParaViewTheme; DocumentTheme; DocumentProTheme;
        _TestingTheme])
  ∧ ∃ msg, assoc_get name (Open.Theme_properties cam)
           = Some (of_class c msg ("_" ++ name)).
Proof.
  intros Hin. unfold nested_configurations in Hin.
  repeat (apply elem_of_cons in Hin as [[= -> ->]|Hin]);
    [..|by apply elem_of_nil in Hin];
    (split; [by_evaluation_false|eexists; reflexivity]).
Qed.

(** X18.  The properties of a theme that hold a nested configuration accept
    an instance of the configuration's class and nothing else: the instance
    is stored as it is and read back, and any other value, a dictionary
    included, is refused with [TypeError]. *)
Theorem nested_configurations_are_type_checked (self : instance) (name : string)
    (c : cls) :
  theme_class (i_cls self) →
  (name, c) ∈ nested_configurations →
  (∀ slots,
     ∃ self', setattr self name (VConfig c slots) = Ok self'
              ∧ i_cls self' = i_cls self
              ∧ getattr self' name = Ok (VConfig c slots))
  ∧ (∀ v, (∀ slots, v ≠ VConfig c slots) →
       ∃ msg, setattr self name v = Raise (Exn TypeError msg)).
Proof.
  intros Hc Hin.
  destruct (nested_configuration_property _CameraConfig_from_dict name c Hin)
    as (Hexact & msg & Hp).
  destruct (of_class_accepts_instances_only c msg ("_" ++ name) self Hexact)
    as [Hyes Hno].
  unfold setattr, getattr. split.
  - intros slots. exists (wr ("_" ++ name) (VConfig c slots) self).
    rewrite (setattr_theme_property _ _ _ _ _ Hc Hp).
    split; [apply Hyes|]. split; [done|].
    rewrite (getattr_theme_property _ (wr ("_" ++ name) (VConfig c slots) self)
               _ _ Hc Hp).
    apply rd_wr.
  - intros v Hv. exists msg.
    rewrite (setattr_theme_property _ _ _ _ _ Hc Hp). by apply Hno.
Qed.

(** X19.  A [_ColorbarConfig] goes through [to_dict] and [from_dict] only
    when all four of its entries are set: with floats everywhere the
    round trip gives the same slots back, and with [None] anywhere, as in
    the instance the constructor makes, [from_dict] raises [TypeError]. *)
Theorem colorbar_round_trip_needs_every_entry (width height position_x position_y : option Z) :
  let entry (x : option Z) := match x with Some f => VFloat f | None => VNone end in
  let slots := [ ("_width", entry width); ("_height", entry height);
                 ("_position_x", entry position_x); ("_position_y", entry position_y) ] in
  let dict_ := VDict [ ("width", entry width); ("height", entry height);
                       ("position_x", entry position_x);
                       ("position_y", entry position_y) ] in
  to_dict (Instance _ColorbarConfig slots) = Ok dict_
  ∧ from_dict _ColorbarConfig dict_
    = match width, height, position_x, position_y with
      | Some _, Some _, Some _, Some _ => Ok (Instance _ColorbarConfig slots)
      | _, _, _, _ =>
          Raise (Exn TypeError "float() argument must be a string or a real number")
      end.
Proof.
  cbv zeta. split.
  - by destruct width, height, position_x, position_y.
  - by destruct width, height, position_x, position_y.
Qed.

End SetterTheorems.

(** *** The further properties at work *)

(** The reference environment with one variable set. *)
Definition env_with (variable text : string) : Env := {|
  Color := @Color Reference.env;
  Color_to_dict := @Color_to_dict Reference.env;
  Color_from_dict := @Color_from_dict Reference.env;
  Color_eq := @Color_eq Reference.env;
  Color_channels := @Color_channels Reference.env;
  get_cmap_safe := @get_cmap_safe Reference.env;
  get_cycler := @get_cycler Reference.env;
  InterpolationType_from_any := @InterpolationType_from_any Reference.env;
  InterpolationType_FLAT := @InterpolationType_FLAT Reference.env;
  read_json := @read_json Reference.env;
  parse_font_family := @parse_font_family Reference.env;
  _check_range := @_check_range Reference.env;
  _validate_jupyter_backend := @_validate_jupyter_backend Reference.env;
  int_of_str := @int_of_str Reference.env;
  float_of_str := @float_of_str Reference.env;
  environ := λ name, if String.eqb name variable then Some text else None;
  os_name := @os_name Reference.env;
  os_path_join := @os_path_join Reference.env;
  path_exists := @path_exists Reference.env;
  py_str := @py_str Reference.env;
  repr_names := @repr_names Reference.env;
  type_name := @type_name Reference.env;
  type_str := @type_str Reference.env;
  str_lower := @str_lower Reference.env;
|}.

(** [DarkTheme()] *)
Definition deprecated_dark : instance := the (@__init__ Reference.env DarkTheme).

(** [ParaViewTheme()] *)
Definition deprecated_paraview : instance := the (@__init__ Reference.env ParaViewTheme).

Lemma eq_is_vacuous_for_classes_without_slots_witness :
  @__eq__ Reference.env default_theme (VInstance deprecated_dark) = Ok true
  ∧ @py_eq Reference.env (VInstance default_theme) (VInstance deprecated_dark) = Ok false
  ∧ @py_eq Reference.env (VInstance deprecated_paraview) (VInstance deprecated_dark)
    = Ok true
  ∧ @py_eq Reference.env (VInstance default_theme) (VStr "dark") = Ok false.
Proof.
  destruct (@eq_is_vacuous_for_classes_without_slots Reference.env default_theme
              deprecated_dark) as (_ & _ & T3 & T4 & _ & T6).
  destruct (@eq_is_vacuous_for_classes_without_slots Reference.env deprecated_paraview
              deprecated_dark) as (_ & _ & _ & _ & T5 & _).
  split; [apply T3; reflexivity|].
  split; [rewrite T4; vm_compute; reflexivity|].
  split; [apply T5; reflexivity|].
  apply T6. discriminate.
Defined.

Lemma register_default_then_from_default_witness :
  let dict_ := VDict [("name", VStr "mine"); ("show_edges", VBool true)] in
  let reg' := register_default initial_registry Theme "mine" dict_ in
  @from_default Reference.env reg' Theme "mine" = @from_dict Reference.env Theme dict_
  ∧ @from_default Reference.env reg' DarkTheme "mine"
    = @from_dict Reference.env DarkTheme dict_
  ∧ Open.defaults reg' Theme = (Open.defaults initial_registry Theme ++ ["mine"])%list
  ∧ @from_default Reference.env reg' Theme "dark"
    = @from_default Reference.env initial_registry Theme "dark"
  ∧ @from_default Reference.env (register_default initial_registry DarkTheme "mine" dict_)
      Theme "mine"
    = Raise (Exn AttributeError "mine").
Proof.
  cbv zeta.
  destruct (@register_default_then_from_default Reference.env initial_registry Theme
              "mine" (VDict [("name", VStr "mine"); ("show_edges", VBool true)]))
    as (T1 & T2 & T3 & _ & T5); [apply ok_initial|by_evaluation|].
  destruct (@register_default_then_from_default Reference.env initial_registry DarkTheme
              "mine" (VDict [("name", VStr "mine"); ("show_edges", VBool true)]))
    as (_ & _ & _ & T4 & _); [apply ok_initial|by_evaluation|].
  split; [exact T1|]. split; [|split; [|split]].
  - apply (T2 DarkTheme [DarkTheme] []); [reflexivity|].
    intros k Hk. reflexivity.
  - apply (T3 Theme); [reflexivity|by_evaluation_false].
  - apply T5. discriminate.
  - apply T4; [reflexivity|by_evaluation_false|]. intros k Hk. reflexivity.
Defined.

Lemma set_plot_theme_misses_names_not_in_lower_case_witness :
  let st' := State default_theme
               (register_default initial_registry Theme "Mine"
                  (VDict [("name", VStr "mine")])) in
  "Mine" ∈ Open.defaults (theme_registry st') Theme
  ∧ @set_plot_theme Reference.env st' (VStr "Mine")
    = (st', Raise (Exn ValueError
                     (@Open.not_found_msg Reference.env (theme_registry st') "mine"))).
Proof.
  cbv zeta.
  apply (@set_plot_theme_misses_names_not_in_lower_case Reference.env state_at_import
           "Mine" (VDict [("name", VStr "mine")]));
    [apply ok_initial|by_evaluation|by_evaluation_false|by_evaluation_false].
Defined.

Lemma set_plot_theme_from_env_swallows_ValueError_witness :
  @_set_plot_theme_from_env Reference.env state_at_import = (state_at_import, Ok ())
  ∧ @_set_plot_theme_from_env (env_with "PYVISTA_PLOT_THEME" "Solarized")
      state_at_import
    = (state_at_import, Ok ()).
Proof.
  split.
  - destruct (@set_plot_theme_from_env_swallows_ValueError Reference.env
                state_at_import) as (_ & T & _); [apply ok_initial|].
    apply T. reflexivity.
  - destruct (@set_plot_theme_from_env_swallows_ValueError
                (env_with "PYVISTA_PLOT_THEME" "Solarized") state_at_import)
      as (_ & _ & T); [apply ok_initial|].
    apply (T "Solarized"); [reflexivity|by_evaluation_false].
Defined.

Lemma trame_extension_excludes_proxy_witness :
  let E := env_with "TRAME_JUPYTER_WWW" "/www" in
  ∃ t,
    (t0 ← @__init__ E _TrameConfig;
     Open.assign_all (@_CameraConfig_from_dict E) t0
       [("server_proxy_enabled", VBool true); ("jupyter_extension_enabled", VInt 1)])
    = Ok t
    ∧ trame_consistent t.
Proof.
  cbv zeta. eexists. split; [vm_compute; reflexivity|].
  apply (@trame_extension_excludes_proxy (env_with "TRAME_JUPYTER_WWW" "/www")
           [("server_proxy_enabled", VBool true); ("jupyter_extension_enabled", VInt 1)]).
  - apply Forall_forall. intros kv Hkv.
    repeat (apply elem_of_cons in Hkv as [->|Hkv]; [by_evaluation|]).
    by apply elem_of_nil in Hkv.
  - vm_compute. reflexivity.
Defined.

Lemma window_size_accepts_two_items_not_negative_witness :
  (∃ self', @setattr Reference.env default_theme "window_size" (VList [VInt 0; VInt 0])
            = Ok self'
            ∧ @getattr Reference.env self' "window_size" = Ok (VList [VInt 0; VInt 0]))
  ∧ @setattr Reference.env default_theme "window_size" (VList [VInt 800; VInt (-1)])
    = Raise (Exn ValueError "Window size must be a positive value.")
  ∧ @setattr Reference.env default_theme "window_size" (VList [VInt 800])
    = Raise (Exn ValueError "Expected a length 2 iterable for ``window_size``.").
Proof.
  destruct (@window_size_accepts_two_items_not_negative Reference.env default_theme)
    as (T1 & T2 & T3); [apply Theme_is_theme_class|].
  split; [|split].
  - apply T1; lia.
  - apply T2. lia.
  - apply T3. simpl. lia.
Defined.

Lemma image_scale_stores_the_integer_witness :
  (∃ self', @setattr Reference.env default_theme "image_scale"
              (VFloat 0x3FF8000000000000) = Ok self'
            ∧ @getattr Reference.env self' "image_scale" = Ok (VInt 1))
  ∧ @setattr Reference.env default_theme "image_scale" (VFloat 0x3FE0000000000000)
    = Raise (Exn ValueError "Scale factor must be a positive integer.").
Proof.
  split.
  - destruct (@image_scale_stores_the_integer Reference.env default_theme
                (VFloat 0x3FF8000000000000) 1) as [T _];
      [apply Theme_is_theme_class|vm_compute; reflexivity|].
    apply T. lia.
  - destruct (@image_scale_stores_the_integer Reference.env default_theme
                (VFloat 0x3FE0000000000000) 0) as [_ T];
      [apply Theme_is_theme_class|vm_compute; reflexivity|].
    apply T. lia.
Defined.

Lemma anti_aliasing_names_or_None_witness :
  @setattr Reference.env default_theme "anti_aliasing" (VStr "ssaa")
  = Ok (wr "_anti_aliasing" (VStr "ssaa") default_theme)
  ∧ @setattr Reference.env default_theme "anti_aliasing" (VStr "SSAA")
    = Raise (Exn ValueError
               ("anti_aliasing must be either " ++ quoted "ssaa" ++ ", "
                ++ quoted "msaa" ++ ", or " ++ quoted "fxaa"))
  ∧ @setattr Reference.env default_theme "anti_aliasing" (VBool false)
    = Raise (Exn TypeError
               ("anti_aliasing must be either " ++ quoted "ssaa" ++ ", "
                ++ quoted "msaa" ++ ", " ++ quoted "fxaa" ++ ", or None")).
Proof.
  destruct (@anti_aliasing_names_or_None Reference.env default_theme)
    as (T1 & _ & T3 & T4 & _); [apply Theme_is_theme_class|].
  split; [|split].
  - apply T1. by_evaluation.
  - apply T3. by_evaluation_false.
  - apply T4; [discriminate|]. intros a. discriminate.
Defined.

Lemma nested_configurations_are_type_checked_witness :
  (∃ self', @setattr Reference.env default_theme "font" (VConfig _Font []) = Ok self'
            ∧ i_cls self' = Theme
            ∧ @getattr Reference.env self' "font" = Ok (VConfig _Font []))
  ∧ ∃ msg, @setattr Reference.env default_theme "font" (VDict [("size", VInt 3)])
           = Raise (Exn TypeError msg).
Proof.
  destruct (@nested_configurations_are_type_checked Reference.env default_theme
              "font" _Font) as [T1 T2]; [apply Theme_is_theme_class|by_evaluation|].
  split.
  - apply T1.
  - apply T2. intros slots. discriminate.
Defined.

(** *** Class and slots are kept *)

(** [self'] has the class of [self] and every slot [self] has. *)
Definition extends (self self' : instance) : Prop :=
  i_cls self' = i_cls self
  ∧ ∀ s, is_Some (assoc_get s (i_slots self)) → is_Some (assoc_get s (i_slots self')).

(** An instance of class [c] with every slot of the class set. *)
Definition complete (c : cls) (self : instance) : Prop :=
  i_cls self = c ∧ has_slots (_all__slots__ c) (i_slots self).

Lemma extends_refl (self : instance) : extends self self.
Proof. by split. Qed.

Lemma extends_trans (a b c : instance) : extends a b → extends b c → extends a c.
Proof.
  intros [Hc1 Hs1] [Hc2 Hs2]. split; [congruence|]. intros s Hs. by apply Hs2, Hs1.
Qed.

Lemma extends_wr (self t : instance) (slot : string) (v : value) :
  extends self t → extends self (wr slot v t).
Proof.
  intros [Hc Hs]. split; [done|]. intros s Hin. simpl.
  destruct (decide (slot = s)) as [->|Hne].
  - by rewrite assoc_get_set_eq.
  - rewrite assoc_get_set_ne by done. by apply Hs.
Qed.

Lemma extends_complete (c : cls) (self self' : instance) :
  extends self self' → complete c self → complete c self'.
Proof.
  intros [Hc Hs] [Hcls Hhas]. split; [congruence|].
  intros s Hin. by apply Hs, Hhas.
Qed.

(** A setter that keeps the class and the slots. *)
Definition keeps_shape `{Env} (p : property) : Prop :=
  ∀ self v self', fset p self v = Ok self' → extends self self'.

Ltac shape :=
  let self := fresh "self" in
  let v := fresh "v" in
  let self' := fresh "self'" in
  let Hset := fresh "Hset" in
  intros self v self' Hset; simpl in Hset;
  unfold truthy, mbind, res_bind in Hset; simpl in Hset;
  repeat (case_match; simplify_eq); simplify_eq;
  repeat apply extends_wr; apply extends_refl.

Lemma assoc_get_Forall {A} (P : A → Prop) (k : string) (l : list (string * A)) (x : A) :
  Forall (λ kv, P kv.2) l → assoc_get k l = Some x → P x.
Proof.
  induction 1 as [|[k' y] l Hy Hl IH]; simpl; [done|].
  destruct (decide (k' = k)); [by intros [= <-]|done].
Qed.

Section Shape.
Context `{Env}.
Variable cam : value → res instance.

Lemma one_of_keeps_shape (names : list string) (msg : value → string) (slot : string) :
  keeps_shape (one_of names msg slot).
Proof.
  intros self v self' Hset. simpl in Hset.
  destruct (mapM _ names) as [same|e]; [|done]. simpl in Hset.
  destruct (existsb id same); simplify_eq. apply extends_wr, extends_refl.
Qed.

Ltac shape_table :=
  repeat (apply Forall_cons; split; [first [apply one_of_keeps_shape|shape]|]);
  apply Forall_nil_2.

Lemma Theme_properties_keep_shape :
  Forall (λ kp, keeps_shape kp.2) (Open.Theme_properties cam).
Proof. unfold Open.Theme_properties. shape_table. Qed.

Lemma properties_keep_shape (c : cls) :
  Forall (λ kp, keeps_shape kp.2) (Open.properties cam c).
Proof.
  destruct c; simpl; try apply Theme_properties_keep_shape.
  - unfold Open._LightingConfig_properties. shape_table.
  - unfold Open._DepthPeelingConfig_properties. shape_table.
  - unfold Open._SilhouetteConfig_properties. shape_table.
  - unfold Open._ColorbarConfig_properties. shape_table.
  - unfold Open._AxesConfig_properties. shape_table.
  - unfold Open._Font_properties. shape_table.
  - unfold Open._SliderStyleConfig_properties. shape_table.
  - unfold Open._TrameConfig_properties. shape_table.
  - unfold Open._CameraConfig_properties. shape_table.
Qed.

Lemma setattr_extends (self self' : instance) (key : string) (v : value) :
  Open.setattr cam self key v = Ok self' → extends self self'.
Proof.
  unfold Open.setattr.
  destruct (assoc_get key (Open.properties cam (i_cls self))) as [p|] eqn:Hp.
  - apply (assoc_get_Forall keeps_shape _ _ _ (properties_keep_shape _) Hp).
  - case_match; intros; simplify_eq. apply extends_wr, extends_refl.
Qed.

Lemma assign_all_extends (kvs : list (string * value)) :
  ∀ self self', Open.assign_all cam self kvs = Ok self' → extends self self'.
Proof.
  induction kvs as [|[k v] kvs IH]; intros self self'; simpl.
  - intros [= <-]. apply extends_refl.
  - destruct (Open.setattr cam self k v) as [self1|e] eqn:Hset; [|done]. simpl.
    intros Hrest. eapply extends_trans; [by eapply setattr_extends|by apply IH].
Qed.

Lemma assign_in_extends (self self' : instance) (attr name : string) (v : value) :
  Open.assign_in cam self attr name v = Ok self' → extends self self'.
Proof.
  unfold Open.assign_in. intros Hset. unfold mbind, res_bind in Hset.
  repeat (case_match; simplify_eq); simplify_eq. apply extends_wr, extends_refl.
Qed.

End Shape.

Section Complete.
Context `{Env}.
Variable cam : value → res instance.

Lemma Theme_init_complete (c : cls) (t : instance) :
  theme_class c → Open.Theme_init cam c = Ok t → complete c t.
Proof.
  intros Hc Hinit. unfold Open.Theme_init in Hinit.
  unfold mbind, res_bind in Hinit.
  repeat (case_match; simplify_eq); simplify_eq.
  all: split; [done|];
    rewrite (proj2 (theme_class_tables cam c Hc));
    apply has_slots_by_evaluation; vm_compute; reflexivity.
Qed.

Ltac subclass_init Hinit :=
  unfold mbind, res_bind in Hinit;
  repeat (case_match; simplify_eq); simplify_eq;
  repeat first
    [ eassumption
    | match goal with
      | H : Open.assign_all _ _ _ = Ok ?t |- complete _ ?t =>
          apply (extends_complete _ _ _ (assign_all_extends cam _ _ _ H))
      | H : Open.assign_in _ _ _ _ _ = Ok ?t |- complete _ ?t =>
          apply (extends_complete _ _ _ (assign_in_extends cam _ _ _ _ _ H))
      | H : Open.Theme_init _ _ = Ok ?t |- complete _ ?t =>
          apply Theme_init_complete; [by_evaluation|exact H]
      end ].

Lemma DocumentTheme_init_complete (c : cls) (t : instance) :
  theme_class c → Open.DocumentTheme_init cam c = Ok t → complete c t.
Proof.
  intros Hc Hinit. unfold Open.DocumentTheme_init in Hinit.
  unfold mbind, res_bind in Hinit.
  repeat (case_match; simplify_eq); simplify_eq.
  repeat first
    [ match goal with
      | H : Open.assign_all _ _ _ = Ok ?t |- complete _ ?t =>
          apply (extends_complete _ _ _ (assign_all_extends cam _ _ _ H))
      | H : Open.assign_in _ _ _ _ _ = Ok ?t |- complete _ ?t =>
          apply (extends_complete _ _ _ (assign_in_extends cam _ _ _ _ _ H))
      end ].
  by apply Theme_init_complete.
Qed.

(** The setters of [_SliderStyleConfig] that its constructor calls write
    the slot of their name. *)
Definition slider_attributes : list string :=
  [ "slider_length"; "slider_width"; "slider_color"; "tube_width"; "tube_color";
    "cap_opacity"; "cap_length"; "cap_width" ].

Lemma slider_setattr_writes (self self' : instance) (key : string) (v : value) :
  i_cls self = _SliderStyleConfig → key ∈ slider_attributes →
  Open.setattr cam self key v = Ok self' →
  ∃ x, self' = wr ("_" ++ key) x self.
Proof.
  intros Hcls Hkey. unfold Open.setattr. rewrite Hcls. unfold slider_attributes in Hkey.
  repeat (apply elem_of_cons in Hkey as [->|Hkey]); [..|by apply elem_of_nil in Hkey];
    simpl; unfold mbind, res_bind; intros Hset;
    repeat (case_match; simplify_eq); simplify_eq; by eexists.
Qed.

Lemma slider_assign_all_writes (kvs : list (string * value)) :
  ∀ self self',
    i_cls self = _SliderStyleConfig →
    Forall (λ kv, kv.1 ∈ slider_attributes) kvs →
    Open.assign_all cam self kvs = Ok self' →
    i_cls self' = _SliderStyleConfig
    ∧ ∀ key, key ∈ kvs.*1 → is_Some (assoc_get ("_" ++ key) (i_slots self')).
Proof.
  induction kvs as [|[k v] kvs IH]; intros self self' Hcls Hkeys; simpl.
  - intros [= <-]. split; [done|]. intros kv Hkv. by apply elem_of_nil in Hkv.
  - apply Forall_cons in Hkeys as [Hk Hkeys].
    destruct (Open.setattr cam self k v) as [self1|e] eqn:Hset; [|done]. simpl.
    intros Hrest.
    simpl in Hk.
    destruct (slider_setattr_writes _ _ _ _ Hcls Hk Hset) as [x ->].
    destruct (IH (wr ("_" ++ k) x self) self' Hcls Hkeys Hrest) as [Hcls' Hslots].
    split; [done|]. intros kv Hkv. apply elem_of_cons in Hkv as [->|Hkv].
    + apply (assign_all_extends cam _ _ _ Hrest). simpl. by rewrite assoc_get_set_eq.
    + by apply Hslots.
Qed.

Lemma SliderStyleConfig_init_complete (t : instance) :
  Open._SliderStyleConfig_init cam = Ok t → complete _SliderStyleConfig t.
Proof.
  unfold Open._SliderStyleConfig_init. intros Hinit.
  pose proof (assign_all_extends cam _ _ _ Hinit) as [_ Hold].
  match type of Hinit with
  | Open.assign_all _ ?inst ?kvs = _ =>
      assert (Forall (λ kv, kv.1 ∈ slider_attributes) kvs) as Hkeys by by_evaluation;
      destruct (slider_assign_all_writes kvs inst t eq_refl Hkeys Hinit) as [Hcls Hnew]
  end.
  split; [done|]. intros s Hs. unfold _all__slots__ in Hs. simpl in Hs.
  repeat (apply elem_of_cons in Hs as [->|Hs]); [..|by apply elem_of_nil in Hs].
  - apply Hold. done.
  - apply (Hnew "slider_length"). by_evaluation.
  - apply (Hnew "slider_width"). by_evaluation.
  - apply (Hnew "slider_color"). by_evaluation.
  - apply (Hnew "tube_width"). by_evaluation.
  - apply (Hnew "tube_color"). by_evaluation.
  - apply (Hnew "cap_opacity"). by_evaluation.
  - apply (Hnew "cap_length"). by_evaluation.
  - apply (Hnew "cap_width"). by_evaluation.
Qed.

Lemma init_complete (c : cls) (t : instance) :
  Open.__init__ cam c = Ok t → complete c t.
Proof.
  destruct c; simpl; intros Hinit.
  - unfold Open._LightingConfig_init in Hinit. simplify_eq.
    split; [done|]. apply has_slots_by_evaluation. vm_compute. reflexivity.
  - unfold Open._DepthPeelingConfig_init in Hinit. simplify_eq.
    split; [done|]. apply has_slots_by_evaluation. vm_compute. reflexivity.
  - unfold Open._SilhouetteConfig_init, mbind, res_bind in Hinit.
    repeat (case_match; simplify_eq); simplify_eq.
    split; [done|]. apply has_slots_by_evaluation. vm_compute. reflexivity.
  - unfold Open._ColorbarConfig_init in Hinit. simplify_eq.
    split; [done|]. apply has_slots_by_evaluation. vm_compute. reflexivity.
  - unfold Open._AxesConfig_init, mbind, res_bind in Hinit.
    repeat (case_match; simplify_eq); simplify_eq.
    split; [done|]. apply has_slots_by_evaluation. vm_compute. reflexivity.
  - unfold Open._Font_init, mbind, res_bind in Hinit.
    repeat (case_match; simplify_eq); simplify_eq.
    split; [done|]. apply has_slots_by_evaluation. vm_compute. reflexivity.
  - by apply SliderStyleConfig_init_complete.
  - unfold Open._TrameConfig_init in Hinit.
    repeat (case_match; simplify_eq); simplify_eq.
    all: split; [done|]; apply has_slots_by_evaluation; vm_compute; reflexivity.
  - unfold Open._CameraConfig_init in Hinit. simplify_eq.
    split; [done|]. apply has_slots_by_evaluation. vm_compute. reflexivity.
  - apply Theme_init_complete; [by_evaluation|done].
  - unfold Open.DarkTheme_init in Hinit. subclass_init Hinit.
  - unfold Open.ParaViewTheme_init in Hinit. subclass_init Hinit.
  - apply DocumentTheme_init_complete; [by_evaluation|done].
  - unfold Open.DocumentProTheme_init in Hinit.
    unfold mbind, res_bind in Hinit.
    repeat (case_match; simplify_eq); simplify_eq.
    repeat first
      [ match goal with
        | H : Open.assign_all _ _ _ = Ok ?t |- complete _ ?t =>
            apply (extends_complete _ _ _ (assign_all_extends cam _ _ _ H))
        | H : Open.assign_in _ _ _ _ _ = Ok ?t |- complete _ ?t =>
            apply (extends_complete _ _ _ (assign_in_extends cam _ _ _ _ _ H))
        end ].
    apply DocumentTheme_init_complete; [by_evaluation|done].
  - unfold Open._TestingTheme_init in Hinit. subclass_init Hinit.
Qed.

Lemma from_dict_entry_extends (inst inst' : instance) (key : string) (d : value) :
  Open.from_dict_entry cam inst key d = Ok inst' → extends inst inst'.
Proof.
  unfold Open.from_dict_entry, mbind, res_bind. intros Hstep.
  repeat (case_match; simplify_eq); by eapply setattr_extends.
Qed.

Lemma from_dict_entries_extends (entries : list (string * value)) :
  ∀ inst inst', Open.from_dict_entries cam inst entries = Ok inst' → extends inst inst'.
Proof.
  induction entries as [|[k d] rest IH]; intros inst inst'; simpl.
  - intros [= <-]. apply extends_refl.
  - destruct (Open.from_dict_entry cam inst k d) as [inst1|e] eqn:Hstep; [|done].
    simpl. intros Hrest.
    eapply extends_trans; [by eapply from_dict_entry_extends|by apply IH].
Qed.

Lemma from_dict_complete (c : cls) (d : value) (t : instance) :
  Open.from_dict cam c d = Ok t → complete c t.
Proof.
  destruct (Open.__init__ cam c) as [inst0|e] eqn:Hinit.
  - destruct d; try (simpl; rewrite Hinit; discriminate).
    rewrite (from_dict_entries_unfold cam _ _ _ Hinit). intros Hrun.
    eapply extends_complete; [by eapply from_dict_entries_extends|].
    by apply init_complete.
  - destruct d; simpl; rewrite Hinit; discriminate.
Qed.

Lemma update_from_dict_extends (entries : list (string * value)) :
  ∀ self self',
    Open.update_from_dict cam self (VDict entries) = Ok self' → extends self self'.
Proof.
  induction entries as [|[k d] rest IH]; intros self self'; simpl.
  - intros [= <-]. apply extends_refl.
  - unfold mbind, res_bind.
    destruct (Open.getattr cam self k) as [attr|e]; [|done].
    match goal with
    | |- match ?m with _ => _ end = _ → _ => destruct m as [self1|e] eqn:Hstep; [|done]
    end.
    intros Hrest. apply (extends_trans _ self1).
    + destruct attr; try (by eapply setattr_extends).
      unfold mbind, res_bind in Hstep. repeat (case_match; simplify_eq); simplify_eq.
      apply extends_wr, extends_refl.
    + by apply IH.
Qed.

Lemma class_body_factory_complete (k : cls) (method : string)
    (theme : cls → res instance) (c : cls) (t : instance) :
  Open.class_body_factory cam k method = Some theme → theme c = Ok t → complete c t.
Proof.
  unfold Open.class_body_factory.
  destruct k; try done; repeat case_match; try done; intros [= <-];
    try apply from_dict_complete; try apply init_complete.
  unfold Open.document_pro_theme, Open.document_theme, mbind, res_bind.
  intros Hrun. repeat (case_match; simplify_eq); simplify_eq.
  eapply extends_complete; [by eapply update_from_dict_extends|].
  by eapply from_dict_complete.
Qed.

Lemma find_factory_complete (reg : registry) (classes : list cls) (method : string)
    (theme : cls → res instance) (c : cls) (t : instance) :
  Open.find_factory cam reg classes method = Some theme → theme c = Ok t → complete c t.
Proof.
  induction classes as [|k classes IH]; simpl; [done|].
  destruct (registered_get k method (registered reg)) as [d|].
  - intros [= <-]. apply from_dict_complete.
  - destruct (Open.class_body_factory cam k method) as [theme'|] eqn:Hbody; [|done].
    intros [= <-]. by eapply class_body_factory_complete.
Qed.

Lemma from_default_complete (reg : registry) (c : cls) (name : string) (t : instance) :
  Open.from_default cam reg c name = Ok t → complete c t.
Proof.
  unfold Open.from_default.
  destruct (assoc_get name (_defaults reg c)) as [method|]; [|done].
  destruct (Open.find_factory cam reg (mro c) method) as [theme|] eqn:Hfind; [|done].
  by eapply find_factory_complete.
Qed.

End Complete.

Section CompleteTheorems.
Context `{Env}.

(** X21.  Every configuration the classes hand out is whole: an instance
    returned by a constructor, by [from_dict] or by [from_default], of
    [Theme], of its subclasses or of [_SliderStyleConfig], whose default
    styles are its own, has the class it was asked of and a value in every
    slot of that class. *)
Theorem constructed_instances_are_complete (c : cls) (t : instance) :
  (__init__ c = Ok t → complete c t)
  ∧ (∀ dict_, from_dict c dict_ = Ok t → complete c t)
  ∧ (∀ reg name, registry_ok reg → from_default reg c name = Ok t → complete c t).
Proof.
  split; [|split].
  - apply init_complete.
  - intros dict_. apply from_dict_complete.
  - intros reg name _. apply from_default_complete.
Qed.

(** X22.  Assigning through [setattr] and updating with [update_from_dict]
    keep the class of the instance and every slot it has; an instance that
    is whole stays whole. *)
Theorem assignments_keep_class_and_slots (self self' : instance) :
  ((∃ key v, setattr self key v = Ok self')
   ∨ (∃ entries, update_from_dict self (VDict entries) = Ok self')) →
  extends self self' ∧ ∀ c, complete c self → complete c self'.
Proof.
  intros Hstep.
  assert (extends self self') as Hext.
  { destruct Hstep as [(key & v & Hset)|(entries & Hupd)].
    - by eapply setattr_extends.
    - by eapply update_from_dict_extends. }
  split; [done|]. intros c. by apply extends_complete.
Qed.

(** X23.  Let the themes registered so far bear names that no attribute of
    the classes has.  [set_plot_theme] with a name succeeds whenever the
    factory of the lowered name returns a theme: that theme is whole, so
    every slot of [Theme.__slots__] is copied into the global theme, which
    keeps its class, and nothing is raised. *)
Theorem set_plot_theme_succeeds_when_factory_returns (st : state) (name : string)
    (t : instance) :
  registry_ok (theme_registry st) →
  theme_class (i_cls (global_theme st)) →
  from_default (theme_registry st) Theme (str_lower name) = Ok t →
  ∃ g, set_plot_theme st (VStr name) = (State g (theme_registry st), Ok ())
       ∧ i_cls g = i_cls (global_theme st)
       ∧ ∀ s, s ∈ own_slots Theme →
           assoc_get s (i_slots g) = assoc_get s (i_slots t).
Proof.
  intros _ Hglobal Hfd.
  destruct (from_default_complete _ _ _ _ _ Hfd) as [Hcls Hhas].
  destruct (load_theme_instance _CameraConfig_from_dict (global_theme st)
              (i_cls t) (i_slots t)) as (g & Hload & Hg & Hslots).
  - done.
  - rewrite Hcls. by_evaluation.
  - exact Hhas.
  - exists g. unfold set_plot_theme, Open.set_plot_theme.
    unfold from_default in Hfd. rewrite Hfd. unfold VInstance.
    rewrite Hload. done.
Qed.

(** C5, as the code has it.  Let the themes registered so far bear names
    that no attribute of the classes has.  [set_plot_theme] lowers a string
    with [str.lower] and looks it up among the default themes of [Theme]:
    an unknown name raises [ValueError] naming the themes there are; an
    argument that is neither a string nor a theme raises [TypeError]; in
    both cases nothing changes.  A theme is loaded into the global theme,
    slot for slot, without error.  For a registered name the theme's factory
    is called: when it returns, what it returns is a theme with every slot
    set, which is loaded in the same way; a [KeyError] it raises comes out
    as the [ValueError] for an unknown name, and any other exception as it
    is. *)
Theorem set_plot_theme_cases (st : state) (theme : value) :
  let reg := theme_registry st in
  registry_ok reg →
  (∀ name, theme = VStr name →
     str_lower name ∉ Open.defaults reg Theme →
     set_plot_theme st theme
     = (st, Raise (Exn ValueError (Open.not_found_msg reg (str_lower name)))))
  ∧ ((∀ name, theme ≠ VStr name) → isinstance theme Theme = false →
     set_plot_theme st theme
     = (st, Raise (Exn TypeError
                     ("Expected a ``pyvista.plotting.themes.Theme`` or ``str``, not "
                      ++ type_name theme))))
  ∧ (∀ c slots,
       theme = VConfig c slots → theme_class c →
       theme_class (i_cls (global_theme st)) → has_slots (own_slots Theme) slots →
       ∃ g, set_plot_theme st theme = (State g reg, Ok ())
            ∧ i_cls g = i_cls (global_theme st)
            ∧ ∀ s, s ∈ own_slots Theme → assoc_get s (i_slots g) = assoc_get s slots)
  ∧ (∀ name t,
       theme = VStr name → from_default reg Theme (str_lower name) = Ok t →
       theme_class (i_cls (global_theme st)) →
       complete Theme t
       ∧ ∃ g, set_plot_theme st theme = (State g reg, Ok ())
              ∧ i_cls g = i_cls (global_theme st)
              ∧ ∀ s, s ∈ own_slots Theme →
                  assoc_get s (i_slots g) = assoc_get s (i_slots t))
  ∧ (∀ name e,
       theme = VStr name → from_default reg Theme (str_lower name) = Raise e →
       set_plot_theme st theme
       = (st, Raise (if bool_decide (exn_cls e = KeyError)
                     then Exn ValueError (Open.not_found_msg reg (str_lower name))
                     else e))).
Proof.
  cbv zeta. intros _. unfold set_plot_theme, Open.set_plot_theme.
  split; [|split; [|split; [|split]]].
  - intros name -> Hnone. unfold Open.from_default.
    rewrite assoc_get_None by done. done.
  - intros Hstr Hno. destruct theme; try done.
    + by destruct (Hstr s).
    + by rewrite Hno.
  - intros c slots -> Hc Hg Hhas. unfold isinstance. rewrite bool_decide_true by done.
    destruct (load_theme_instance _CameraConfig_from_dict (global_theme st) c slots)
      as (g & -> & Hcls & Hslots); [done..|].
    by exists g.
  - intros name t -> Hfd Hg.
    pose proof (from_default_complete _ _ _ _ _ Hfd) as Hwhole. split; [done|].
    destruct Hwhole as [Hcls Hhas].
    destruct (load_theme_instance _CameraConfig_from_dict (global_theme st)
                (i_cls t) (i_slots t)) as (g & Hload & Hg' & Hslots).
    + done.
    + rewrite Hcls. by_evaluation.
    + exact Hhas.
    + exists g. unfold from_default in Hfd. rewrite Hfd. unfold VInstance.
      rewrite Hload. done.
  - intros name e -> Hfd. unfold from_default in Hfd. rewrite Hfd.
    by destruct (bool_decide (exn_cls e = KeyError)).
Qed.


End CompleteTheorems.

(** [_SliderStyleConfig.from_default('classic')] *)
Definition classic_slider : instance :=
  the (@from_default Reference.env initial_registry _SliderStyleConfig "classic").

Lemma constructed_instances_are_complete_witness :
  complete Theme default_theme ∧ complete Theme dark
  ∧ complete _SliderStyleConfig classic_slider.
Proof.
  split; [|split].
  - destruct (@constructed_instances_are_complete Reference.env Theme default_theme)
      as (T & _ & _).
    apply T. vm_compute. reflexivity.
  - destruct (@constructed_instances_are_complete Reference.env Theme dark)
      as (_ & _ & T).
    apply (T initial_registry "dark"); [apply ok_initial|vm_compute; reflexivity].
  - destruct (@constructed_instances_are_complete Reference.env _SliderStyleConfig
                classic_slider) as (_ & _ & T).
    apply (T initial_registry "classic"); [apply ok_initial|vm_compute; reflexivity].
Defined.

Lemma assignments_keep_class_and_slots_witness :
  let self' := wr "_image_scale" (VInt 2) default_theme in
  extends default_theme self' ∧ ∀ c, complete c default_theme → complete c self'.
Proof.
  cbv zeta.
  apply (@assignments_keep_class_and_slots Reference.env default_theme).
  left. exists "image_scale", (VInt 2). vm_compute. reflexivity.
Defined.

Lemma set_plot_theme_succeeds_when_factory_returns_witness :
  ∃ g, @set_plot_theme Reference.env state_at_import (VStr "Dark")
       = (State g initial_registry, Ok ())
       ∧ i_cls g = Theme
       ∧ ∀ s, s ∈ own_slots Theme →
           assoc_get s (i_slots g) = assoc_get s (i_slots dark).
Proof.
  apply (@set_plot_theme_succeeds_when_factory_returns Reference.env state_at_import
           "Dark" dark).
  - apply ok_initial.
  - apply Theme_is_theme_class.
  - vm_compute. reflexivity.
Defined.

(** After [Theme.register_default('bad', {'nonexistent': 1})] the name
    ['bad'], which no attribute of the classes has, is a registered default
    theme, and [set_plot_theme('bad')] raises [AttributeError]. *)
Lemma set_plot_theme_registered_name_raises :
  let st := State default_theme
              (register_default initial_registry Theme "bad"
                 (VDict [("nonexistent", VInt 1)])) in
  registry_ok (theme_registry st)
  ∧ "bad" ∈ Open.defaults (theme_registry st) Theme
  ∧ @set_plot_theme Reference.env st (VStr "bad")
    = (st, Raise (Exn AttributeError "nonexistent")).
Proof.
  cbv zeta. split; [|split].
  - apply ok_register; [apply ok_initial|by_evaluation].
  - by_evaluation.
  - vm_compute. reflexivity.
Qed.

Lemma set_plot_theme_cases_witness :
  (∃ g,
     @set_plot_theme Reference.env state_at_import (VStr "Dark")
     = (State g initial_registry, Ok ())
     ∧ i_cls g = Theme
     ∧ ∀ s, s ∈ own_slots Theme → assoc_get s (i_slots g) = assoc_get s (i_slots dark))
  ∧ (∃ g,
       @set_plot_theme Reference.env state_at_import (VInstance dark)
       = (State g initial_registry, Ok ())
       ∧ i_cls g = Theme
       ∧ ∀ s, s ∈ own_slots Theme →
           assoc_get s (i_slots g) = assoc_get s (i_slots dark))
  ∧ @set_plot_theme Reference.env state_at_import (VStr "Solarized")
    = (state_at_import,
       Raise (Exn ValueError
                (@Open.not_found_msg Reference.env initial_registry "solarized")))
  ∧ @set_plot_theme Reference.env state_at_import (VInt 3)
    = (state_at_import,
       Raise (Exn TypeError
                "Expected a ``pyvista.plotting.themes.Theme`` or ``str``, not int")).
Proof.
  pose proof (λ theme, @set_plot_theme_cases Reference.env state_at_import theme
                         ok_initial) as T.
  split; [|split; [|split]].
  - destruct (T (VStr "Dark")) as (_ & _ & _ & T4 & _).
    apply (T4 "Dark" dark);
      [reflexivity|vm_compute; reflexivity|apply Theme_is_theme_class].
  - destruct (T (VInstance dark)) as (_ & _ & T3 & _).
    apply (T3 Theme (i_slots dark));
      [reflexivity|apply Theme_is_theme_class|apply Theme_is_theme_class
      |apply dark_complete].
  - destruct (T (VStr "Solarized")) as (T1 & _).
    apply (T1 "Solarized"); [reflexivity|by_evaluation_false].
  - destruct (T (VInt 3)) as (_ & T2 & _).
    apply T2; [discriminate|reflexivity].
Defined.


End Themes.
